(** * Obsidian Council: agent orchestration and AI provider routing core

    A shallow embedding of [obsidian-council/core/agent_base.py] and
    [obsidian-council/core/ai_service_manager.py].

    Python dictionaries are stdpp [gmap]s, lists are [list]s, [str] is
    [string].  A coroutine is a function from the state it can touch to an
    outcome and the state it leaves behind; an outcome is a returned value, a
    raised [Exception], or a raised [BaseException] that is no [Exception]
    (a cancellation), and the state left behind by a raising coroutine is
    kept, as in Python.  The external collaborators (the specialization's
    [analyze] and [get_capabilities], the provider back ends and client
    libraries, the Redis client, the WebSocket peers, [json], [datetime],
    [uuid]) are section variables.  Calls to [self.logger] are left out: they
    touch none of the fields modelled here. *)

From Stdlib Require Import ZArith QArith Qfield Floats.
From stdpp Require Import base option list strings gmap fin_maps countable.

Open Scope string_scope.
Open Scope list_scope.
Open Scope Z_scope.

(** ** Exceptions and outcomes *)

Module Py.

(** The subclasses of [Exception] that occur in the two modules: what
    [except Exception] catches. *)
Inductive ExcClass :=
  | Exception_
  | ValueError
  | KeyError
  | TypeError
  | ConnectionClosed.

#[global] Instance ExcClass_eq_dec : EqDecision ExcClass.
Proof. solve_decision. Defined.

Record Exception := mkExc { exc_class : ExcClass; exc_msg : string }.

#[global] Instance Exception_eq_dec : EqDecision Exception.
Proof. solve_decision. Defined.

(** [str(e)] *)
Definition str_exc (e : Exception) : string := exc_msg e.

(** The exceptions that derive from [BaseException] and not from
    [Exception].  An awaited call can raise [CancelledError] when the task
    that runs it is cancelled; [except Exception] does not catch any of
    them, a [finally] suite runs all the same. *)
Inductive BaseException :=
  | CancelledError
  | KeyboardInterrupt
  | SystemExit
  | GeneratorExit.

#[global] Instance BaseException_eq_dec : EqDecision BaseException.
Proof. solve_decision. Defined.

Inductive outcome (A : Type) :=
  | Return (a : A)
  | Raise (e : Exception)
  | RaiseBase (b : BaseException).
Arguments Return {A} a.
Arguments Raise {A} e.
Arguments RaiseBase {A} b.

Definition returned {A} (o : outcome A) : bool :=
  match o with Return _ => true | _ => false end.

(** Sequencing of calls that touch no state. *)
Definition and_then {A B} (o : outcome A) (k : A -> outcome B) : outcome B :=
  match o with
  | Return a => k a
  | Raise e => Raise e
  | RaiseBase b => RaiseBase b
  end.

(** A coroutine over a state [S]. *)
Definition Coro (S A : Type) : Type := S -> outcome A * S.

Definition ret {S A} (a : A) : Coro S A := fun s => (Return a, s).
Definition raise {S A} (e : Exception) : Coro S A := fun s => (Raise e, s).

Definition bind {S A B} (c : Coro S A) (k : A -> Coro S B) : Coro S B :=
  fun s =>
    match c s with
    | (Return a, s') => k a s'
    | (Raise e, s') => (Raise e, s')
    | (RaiseBase b, s') => (RaiseBase b, s')
    end.

Definition gets {S A} (f : S -> A) : Coro S A := fun s => (Return (f s), s).
Definition modify {S} (f : S -> S) : Coro S unit := fun s => (Return tt, f s).

(** An awaited external call whose outcome does not depend on our state. *)
Definition lift {S A} (o : outcome A) : Coro S A := fun s => (o, s).

(** [try: body  except Exception as e: handler e].  A [BaseException] that
    is no [Exception] passes through. *)
Definition try_except {S A} (body : Coro S A) (handler : Exception -> Coro S A)
  : Coro S A :=
  fun s =>
    match body s with
    | (Return a, s') => (Return a, s')
    | (Raise e, s') => handler e s'
    | (RaiseBase b, s') => (RaiseBase b, s')
    end.

(** [try: body  finally: fin].  The [finally] suite runs on every exit; when
    it raises, its exception replaces the outcome of the body. *)
Definition try_finally {S A} (body : Coro S A) (fin : Coro S unit) : Coro S A :=
  fun s =>
    match body s with
    | (o, s') =>
        match fin s' with
        | (Return _, s'') => (o, s'')
        | (Raise e, s'') => (Raise e, s'')
        | (RaiseBase b, s'') => (RaiseBase b, s'')
        end
    end.

End Py.

Import Py.

Declare Scope coro_scope.
Delimit Scope coro_scope with coro.
Notation "'let*' x ':=' c 'in' k" := (bind c (fun x => k))
  (at level 10, x name, c at level 200, k at level 200) : coro_scope.
Notation "'await' c 'in' k" := (bind c (fun _ => k))
  (at level 10, c at level 200, k at level 200) : coro_scope.
Notation "'exec' c 'in' k" := (bind c (fun _ => k))
  (at level 10, c at level 200, k at level 200, only parsing) : coro_scope.
Open Scope coro_scope.

(** ** Opaque structured data: what [Dict[str, Any]] holds *)

(** [datetime]: a naive timestamp, as [datetime.now()] returns it. *)
Record datetime := mkDatetime {
  year : Z; month : Z; day : Z;
  hour : Z; minute : Z; second : Z; microsecond : Z
}.

(** The values that the dictionaries of the two modules hold: the JSON data
    model, with dictionaries keyed by strings, and three kinds of value that
    are not JSON.  A tuple is written by [json.dumps] as an array, so that
    [json.loads] gives back a list; the keys of a dictionary keyed by integers
    are written as strings, so that [json.loads] gives back a dictionary keyed
    by strings; a [datetime] object is refused by [json.dumps] with
    [TypeError]. *)
#[warnings="-register-all"]
Inductive json :=
  | JNone
  | JBool (b : bool)
  | JInt (z : Z)
  | JFloat (f : float)
  | JStr (s : string)
  | JList (l : list json)
  | JDict (d : gmap string json)
  | JTuple (l : list json)
  | JDictInt (d : gmap Z json)
  | JDatetime (t : datetime).

Abbreviation pydict := (gmap string json).

(** ** agent_base.py: data model *)

Module AgentBase.

Inductive AgentStatus := OFFLINE | IDLE | WORKING | ERROR | COLLABORATION.

#[global] Instance AgentStatus_eq_dec : EqDecision AgentStatus.
Proof. solve_decision. Defined.

Inductive Priority := LOW | MEDIUM | HIGH | CRITICAL | EMERGENCY.

#[global] Instance Priority_eq_dec : EqDecision Priority.
Proof. solve_decision. Defined.

(** [priority.value] *)
Definition Priority_value (p : Priority) : Z :=
  match p with
  | LOW => 1 | MEDIUM => 2 | HIGH => 3 | CRITICAL => 4 | EMERGENCY => 5
  end.

(** [Priority(v)]: the member whose value is [v], [ValueError] when there is
    none. *)
Definition Priority_of_value (v : Z) : outcome Priority :=
  match v with
  | 1 => Return LOW
  | 2 => Return MEDIUM
  | 3 => Return HIGH
  | 4 => Return CRITICAL
  | 5 => Return EMERGENCY
  | _ => Raise (mkExc ValueError "not a valid Priority")
  end.

(** [Priority(v)] for a value of any type.  The member is looked up by
    equality with its value, and Python's numbers are equal across types:
    [2.0 == 2] and [True == 1], so [Priority(2.0)] is [MEDIUM] and
    [Priority(True)] is [LOW].  Every other value raises [ValueError]. *)
Definition Priority_of_json (j : json) : outcome Priority :=
  match j with
  | JInt v => Priority_of_value v
  | JBool b => Priority_of_value (if b then 1 else 0)
  | JFloat f =>
      if PrimFloat.eqb f 1 then Return LOW
      else if PrimFloat.eqb f 2 then Return MEDIUM
      else if PrimFloat.eqb f 3 then Return HIGH
      else if PrimFloat.eqb f 4 then Return CRITICAL
      else if PrimFloat.eqb f 5 then Return EMERGENCY
      else Raise (mkExc ValueError "not a valid Priority")
  | _ => Raise (mkExc ValueError "not a valid Priority")
  end.

Record AgentTask := mkTask {
  id : string;
  case_id : string;
  task_type : string;
  priority : Priority;
  data : pydict;
  assigned_at : datetime;
  deadline : option datetime;
  progress : float;
  status : string;
  result : option pydict;
  error : option string
}.

Definition set_status (v : string) (t : AgentTask) : AgentTask :=
  mkTask (id t) (case_id t) (task_type t) (priority t) (data t) (assigned_at t)
         (deadline t) (progress t) v (result t) (error t).
Definition set_result (v : option pydict) (t : AgentTask) : AgentTask :=
  mkTask (id t) (case_id t) (task_type t) (priority t) (data t) (assigned_at t)
         (deadline t) (progress t) (status t) v (error t).
Definition set_progress (v : float) (t : AgentTask) : AgentTask :=
  mkTask (id t) (case_id t) (task_type t) (priority t) (data t) (assigned_at t)
         (deadline t) v (status t) (result t) (error t).
Definition set_error (v : option string) (t : AgentTask) : AgentTask :=
  mkTask (id t) (case_id t) (task_type t) (priority t) (data t) (assigned_at t)
         (deadline t) (progress t) (status t) (result t) v.

Record AgentMessage := mkMessage {
  msg_id : string;
  sender : string;
  recipient : string;
  message_type : string;
  content : pydict;
  timestamp : datetime;
  msg_priority : Priority
}.

(** Objects that are shared by reference are named by an address: an agent
    (its [message_queue] lives in the world below) and a WebSocket peer. *)
Definition AgentRef := nat.
Definition WebSocket := nat.

(** The fields of [ObsidianAgent] that the task and message core reads or
    writes.  [council_agents] maps a codename to the agent object registered
    under it.  [current_tasks] holds the task objects themselves; the routine
    that processes a task carries the object along and nothing modelled here
    reads it back through the table before the entry is deleted. *)
Record ObsidianAgent := mkAgent {
  name : string;
  codename : string;
  specialization : string;
  agent_status : AgentStatus;
  current_tasks : gmap string AgentTask;
  session_memory : pydict;
  websocket_connections : list WebSocket;
  council_agents : gmap string AgentRef
}.

Definition with_status (v : AgentStatus) (a : ObsidianAgent) : ObsidianAgent :=
  mkAgent (name a) (codename a) (specialization a) v (current_tasks a)
          (session_memory a) (websocket_connections a) (council_agents a).
Definition with_current_tasks (v : gmap string AgentTask) (a : ObsidianAgent)
  : ObsidianAgent :=
  mkAgent (name a) (codename a) (specialization a) (agent_status a) v
          (session_memory a) (websocket_connections a) (council_agents a).
Definition with_session_memory (v : pydict) (a : ObsidianAgent) : ObsidianAgent :=
  mkAgent (name a) (codename a) (specialization a) (agent_status a)
          (current_tasks a) v (websocket_connections a) (council_agents a).
Definition with_websocket_connections (v : list WebSocket) (a : ObsidianAgent)
  : ObsidianAgent :=
  mkAgent (name a) (codename a) (specialization a) (agent_status a)
          (current_tasks a) (session_memory a) v (council_agents a).

(** What lies outside one agent object: every agent's [asyncio.Queue], the
    units of work handed to [asyncio.create_task] and not yet run, what Redis
    accepted on each channel, what each WebSocket peer accepted, and the
    number of readings taken so far from the clock and from [uuid.uuid4]. *)
Record World := mkWorld {
  mailboxes : gmap AgentRef (list AgentMessage);
  spawned : list AgentTask;
  redis_published : list (string * string);
  ws_sent : list (WebSocket * string);
  ticks : nat
}.

Definition with_mailboxes (v : gmap AgentRef (list AgentMessage)) (w : World) :=
  mkWorld v (spawned w) (redis_published w) (ws_sent w) (ticks w).
Definition with_spawned (v : list AgentTask) (w : World) :=
  mkWorld (mailboxes w) v (redis_published w) (ws_sent w) (ticks w).
Definition with_redis_published (v : list (string * string)) (w : World) :=
  mkWorld (mailboxes w) (spawned w) v (ws_sent w) (ticks w).
Definition with_ws_sent (v : list (WebSocket * string)) (w : World) :=
  mkWorld (mailboxes w) (spawned w) (redis_published w) v (ticks w).
Definition with_ticks (v : nat) (w : World) :=
  mkWorld (mailboxes w) (spawned w) (redis_published w) (ws_sent w) v.

(** What [get_capabilities] declares.  The core reads the key
    ["supported_tasks"] only; the key may be missing. *)
Record Capabilities := mkCapabilities {
  supported_tasks : option (list string)
}.

(** The state an agent coroutine runs on. *)
Definition AgentState : Type := ObsidianAgent * World.

Definition on_self {A} (f : ObsidianAgent -> A) : Coro AgentState A :=
  gets (fun s => f (fst s)).
Definition update_self (f : ObsidianAgent -> ObsidianAgent) : Coro AgentState unit :=
  modify (fun s => (f (fst s), snd s)).
Definition update_world (f : World -> World) : Coro AgentState unit :=
  modify (fun s => (fst s, f (snd s))).

(** A coroutine of the agent run by one that also holds a task object. *)
Definition with_task {A} (c : Coro AgentState A) : Coro (AgentTask * AgentState) A :=
  fun s =>
    match c (snd s) with
    | (o, s') => (o, (fst s, s'))
    end.
Definition the_task : Coro (AgentTask * AgentState) AgentTask :=
  gets fst.
Definition update_task (f : AgentTask -> AgentTask) : Coro (AgentTask * AgentState) unit :=
  modify (fun s => (f (fst s), snd s)).

(** [except cls as e: handler e]: other classes pass through. *)
Definition try_except_class {S A} (cls : ExcClass) (body : Coro S A)
    (handler : Exception -> Coro S A) : Coro S A :=
  try_except body
    (fun e => if decide (exc_class e = cls) then handler e else raise e).

(** [l.remove(x)] for an [x] known to be in [l]: drops the first occurrence. *)
Fixpoint list_remove (x : WebSocket) (l : list WebSocket) : list WebSocket :=
  match l with
  | [] => []
  | y :: l' => if decide (x = y) then l' else y :: list_remove x l'
  end.

(** [queue.put(m)] on the unbounded queue of the agent at [r]. *)
Definition queue_put (r : AgentRef) (m : AgentMessage) : Coro AgentState unit :=
  update_world (fun w =>
    with_mailboxes (<[r := default [] (mailboxes w !! r) ++ [m]]> (mailboxes w)) w).

Section Agent.

(** The capability contract, supplied by the concrete specialization.
    [analyze] is a long-running coroutine of the agent: besides its outcome
    it yields the agent object as it stands when the coroutine resumes. *)
Variable analyze : pydict -> pydict -> ObsidianAgent -> outcome pydict * ObsidianAgent.
Variable get_capabilities : ObsidianAgent -> outcome Capabilities.

(** Library and transport.  [json.dumps] raises [TypeError] on a value it
    cannot serialize. *)
Variable json_dumps : json -> outcome string.
Variable isoformat : datetime -> string.
Variable clock : nat -> datetime.
Variable uuid : nat -> string.
Variable redis_publish : string -> string -> outcome Z.
Variable ws_send : WebSocket -> string -> outcome unit.

Definition tick : Coro AgentState nat :=
  let* n := gets (fun s => ticks (snd s)) in
  exec update_world (with_ticks (S n)) in
  ret n.

(** [datetime.now()] *)
Definition datetime_now : Coro AgentState datetime :=
  let* n := tick in ret (clock n).

(** [str(uuid.uuid4())] *)
Definition uuid4 : Coro AgentState string :=
  let* n := tick in ret (uuid n).

Definition self_analyze (d ctx : pydict) : Coro AgentState pydict :=
  fun s =>
    match analyze d ctx (fst s) with
    | (o, a') => (o, (a', snd s))
    end.

Definition redis_client_publish (channel payload : string) : Coro AgentState Z :=
  let* n := lift (redis_publish channel payload) in
  exec update_world (fun w =>
    with_redis_published (redis_published w ++ [(channel, payload)]) w) in
  ret n.

Definition websocket_send (ws : WebSocket) (payload : string) : Coro AgentState unit :=
  await lift (ws_send ws payload) in
  update_world (fun w => with_ws_sent (ws_sent w ++ [(ws, payload)]) w).

Definition remove_websocket_client (ws : WebSocket) : Coro AgentState unit :=
  let* conns := on_self websocket_connections in
  if decide (ws ∈ conns)
  then update_self (with_websocket_connections (list_remove ws conns))
  else ret tt.

(** The first [for] loop of [_broadcast_to_websockets]. *)
Fixpoint broadcast_loop (conns : list WebSocket) (message_json : string)
    (disconnected : list WebSocket) : Coro AgentState (list WebSocket) :=
  match conns with
  | [] => ret disconnected
  | ws :: rest =>
      let* disconnected' :=
        try_except_class ConnectionClosed
          (await websocket_send ws message_json in ret disconnected)
          (fun _ => ret (disconnected ++ [ws])) in
      broadcast_loop rest message_json disconnected'
  end.

(** The second one. *)
Fixpoint remove_loop (disconnected : list WebSocket) : Coro AgentState unit :=
  match disconnected with
  | [] => ret tt
  | ws :: rest => await remove_websocket_client ws in remove_loop rest
  end.

Definition _broadcast_to_websockets (message : json) : Coro AgentState unit :=
  let* conns := on_self websocket_connections in
  match conns with
  | [] => ret tt
  | _ :: _ =>
      let* message_json := lift (json_dumps message) in
      let* disconnected := broadcast_loop conns message_json [] in
      remove_loop disconnected
  end.

Definition json_of_option_dict (d : option pydict) : json :=
  match d with
  | Some d => JDict d
  | None => JNone
  end.

(** The [notification] dictionary of [_notify_task_completion]. *)
Definition notification (agent : string) (task : AgentTask) (ts : string) : json :=
  JDict (<["agent" := JStr agent]>
        (<["task_id" := JStr (id task)]>
        (<["status" := JStr (status task)]>
        (<["result" := json_of_option_dict (result task)]>
        (<["timestamp" := JStr ts]> ∅))))).

(** [json.dumps(notification)] is an argument of [publish]: when it raises,
    the sink is not called. *)
Definition _notify_task_completion (task : AgentTask) : Coro AgentState unit :=
  let* agent := on_self codename in
  let* ts := datetime_now in
  let n := notification agent task (isoformat ts) in
  let* payload := lift (json_dumps n) in
  await redis_client_publish "task_completions" payload in
  _broadcast_to_websockets n.

Definition _can_handle_task (task : AgentTask) : Coro AgentState bool :=
  let* self := on_self (fun a => a) in
  let* capabilities := lift (get_capabilities self) in
  let supported := default [] (supported_tasks capabilities) in
  ret (bool_decide (task_type task ∈ supported)).

Definition assign_task (task : AgentTask) : Coro AgentState bool :=
  try_except
    (let* can := _can_handle_task task in
     if negb can then ret false
     else
       exec update_self (fun a =>
         with_current_tasks (<[id task := task]> (current_tasks a)) a) in
       exec update_self (with_status WORKING) in
       exec update_world (fun w => with_spawned (spawned w ++ [task]) w) in
       ret true)
    (fun _ => ret false).

Definition _process_task : Coro (AgentTask * AgentState) unit :=
  try_finally
    (try_except
       (exec update_task (set_status "in_progress") in
        let* task := the_task in
        let* res := with_task
          (self_analyze (data task) {["case_id" := JStr (case_id task)]}) in
        exec update_task (set_result (Some res)) in
        exec update_task (set_status "completed") in
        exec update_task (set_progress 100%float) in
        let* task := the_task in
        with_task (_notify_task_completion task))
       (fun e =>
          exec update_task (set_status "failed") in
          update_task (set_error (Some (str_exc e)))))
    (let* task := the_task in
     let* tasks := with_task (on_self current_tasks) in
     exec (match tasks !! id task with
            | Some _ =>
                with_task (update_self (with_current_tasks (delete (id task) tasks)))
            | None => ret tt
            end) in
     let* tasks := with_task (on_self current_tasks) in
     if bool_decide (size tasks = 0%nat)
     then with_task (update_self (with_status IDLE))
     else ret tt).

Definition collaborate_with (agent_name : string) (request : pydict)
  : Coro AgentState unit :=
  let* council := on_self council_agents in
  match council !! agent_name with
  | None =>
      raise (mkExc ValueError
               ("Agent " ++ agent_name ++ " not available for collaboration")%string)
  | Some target_agent =>
      let* mid := uuid4 in
      let* me := on_self codename in
      let* ts := datetime_now in
      let message :=
        mkMessage mid me agent_name "collaboration_request" request ts MEDIUM in
      queue_put target_agent message
  end.

Definition _handle_collaboration_request (message : AgentMessage)
  : Coro AgentState unit :=
  exec update_self (with_status COLLABORATION) in
  try_finally
    (try_except
       (let* res := self_analyze (content message) {["collaboration" := JBool true]} in
        let* mid := uuid4 in
        let* me := on_self codename in
        let* ts := datetime_now in
        let response :=
          mkMessage mid me (sender message) "collaboration_response"
                    {["result" := JDict res]} ts MEDIUM in
        let* council := on_self council_agents in
        (* [if sender_agent:] an agent object is truthy *)
        match council !! sender message with
        | Some sender_agent => queue_put sender_agent response
        | None => ret tt
        end)
       (fun _ => ret tt))
    (let* tasks := on_self current_tasks in
     if bool_decide (size tasks = 0%nat)
     then update_self (with_status IDLE)
     else ret tt).

End Agent.

(** *** The wire shape of a message *)

(** [obj[key]] *)
Definition getitem (obj : json) (key : string) : outcome json :=
  match obj with
  | JDict d =>
      match d !! key with
      | Some v => Return v
      | None => Raise (mkExc KeyError key)
      end
  | JDictInt _ => Raise (mkExc KeyError key)
  | _ => Raise (mkExc TypeError "indices must be integers")
  end.

(** The argument of [datetime.fromisoformat] must be a string. *)
Definition as_str (j : json) : outcome string :=
  match j with
  | JStr s => Return s
  | _ => Raise (mkExc TypeError "fromisoformat: argument must be str")
  end.

(** The annotations of a dataclass are not checked.  An [AgentMessage] built
    from a decoded object holds under [id], [sender], [recipient],
    [message_type] and [content] whatever value the object had there; only
    the timestamp and the priority are converted. *)
Record DecodedMessage := mkDecoded {
  decoded_id : json;
  decoded_sender : json;
  decoded_recipient : json;
  decoded_message_type : json;
  decoded_content : json;
  decoded_timestamp : datetime;
  decoded_priority : Priority
}.

(** A message whose fields have the annotated types, seen as such an
    object. *)
Definition as_decoded (m : AgentMessage) : DecodedMessage :=
  mkDecoded (JStr (msg_id m)) (JStr (sender m)) (JStr (recipient m))
            (JStr (message_type m)) (JDict (content m)) (timestamp m)
            (msg_priority m).

Section Wire.

Variable json_dumps : json -> outcome string.
Variable json_loads : string -> outcome json.
Variable isoformat : datetime -> string.
Variable fromisoformat : string -> outcome datetime.

Definition wire_object (message : AgentMessage) : json :=
  JDict (<["id" := JStr (msg_id message)]>
        (<["sender" := JStr (sender message)]>
        (<["recipient" := JStr (recipient message)]>
        (<["message_type" := JStr (message_type message)]>
        (<["content" := JDict (content message)]>
        (<["timestamp" := JStr (isoformat (timestamp message))]>
        (<["priority" := JInt (Priority_value (msg_priority message))]> ∅))))))).

Definition serialize_agent_message (message : AgentMessage) : outcome string :=
  json_dumps (wire_object message).

Definition deserialize_agent_message (data : string) : outcome DecodedMessage :=
  and_then (json_loads data) (fun obj =>
  and_then (getitem obj "id") (fun id_ =>
  and_then (getitem obj "sender") (fun sender_ =>
  and_then (getitem obj "recipient") (fun recipient_ =>
  and_then (getitem obj "message_type") (fun message_type_ =>
  and_then (getitem obj "content") (fun content_ =>
  and_then (and_then (and_then (getitem obj "timestamp") as_str) fromisoformat)
    (fun timestamp_ =>
  and_then (and_then (getitem obj "priority") Priority_of_json)
    (fun priority_ =>
  Return (mkDecoded id_ sender_ recipient_ message_type_ content_ timestamp_
                    priority_))))))))).

End Wire.

(** *** The mailbox: dispatch, delegation, registration *)

Definition with_council_agents (v : gmap string AgentRef) (a : ObsidianAgent)
  : ObsidianAgent :=
  mkAgent (name a) (codename a) (specialization a) (agent_status a)
          (current_tasks a) (session_memory a) (websocket_connections a) v.

(** [d.get(key, default)] *)
Definition dict_get (d : pydict) (key : string) (dflt : json) : json :=
  default dflt (d !! key).

(** What the queue of the agent at [r] holds, oldest message first. *)
Definition mailbox_of (r : AgentRef) (w : World) : list AgentMessage :=
  default [] (mailboxes w !! r).

(** [_handle_data_share]: the shared content, the message's [datetime]
    object and the sender's name are stored in [session_memory] under
    [f"shared_data_{message.sender}_{message.id}"]. *)
Definition _handle_data_share (message : AgentMessage) : Coro AgentState unit :=
  let key := ("shared_data_" ++ sender message ++ "_" ++ msg_id message)%string in
  update_self (fun a =>
    with_session_memory
      (<[key := JDict (<["data" := JDict (content message)]>
                      (<["timestamp" := JDatetime (timestamp message)]>
                      (<["sender" := JStr (sender message)]> ∅)))]>
         (session_memory a))
      a).

Section Mailbox.

Variable analyze : pydict -> pydict -> ObsidianAgent -> outcome pydict * ObsidianAgent.
Variable get_capabilities : ObsidianAgent -> outcome Capabilities.
Variable clock : nat -> datetime.
Variable uuid : nat -> string.

(** The annotations of [AgentTask] are not checked either: a delegation
    whose [case_id] is no string or whose [data] is no dictionary is built
    and assigned like any other.  The task record of this development is
    typed as annotated and cannot hold such a task, so what the agent does
    with it is left a parameter. *)
Variable assign_unannotated : AgentMessage -> Coro AgentState unit.

(** The base class only logs a warning. *)
Definition handle_custom_message (message : AgentMessage) : Coro AgentState unit :=
  ret tt.

(** The keyword arguments of [AgentTask(...)] are evaluated in the order
    written: the id is drawn first, [Priority(...)] may raise [ValueError]
    before the clock is read.  A [task_type] that is no string (the key may
    be missing, which gives [None]) is a member of no declared list of task
    types: [assign_task] asks for the capabilities and answers [False]. *)
Definition _handle_task_delegation (message : AgentMessage) : Coro AgentState unit :=
  let* task_id := uuid4 uuid in
  let case_id_ := dict_get (content message) "case_id" (JStr "unknown") in
  let task_type_ := dict_get (content message) "task_type" JNone in
  let* priority_ :=
    lift (Priority_of_json (dict_get (content message) "priority" (JInt 2))) in
  let data_ := dict_get (content message) "data" (JDict ∅) in
  let* assigned := datetime_now clock in
  match case_id_, data_ with
  | JStr case_id_, JDict data_ =>
      match task_type_ with
      | JStr task_type_ =>
          let task :=
            mkTask task_id case_id_ task_type_ priority_ data_ assigned None
                   0%float "pending" None None in
          await assign_task get_capabilities task in ret tt
      | _ =>
          try_except
            (let* self := on_self (fun a => a) in
             await lift (get_capabilities self) in ret tt)
            (fun _ => ret tt)
      end
  | _, _ => assign_unannotated message
  end.

Definition _handle_message (message : AgentMessage) : Coro AgentState unit :=
  if decide (message_type message = "collaboration_request")
  then _handle_collaboration_request analyze clock uuid message
  else if decide (message_type message = "data_share")
  then _handle_data_share message
  else if decide (message_type message = "task_delegation")
  then _handle_task_delegation message
  else handle_custom_message message.

(** [_message_processor], run for at most [iterations] turns of its
    [while True] loop by the agent whose queue is at [self_ref].  On an empty
    queue [queue.get()] suspends the loop; nothing else runs here, so the run
    ends. *)
Fixpoint _message_processor (self_ref : AgentRef) (iterations : nat)
  : Coro AgentState unit :=
  match iterations with
  | O => ret tt
  | S iterations' =>
      let* queue := gets (fun s => mailbox_of self_ref (snd s)) in
      match queue with
      | [] => ret tt
      | message :: rest =>
          exec try_except
                 (exec update_world (fun w =>
                         with_mailboxes (<[self_ref := rest]> (mailboxes w)) w) in
                  _handle_message message)
                 (fun _ => ret tt) in
          _message_processor self_ref iterations'
      end
  end.

Definition register_with_council (council : gmap string AgentRef)
  : Coro AgentState unit :=
  update_self (with_council_agents council).

Definition add_websocket_client (ws : WebSocket) : Coro AgentState unit :=
  update_self (fun a =>
    with_websocket_connections (websocket_connections a ++ [ws]) a).

End Mailbox.

End AgentBase.
(** ** ai_service_manager.py *)

(** What the metrics code asks of Python's numbers: the conversion of a
    count, addition, multiplication and true division.  The instance [float]
    is the arithmetic the program runs on (binary64); the instance [Q] is the
    exact arithmetic it approximates. *)
Class PyNumber (R : Type) := {
  of_count : N -> R;
  add : R -> R -> R;
  mul : R -> R -> R;
  div : R -> R -> R
}.

(** Exact for counts below [2^53], which is every count a run can reach. *)
#[global] Instance float_PyNumber : PyNumber float := {|
  of_count n := PrimFloat.of_uint63 (Uint63.of_Z (Z.of_N n));
  add := PrimFloat.add;
  mul := PrimFloat.mul;
  div := PrimFloat.div
|}.

#[global] Instance Q_PyNumber : PyNumber Q := {|
  of_count n := inject_Z (Z.of_N n);
  add := Qplus;
  mul := Qmult;
  div := Qdiv
|}.

Module AIService.

Inductive AIProvider := CLAUDE | CHATGPT | GEMINI | LOCAL.

#[global] Instance AIProvider_eq_dec : EqDecision AIProvider.
Proof. solve_decision. Defined.

Definition AIProvider_index (p : AIProvider) : nat :=
  match p with CLAUDE => 0 | CHATGPT => 1 | GEMINI => 2 | LOCAL => 3 end%nat.
Definition AIProvider_at (n : nat) : AIProvider :=
  match n with 0 => CLAUDE | 1 => CHATGPT | 2 => GEMINI | _ => LOCAL end%nat.
Lemma AIProvider_at_index p : AIProvider_at (AIProvider_index p) = p.
Proof. by destruct p. Qed.

#[global] Instance AIProvider_countable : Countable AIProvider :=
  inj_countable' AIProvider_index AIProvider_at AIProvider_at_index.

(** [provider_type.value] *)
Definition AIProvider_value (p : AIProvider) : string :=
  match p with
  | CLAUDE => "claude" | CHATGPT => "chatgpt" | GEMINI => "gemini" | LOCAL => "local"
  end.

Inductive QueryType :=
  ANALYSIS | GENERATION | REASONING | CREATIVE | TECHNICAL | INVESTIGATION.

#[global] Instance QueryType_eq_dec : EqDecision QueryType.
Proof. solve_decision. Defined.

Definition QueryType_index (q : QueryType) : nat :=
  match q with
  | ANALYSIS => 0 | GENERATION => 1 | REASONING => 2
  | CREATIVE => 3 | TECHNICAL => 4 | INVESTIGATION => 5
  end%nat.
Definition QueryType_at (n : nat) : QueryType :=
  match n with
  | 0 => ANALYSIS | 1 => GENERATION | 2 => REASONING
  | 3 => CREATIVE | 4 => TECHNICAL | _ => INVESTIGATION
  end%nat.
Lemma QueryType_at_index q : QueryType_at (QueryType_index q) = q.
Proof. by destruct q. Qed.

#[global] Instance QueryType_countable : Countable QueryType :=
  inj_countable' QueryType_index QueryType_at QueryType_at_index.

Section Model.

Context {R : Type} `{PyNumber R}.

Record AIResponse := mkResponse {
  provider : AIProvider;
  content : string;
  confidence : R;
  processing_time : R;
  tokens_used : Z;
  cost : R;
  metadata : pydict;
  timestamp : datetime
}.

Record QueryContext := mkContext {
  agent_name : string;
  case_id : string;
  priority : Z;
  query_type : QueryType;
  specialization : string;
  max_tokens : option Z;
  temperature : option R;
  preferred_provider : option AIProvider
}.

(** An [AIServiceProvider] object, as far as the manager looks into it. *)
Record AIServiceProvider := mkProvider {
  name : string;
  provider_type : AIProvider
}.

(** One entry of [performance_metrics].  [total_queries] is a count: it is
    created at 0 and only ever incremented. *)
Record Metrics := mkMetrics {
  total_queries : N;
  total_time : R;
  total_cost : R;
  average_confidence : R
}.

Record AIServiceManager := mkManager {
  providers : gmap AIProvider AIServiceProvider;
  routing_rules : gmap QueryType (list AIProvider);
  health_status : gmap AIProvider bool;
  performance_metrics : gmap AIProvider Metrics
}.

Definition with_performance_metrics (v : gmap AIProvider Metrics)
    (m : AIServiceManager) : AIServiceManager :=
  mkManager (providers m) (routing_rules m) (health_status m) v.

Definition _initialize_routing_rules : gmap QueryType (list AIProvider) :=
  <[ANALYSIS := [CLAUDE; CHATGPT; GEMINI]]>
  (<[REASONING := [CLAUDE; CHATGPT; LOCAL]]>
  (<[CREATIVE := [CHATGPT; GEMINI; CLAUDE]]>
  (<[TECHNICAL := [CLAUDE; CHATGPT; LOCAL]]>
  (<[INVESTIGATION := [CLAUDE; CHATGPT; GEMINI]]>
  (<[GENERATION := [CHATGPT; GEMINI; LOCAL]]> ∅))))).

(** [AIServiceManager.__init__] *)
Definition init : AIServiceManager :=
  mkManager ∅ _initialize_routing_rules ∅ ∅.

Definition _update_performance_metrics (provider_type : AIProvider)
    (response : AIResponse) (m : AIServiceManager) : AIServiceManager :=
  let table :=
    match performance_metrics m !! provider_type with
    | Some _ => performance_metrics m
    | None =>
        <[provider_type := mkMetrics 0 (of_count 0) (of_count 0) (of_count 0)]>
          (performance_metrics m)
    end in
  match table !! provider_type with
  | None => m (* not reached: the key has just been ensured *)
  | Some metrics =>
      let queries := (total_queries metrics + 1)%N in
      let time := add (total_time metrics) (processing_time response) in
      let cost' := add (total_cost metrics) (cost response) in
      let current_avg := average_confidence metrics in
      let avg :=
        div (add (mul current_avg (of_count (queries - 1)%N)) (confidence response))
            (of_count queries) in
      with_performance_metrics
        (<[provider_type := mkMetrics queries time cost' avg]> table) m
  end.

(** The state [route_query] runs on: the manager object, and the calls made
    so far to [provider.query], oldest first, each named by the key of the
    provider that was called. *)
Definition RouterState : Type := AIServiceManager * list AIProvider.

Definition on_manager {A} (f : AIServiceManager -> A) : Coro RouterState A :=
  gets (fun s => f (fst s)).
Definition update_manager (f : AIServiceManager -> AIServiceManager)
  : Coro RouterState unit :=
  modify (fun s => (f (fst s), snd s)).

Section Routing.

(** The back ends.  What a call answers may depend on the calls made before
    it, so that a provider may fail once and answer later. *)
Variable provider_query :
  list AIProvider -> AIServiceProvider -> string -> QueryContext ->
  option string -> outcome AIResponse.

(** [await self.providers[key].query(prompt, context, system_prompt)] *)
Definition query_provider (key : AIProvider) (prompt : string)
    (context : QueryContext) (system_prompt : option string)
  : Coro RouterState AIResponse :=
  let* table := on_manager providers in
  match table !! key with
  | None => raise (mkExc KeyError (AIProvider_value key))
  | Some p =>
      let* history := gets snd in
      exec modify (fun s => (fst s, snd s ++ [key])) in
      lift (provider_query history p prompt context system_prompt)
  end.

(** [p in self.providers and self.health_status.get(p, False)] *)
Definition usable (m : AIServiceManager) (p : AIProvider) : bool :=
  bool_decide (is_Some (providers m !! p)) && default false (health_status m !! p).

Definition available_providers (m : AIServiceManager) (q : QueryType)
  : list AIProvider :=
  let provider_priorities := default [] (routing_rules m !! q) in
  List.filter (usable m) provider_priorities.

(** [f"...{last_error}"] *)
Definition str_last_error (last_error : option Exception) : string :=
  match last_error with
  | Some e => str_exc e
  | None => "None"
  end.

(** The [for] loop of [route_query] and the [raise] that follows it. *)
Fixpoint try_providers (available : list AIProvider) (prompt : string)
    (context : QueryContext) (system_prompt : option string)
    (last_error : option Exception) : Coro RouterState AIResponse :=
  match available with
  | [] =>
      raise (mkExc Exception_
               ("All AI providers failed. Last error: "
                ++ str_last_error last_error)%string)
  | provider_type :: rest =>
      try_except
        (let* response := query_provider provider_type prompt context system_prompt in
         exec update_manager (_update_performance_metrics provider_type response) in
         ret response)
        (fun e => try_providers rest prompt context system_prompt (Some e))
  end.

(** The first [if] of [route_query]: [Some response] when the preferred
    provider answered and the function returns at once, [None] when control
    falls through to the routing table. *)
Definition try_preferred (prompt : string) (context : QueryContext)
    (system_prompt : option string) (fallback : bool)
  : Coro RouterState (option AIResponse) :=
  let* m := on_manager (fun m => m) in
  match preferred_provider context with
  | None => ret None
  | Some preferred =>
      if usable m preferred
      then
        try_except
          (let* response := query_provider preferred prompt context system_prompt in
           ret (Some response))
          (fun e => if negb fallback then raise e else ret None)
      else ret None
  end.

Definition route_query (prompt : string) (context : QueryContext)
    (system_prompt : option string) (fallback : bool)
  : Coro RouterState AIResponse :=
  let* early := try_preferred prompt context system_prompt fallback in
  match early with
  | Some response => ret response
  | None =>
      let* m := on_manager (fun m => m) in
      let available := available_providers m (query_type context) in
      match available with
      | [] => raise (mkExc Exception_ "No healthy AI providers available")
      | _ :: _ => try_providers available prompt context system_prompt None
      end
  end.

End Routing.

(** *** Registration, the health sweep and shutdown *)

Definition with_providers (v : gmap AIProvider AIServiceProvider)
    (m : AIServiceManager) : AIServiceManager :=
  mkManager v (routing_rules m) (health_status m) (performance_metrics m).

Definition with_health_status (v : gmap AIProvider bool)
    (m : AIServiceManager) : AIServiceManager :=
  mkManager (providers m) (routing_rules m) v (performance_metrics m).

(** The truth value Python gives a value. *)
Definition truthy (j : json) : bool :=
  match j with
  | JNone => false
  | JBool b => b
  | JInt z => negb (z =? 0)
  | JFloat f => negb (PrimFloat.eqb f 0%float)
  | JStr s => negb (bool_decide (s = EmptyString))
  | JList l => negb (bool_decide (l = []))
  | JDict d => negb (bool_decide (size d = 0%nat))
  | JTuple l => negb (bool_decide (l = []))
  | JDictInt d => negb (bool_decide (size d = 0%nat))
  | JDatetime _ => true
  end.

(** [if config.get(key):] *)
Definition configured (config : pydict) (key : string) : bool :=
  match config !! key with
  | Some v => truthy v
  | None => false
  end.

Section Lifecycle.

(** What the constructor of a provider calls in its client library, given
    the configured value: [Anthropic(api_key=...)] for Claude,
    [genai.configure(...)] and [genai.GenerativeModel(...)] for Gemini.  The
    call may raise, and nothing in [initialize] catches it. *)
Variable client_setup : AIProvider -> json -> outcome unit.

(** The lightweight probe of a provider. *)
Variable health_check : AIServiceProvider -> outcome bool.

(** [ClaudeProvider(key)], [ChatGPTProvider(key)], [GeminiProvider(key)] and
    [LocalProvider(endpoint)].  Each first sets the name and the kind; the
    constructors for ChatGPT and the local model then only store their
    argument. *)
Definition construct (key : AIProvider) (value : json) : outcome AIServiceProvider :=
  match key with
  | CLAUDE =>
      and_then (client_setup CLAUDE value)
               (fun _ => Return (mkProvider "Claude" CLAUDE))
  | CHATGPT => Return (mkProvider "ChatGPT" CHATGPT)
  | GEMINI =>
      and_then (client_setup GEMINI value)
               (fun _ => Return (mkProvider "Gemini" GEMINI))
  | LOCAL => Return (mkProvider "Local" LOCAL)
  end.

(** [if config.get(config_key): self.providers[key] = Provider(config[config_key])] *)
Definition register_if_configured (config : pydict) (config_key : string)
    (key : AIProvider) : Coro RouterState unit :=
  match config !! config_key with
  | Some value =>
      if truthy value
      then
        let* provider := lift (construct key value) in
        update_manager (fun m => with_providers (<[key := provider]> (providers m)) m)
      else ret tt
  | None => ret tt
  end.

(** The body of the loop of [_health_check_all], over the items of
    [self.providers]. *)
Fixpoint health_check_loop (items : list (AIProvider * AIServiceProvider))
  : Coro RouterState unit :=
  match items with
  | [] => ret tt
  | (provider_type, provider) :: rest =>
      exec try_except
             (let* healthy := lift (health_check provider) in
              update_manager (fun m =>
                with_health_status (<[provider_type := healthy]> (health_status m)) m))
             (fun _ =>
              update_manager (fun m =>
                with_health_status (<[provider_type := false]> (health_status m)) m)) in
      health_check_loop rest
  end.

(** A dictionary is walked in insertion order, which a [gmap] does not
    keep; the entries written are per key, so the order of the walk does not
    show in the result of a sweep that runs to its end. *)
Definition _health_check_all : Coro RouterState unit :=
  let* table := on_manager providers in
  health_check_loop (map_to_list table).

Definition initialize (config : pydict) : Coro RouterState unit :=
  exec register_if_configured config "claude_api_key" CLAUDE in
  exec register_if_configured config "openai_api_key" CHATGPT in
  exec register_if_configured config "gemini_api_key" GEMINI in
  exec register_if_configured config "local_ai_endpoint" LOCAL in
  _health_check_all.

End Lifecycle.

(** [shutdown]: [providers.clear()] and [health_status.clear()]. *)
Definition shutdown : Coro RouterState unit :=
  exec update_manager (with_providers ∅) in
  update_manager (with_health_status ∅).

End Model.

Arguments AIResponse : clear implicits.
Arguments QueryContext : clear implicits.
Arguments Metrics : clear implicits.
Arguments AIServiceManager : clear implicits.
Arguments RouterState : clear implicits.

End AIService.
(** ** A concrete council, for evaluating the model

    The KRONOS agent of [agents/agent_registry.py]: its capability
    declaration and its [analyze], which answers with a fixed dictionary. *)

Module Scenario.

Import AgentBase.

Definition kronos_capabilities : Capabilities :=
  mkCapabilities
    (Some ["timeline_reconstruction"; "temporal_analysis"; "event_correlation"]).

Definition kronos_get_capabilities (_ : ObsidianAgent) : outcome Capabilities :=
  Return kronos_capabilities.

#[warnings="-inexact-float"]
Definition kronos_answer : pydict :=
  <["analysis" := JStr "Temporal pattern analysis"]>
  (<["confidence" := JFloat 0.85%float]> ∅).

Definition kronos_analyze (_ _ : pydict) (self : ObsidianAgent)
  : outcome pydict * ObsidianAgent :=
  (Return kronos_answer, self).

(** A specialization whose [analyze] raises. *)
Definition broken_analyze (_ _ : pydict) (self : ObsidianAgent)
  : outcome pydict * ObsidianAgent :=
  (Raise (mkExc Exception_ "analysis backend unreachable"), self).

(** A specialization whose capability declaration raises. *)
Definition broken_get_capabilities (_ : ObsidianAgent) : outcome Capabilities :=
  Raise (mkExc Exception_ "capabilities unavailable").

(** Specializations that are cancelled while they are awaited. *)
Definition cancelled_analyze (_ _ : pydict) (self : ObsidianAgent)
  : outcome pydict * ObsidianAgent :=
  (RaiseBase CancelledError, self).
Definition cancelled_get_capabilities (_ : ObsidianAgent) : outcome Capabilities :=
  RaiseBase CancelledError.

(** KRONOS after [initialize], with one real-time listener and ARGUS as the
    only registered peer. *)
Definition kronos : ObsidianAgent :=
  mkAgent "KRONOS - Timeline Master" "KRONOS" "Temporal Analysis" IDLE
          ∅ ∅ [7%nat] (<["ARGUS" := 1%nat]> ∅).

Definition quiet : World := mkWorld ∅ [] [] [] 0.

Definition epoch : datetime := mkDatetime 2024 1 1 0 0 0 0.
Definition clock (n : nat) : datetime :=
  mkDatetime 2024 1 1 0 0 (Z.of_nat n) 0.
Definition uuid (n : nat) : string :=
  match n with
  | O => "00000000-0000-4000-8000-000000000000"
  | _ => "00000000-0000-4000-8000-000000000001"
  end.

(** Stand-ins for [isoformat] and [json.dumps]: the timestamp is rendered by
    its seconds, an object by its task id and status. *)
Definition isoformat (t : datetime) : string :=
  if decide (second t = 0) then "2024-01-01T00:00:00" else "2024-01-01T00:00:01".
Definition json_dumps (j : json) : outcome string :=
  match j with
  | JDict d =>
      match d !! "task_id", d !! "status" with
      | Some (JStr i), Some (JStr s) => Return (i ++ ":" ++ s)%string
      | _, _ => Return "{}"
      end
  | _ => Return "null"
  end.

(** A Redis with one subscriber and a WebSocket peer that accepts. *)
Definition redis_publish (_ _ : string) : outcome Z := Return 1.
Definition ws_send (_ : WebSocket) (_ : string) : outcome unit := Return tt.

Definition timeline_task : AgentTask :=
  mkTask "task-1" "case-9" "temporal_analysis" HIGH
         (<["events" := JList [JStr "sighting"; JStr "call"]]> ∅)
         epoch None 0%float "pending" None None.

Definition face_task : AgentTask :=
  mkTask "task-2" "case-9" "facial_recognition" MEDIUM ∅
         epoch None 0%float "pending" None None.

(** A [collaboration_request] from an agent that is not in KRONOS's
    directory. *)
Definition request_from_stranger : AgentMessage :=
  mkMessage "m-1" "HYDRA" "KRONOS" "collaboration_request"
            (<["q" := JStr "test"]> ∅) epoch MEDIUM.

(** A Redis that refuses the connection, and a transport on which listener 7
    has gone away while every other listener accepts. *)
Definition redis_down (_ _ : string) : outcome Z :=
  Raise (mkExc Exception_ "Connection refused").
Definition ws_send_7_closed (ws : WebSocket) (_ : string) : outcome unit :=
  if decide (ws = 7%nat) then Raise (mkExc ConnectionClosed "no close frame")
  else Return tt.

(** A transport on which listener 7 fails with an error that is no
    [ConnectionClosed], while every other listener accepts. *)
Definition ws_send_7_broken (ws : WebSocket) (_ : string) : outcome unit :=
  if decide (ws = 7%nat) then Raise (mkExc Exception_ "invalid state")
  else Return tt.

(** ARGUS, whose queue is at address 1 and who knows KRONOS, whose queue is
    at address 2. *)
Definition argus : ObsidianAgent :=
  mkAgent "ARGUS - All-Seeing Eye" "ARGUS" "Social Media Reconnaissance" IDLE
          ∅ ∅ [] (<["KRONOS" := 2%nat]> ∅).

(** A stand-in for what the agent does with a delegation that breaks the
    annotations of [AgentTask]. *)
Definition unannotated_ignored (_ : AgentMessage) : Coro AgentState unit := ret tt.

(** What ends up in an agent's queue besides requests: the reply to a
    collaboration, and a message of a type nobody defined. *)
Definition reply_from_kronos : AgentMessage :=
  mkMessage "m-7" "KRONOS" "ARGUS" "collaboration_response"
            (<["result" := JDict kronos_answer]> ∅) epoch MEDIUM.
Definition status_ping : AgentMessage :=
  mkMessage "m-8" "HYDRA" "ARGUS" "status_ping" ∅ epoch LOW.

(** Delegations to KRONOS: of a task type alone, and with a priority. *)
Definition delegate (task_type_ : string) : AgentMessage :=
  mkMessage "m-3" "ARGUS" "KRONOS" "task_delegation"
            (<["task_type" := JStr task_type_]> ∅) epoch MEDIUM.
Definition delegate_with_priority (task_type_ : string) (v : Z) : AgentMessage :=
  mkMessage "m-4" "ARGUS" "KRONOS" "task_delegation"
            (<["task_type" := JStr task_type_]> (<["priority" := JInt v]> ∅))
            epoch MEDIUM.

(** A world in which the queue at [r] holds [queue]. *)
Definition world_with_queue (r : AgentRef) (queue : list AgentMessage) : World :=
  mkWorld (<[r := queue]> ∅) [] [] [] 0.

(** [json.dumps] and [json.loads] on the wire object of that message, and
    [fromisoformat] on the two timestamps [isoformat] renders. *)
Definition quoted (s : string) : string :=
  String (Ascii.ascii_of_nat 34) (s ++ String (Ascii.ascii_of_nat 34) "")%string.

Definition request_text : string :=
  ("{" ++ quoted "id" ++ ": " ++ quoted "m-1" ++ ", "
       ++ quoted "sender" ++ ": " ++ quoted "HYDRA" ++ ", "
       ++ quoted "recipient" ++ ": " ++ quoted "KRONOS" ++ ", "
       ++ quoted "message_type" ++ ": " ++ quoted "collaboration_request" ++ ", "
       ++ quoted "content" ++ ": {" ++ quoted "q" ++ ": " ++ quoted "test" ++ "}, "
       ++ quoted "timestamp" ++ ": " ++ quoted "2024-01-01T00:00:00" ++ ", "
       ++ quoted "priority" ++ ": 2}")%string.

Definition wire_dumps (_ : json) : outcome string := Return request_text.

Definition wire_loads (s : string) : outcome json :=
  if decide (s = request_text)
  then Return (wire_object isoformat request_from_stranger)
  else Raise (mkExc ValueError "Expecting value").

Definition fromisoformat (s : string) : outcome datetime :=
  if decide (s = "2024-01-01T00:00:00") then Return (clock 0)
  else if decide (s = "2024-01-01T00:00:01") then Return (clock 1)
  else Raise (mkExc ValueError "Invalid isoformat string").

(** What a peer that leaves the priority out, or sends one of its own, puts
    on the wire: the six other fields of [request_from_stranger] and the
    priority given. *)
Definition partial_wire (priority_ : option json) : pydict :=
  let fields : pydict :=
    <["id" := JStr "m-1"]>
    (<["sender" := JStr "HYDRA"]>
    (<["recipient" := JStr "KRONOS"]>
    (<["message_type" := JStr "collaboration_request"]>
    (<["content" := JDict (<["q" := JStr "test"]> ∅)]>
    (<["timestamp" := JStr "2024-01-01T00:00:00"]> ∅))))) in
  match priority_ with
  | Some v => <["priority" := v]> fields
  | None => fields
  end.

Definition loads_partial (priority_ : option json) (_ : string) : outcome json :=
  Return (JDict (partial_wire priority_)).

(** A message whose content holds a tuple, the message [json.loads] makes of
    its text, and [json.dumps] and [json.loads] on that text: the tuple is
    written as an array and read back as a list. *)
Definition tuple_message : AgentMessage :=
  mkMessage "m-9" "ARGUS" "KRONOS" "data_share"
            (<["k" := JTuple [JInt 1; JInt 2]]> ∅) epoch MEDIUM.

Definition list_message : AgentMessage :=
  mkMessage "m-9" "ARGUS" "KRONOS" "data_share"
            (<["k" := JList [JInt 1; JInt 2]]> ∅) epoch MEDIUM.

Definition tuple_text : string :=
  ("{" ++ quoted "id" ++ ": " ++ quoted "m-9" ++ ", "
       ++ quoted "sender" ++ ": " ++ quoted "ARGUS" ++ ", "
       ++ quoted "recipient" ++ ": " ++ quoted "KRONOS" ++ ", "
       ++ quoted "message_type" ++ ": " ++ quoted "data_share" ++ ", "
       ++ quoted "content" ++ ": {" ++ quoted "k" ++ ": [1, 2]}, "
       ++ quoted "timestamp" ++ ": " ++ quoted "2024-01-01T00:00:00" ++ ", "
       ++ quoted "priority" ++ ": 2}")%string.

Definition tuple_dumps (_ : json) : outcome string := Return tuple_text.

Definition tuple_loads (s : string) : outcome json :=
  if decide (s = tuple_text)
  then Return (wire_object isoformat list_message)
  else Raise (mkExc ValueError "Expecting value").

(** The same for a content that holds a dictionary keyed by an integer: the
    key is written, and read back, as a string. *)
Definition intkey_message : AgentMessage :=
  mkMessage "m-9" "ARGUS" "KRONOS" "data_share"
            (<["k" := JDictInt (<[1 := JStr "a"]> ∅)]> ∅) epoch MEDIUM.

Definition strkey_message : AgentMessage :=
  mkMessage "m-9" "ARGUS" "KRONOS" "data_share"
            (<["k" := JDict (<["1" := JStr "a"]> ∅)]> ∅) epoch MEDIUM.

Definition intkey_text : string :=
  ("{" ++ quoted "id" ++ ": " ++ quoted "m-9" ++ ", "
       ++ quoted "sender" ++ ": " ++ quoted "ARGUS" ++ ", "
       ++ quoted "recipient" ++ ": " ++ quoted "KRONOS" ++ ", "
       ++ quoted "message_type" ++ ": " ++ quoted "data_share" ++ ", "
       ++ quoted "content" ++ ": {" ++ quoted "k" ++ ": {"
       ++ quoted "1" ++ ": " ++ quoted "a" ++ "}}, "
       ++ quoted "timestamp" ++ ": " ++ quoted "2024-01-01T00:00:00" ++ ", "
       ++ quoted "priority" ++ ": 2}")%string.

Definition intkey_dumps (_ : json) : outcome string := Return intkey_text.

Definition intkey_loads (s : string) : outcome json :=
  if decide (s = intkey_text)
  then Return (wire_object isoformat strkey_message)
  else Raise (mkExc ValueError "Expecting value").

(** What a peer that writes the priority as a float, or as a boolean, puts
    on the wire. *)
Definition float_priority : json := JFloat 2%float.
Definition bool_priority : json := JBool true.

End Scenario.

(** ** A concrete provider set

    Claude, ChatGPT and Gemini are configured; the last health sweep found
    ChatGPT down.  The numbers are binary64 floats, as in a run. *)

Module RouterScenario.

Import AIService.

Definition claude : AIServiceProvider := mkProvider "Claude" CLAUDE.
Definition chatgpt : AIServiceProvider := mkProvider "ChatGPT" CHATGPT.
Definition gemini : AIServiceProvider := mkProvider "Gemini" GEMINI.

Definition registered : gmap AIProvider AIServiceProvider :=
  <[CLAUDE := claude]> (<[CHATGPT := chatgpt]> (<[GEMINI := gemini]> ∅)).

Definition manager : AIServiceManager float :=
  mkManager registered _initialize_routing_rules
    (<[CLAUDE := true]> (<[CHATGPT := false]> (<[GEMINI := true]> ∅))) ∅.

(** The same providers after a sweep that found every one of them down. *)
Definition dark_manager : AIServiceManager float :=
  mkManager registered _initialize_routing_rules
    (<[CLAUDE := false]> (<[CHATGPT := false]> (<[GEMINI := false]> ∅))) ∅.

(** The confidences of the running-average check, the average expected of
    them, and the tolerance of the comparison. *)
#[warnings="-inexact-float"]
Definition confidence_first : float := 0.9%float.


(** A response as [ClaudeProvider.query] builds it, of a given confidence
    (the provider's own is the constant 0.9). *)
#[warnings="-inexact-float"]
Definition response_of (c : float) : AIResponse float :=
  mkResponse CLAUDE "SUMMARY: ..." c 1.5%float 120 0.002%float ∅ Scenario.epoch.

Definition claude_response : AIResponse float := response_of confidence_first.

(** Back ends: Gemini fails, the others answer like Claude. *)
Definition gemini_fails (_ : list AIProvider) (p : AIServiceProvider)
    (_ : string) (_ : QueryContext float) (_ : option string)
  : outcome (AIResponse float) :=
  match provider_type p with
  | GEMINI => Raise (mkExc Exception_ "Gemini API error")
  | _ => Return claude_response
  end.

Definition context (q : QueryType) (preferred : option AIProvider)
  : QueryContext float :=
  mkContext "ARGUS" "case-9" 3 q "Social Media Reconnaissance" None None preferred.

(** Back ends that are all down, each with an error of its own; and a back
    end that fails on the first call of a run and answers from then on. *)
Definition api_error (key : AIProvider) : Exception :=
  mkExc Exception_ (AIProvider_value key ++ " API error")%string.

Definition all_fail (_ : list AIProvider) (p : AIServiceProvider)
    (_ : string) (_ : QueryContext float) (_ : option string)
  : outcome (AIResponse float) :=
  Raise (api_error (provider_type p)).

Definition fails_once (history : list AIProvider) (_ : AIServiceProvider)
    (_ : string) (_ : QueryContext float) (_ : option string)
  : outcome (AIResponse float) :=
  match history with
  | [] => Raise (mkExc Exception_ "rate limited")
  | _ :: _ => Return claude_response
  end.

(** Probes of a sweep that finds nobody: ChatGPT's raises, the others
    answer [False]. *)
Definition probe_down (p : AIServiceProvider) : outcome bool :=
  match provider_type p with
  | CHATGPT => Raise (mkExc Exception_ "connection refused")
  | _ => Return false
  end.

(** Probes of a sweep that finds Claude and Gemini: ChatGPT's raises. *)
Definition probe_mixed (p : AIServiceProvider) : outcome bool :=
  match provider_type p with
  | CHATGPT => Raise (mkExc Exception_ "connection refused")
  | _ => Return true
  end.

(** Client libraries that accept every key, and a Claude client that
    rejects its key. *)
Definition client_ok (_ : AIProvider) (_ : json) : outcome unit := Return tt.
Definition client_rejects (key : AIProvider) (_ : json) : outcome unit :=
  match key with
  | CLAUDE => Raise (mkExc Exception_ "invalid api key")
  | _ => Return tt
  end.

(** A configuration with a Claude key and a local endpoint. *)
Definition two_keys : pydict :=
  <["claude_api_key" := JStr "sk-ant"]>
    (<["local_ai_endpoint" := JStr "http://localhost:11434"]>
       (<["openai_api_key" := JStr EmptyString]> ∅)).

(** A configuration that names keys but gives none a usable value. *)
Definition blank_config : pydict :=
  <["claude_api_key" := JStr EmptyString]>
    (<["openai_api_key" := JNone]> (<["debug" := JBool true]> ∅)).



End RouterScenario.
(** * Properties of the agent core *)

Ltac coro_unfold :=
  unfold try_finally, try_except, bind, ret, raise, gets, modify, lift in *.

Module AgentFacts.

Import AgentBase.

#[local] Arguments _broadcast_to_websockets : simpl never.
#[local] Arguments _notify_task_completion : simpl never.

Ltac agent_unfold :=
  unfold on_self, update_self, update_world, with_task, the_task, update_task,
    try_except_class in *;
  coro_unfold.

Section Assignment.

Variable get_capabilities : ObsidianAgent -> outcome Capabilities.

(** The state [assign_task] leaves behind when it accepts. *)
Definition accepted (task : AgentTask) (s : AgentState) : AgentState :=
  (with_status WORKING
     (with_current_tasks (<[id task := task]> (current_tasks (fst s))) (fst s)),
   with_spawned (spawned (snd s) ++ [task]) (snd s)).

(** [assign_task] as a case analysis on what the capability declaration
    says. *)
Lemma assign_task_cases (task : AgentTask) (s : AgentState) :
  assign_task get_capabilities task s =
    match get_capabilities (fst s) with
    | Return caps =>
        if bool_decide (task_type task ∈ default [] (supported_tasks caps))
        then (Return true, accepted task s)
        else (Return false, s)
    | Raise _ => (Return false, s)
    | RaiseBase b => (RaiseBase b, s)
    end.
Proof.
  unfold assign_task, _can_handle_task. agent_unfold. cbn.
  destruct (get_capabilities (fst s)) as [caps|e|b]; [|done|done].
  destruct (bool_decide _); cbn; [|done].
  by destruct s.
Qed.

(** C3: a task whose type is not among the declared supported tasks is
    refused with [False], no exception is raised, and nothing is changed: not
    the agent's status, not its current-task table, nor anything else. *)
Theorem assign_task_rejects_unsupported
    (task : AgentTask) (a : ObsidianAgent) (w : World) (caps : Capabilities) :
  get_capabilities a = Return caps ->
  task_type task ∉ default [] (supported_tasks caps) ->
  assign_task get_capabilities task (a, w) = (Return false, (a, w)).
Proof.
  intros Hcaps Hnot. rewrite assign_task_cases. cbn. rewrite Hcaps.
  by rewrite bool_decide_false.
Qed.

(** C10, as the code has it: when the capability declaration returns or
    raises an [Exception], [assign_task] returns a boolean; an [Exception] is
    swallowed and the call answers [False] on an unchanged agent, exactly as
    it answers for an unsupported task type, and every [False] leaves the
    state as it was.  A [BaseException] that is no [Exception], such as the
    [CancelledError] of a cancelled call, is not caught: it reaches the
    caller. *)
Theorem assign_task_total (task : AgentTask) (s : AgentState) :
  ((forall b, get_capabilities (fst s) <> RaiseBase b) ->
   exists answer s', assign_task get_capabilities task s = (Return answer, s')) /\
  (forall e, get_capabilities (fst s) = Raise e ->
     assign_task get_capabilities task s = (Return false, s)) /\
  (forall answer s', assign_task get_capabilities task s = (Return answer, s') ->
     answer = false -> s' = s) /\
  (forall b, get_capabilities (fst s) = RaiseBase b ->
     assign_task get_capabilities task s = (RaiseBase b, s)).
Proof.
  rewrite assign_task_cases.
  destruct (get_capabilities (fst s)) as [caps|e|b].
  - destruct (bool_decide _).
    + split; [by eauto|]. split; [done|]. split; [|done].
      by intros answer s' [= <- <-].
    + split; [by eauto|]. split; [done|]. split; [|done].
      by intros answer s' [= <- <-].
  - split; [by eauto|]. split; [done|]. split; [|done].
    by intros answer s' [= <- <-].
  - split; [intros Hnot; by destruct (Hnot b)|]. split; [done|].
    split; [done|]. by intros b' [= <-].
Qed.

End Assignment.

(** A specialization whose capability declaration raises refuses every
    task, also one of a type KRONOS supports. *)
Example assign_task_swallows_exception :
  assign_task Scenario.broken_get_capabilities Scenario.timeline_task
      (Scenario.kronos, Scenario.quiet)
    = (Return false, (Scenario.kronos, Scenario.quiet)).
Proof. reflexivity. Qed.

(** C10 fails as stated: the call to [get_capabilities] is cancelled, and
    [assign_task] answers neither [True] nor [False]: the [CancelledError]
    reaches its caller. *)
Lemma assign_task_propagates_cancellation :
  assign_task Scenario.cancelled_get_capabilities Scenario.timeline_task
      (Scenario.kronos, Scenario.quiet)
    = (RaiseBase CancelledError, (Scenario.kronos, Scenario.quiet)).
Proof. reflexivity. Qed.

(** The witness of C3: KRONOS is offered a facial-recognition task. *)
Lemma assign_task_rejects_unsupported_witness :
  Scenario.kronos_get_capabilities Scenario.kronos
    = Return Scenario.kronos_capabilities /\
  (task_type Scenario.face_task
     ∉ default [] (supported_tasks Scenario.kronos_capabilities)) /\
  assign_task Scenario.kronos_get_capabilities Scenario.face_task
      (Scenario.kronos, Scenario.quiet)
    = (Return false, (Scenario.kronos, Scenario.quiet)).
Proof.
  assert (Hnot : task_type Scenario.face_task
            ∉ default [] (supported_tasks Scenario.kronos_capabilities)).
  { cbn. rewrite !not_elem_of_cons. repeat split; try discriminate.
    apply not_elem_of_nil. }
  split; [reflexivity|]. split; [exact Hnot|].
  exact (assign_task_rejects_unsupported Scenario.kronos_get_capabilities
           Scenario.face_task Scenario.kronos Scenario.quiet
           Scenario.kronos_capabilities eq_refl Hnot).
Defined.

Section Processing.

Variable analyze : pydict -> pydict -> ObsidianAgent -> outcome pydict * ObsidianAgent.
Variable json_dumps : json -> outcome string.
Variable isoformat : datetime -> string.
Variable clock : nat -> datetime.
Variable redis_publish : string -> string -> outcome Z.
Variable ws_send : WebSocket -> string -> outcome unit.

Let notify := _notify_task_completion json_dumps isoformat clock redis_publish ws_send.
Let process := _process_task analyze json_dumps isoformat clock redis_publish ws_send.

(** The task object as [_process_task] leaves it on each of its paths. *)
Definition completed_task (task : AgentTask) (res : pydict) : AgentTask :=
  set_progress 100%float
    (set_status "completed"
       (set_result (Some res) (set_status "in_progress" task))).
Definition failed_task (task : AgentTask) (e : Exception) : AgentTask :=
  set_error (Some (str_exc e)) (set_status "failed" task).

(** The [finally] suite of [_process_task] as a function on the agent. *)
Definition finish (task_id : string) (a : ObsidianAgent) : ObsidianAgent :=
  let a1 :=
    match current_tasks a !! task_id with
    | Some _ => with_current_tasks (delete task_id (current_tasks a)) a
    | None => a
    end in
  if bool_decide (size (current_tasks a1) = 0%nat) then with_status IDLE a1 else a1.

(** The context dictionary [{"case_id": task.case_id}]. *)
Definition case_context (task : AgentTask) : pydict :=
  {["case_id" := JStr (case_id task)]}.

(** [_process_task] path by path. *)
Lemma process_task_cases (task : AgentTask) (a : ObsidianAgent) (w : World) :
  process (task, (a, w)) =
    match analyze (data task) (case_context task) a with
    | (Return res, a1) =>
        match notify (completed_task task res) (a1, w) with
        | (Return _, (a2, w2)) =>
            (Return tt, (completed_task task res, (finish (id task) a2, w2)))
        | (Raise e, (a2, w2)) =>
            (Return tt,
             (failed_task (completed_task task res) e, (finish (id task) a2, w2)))
        | (RaiseBase b, (a2, w2)) =>
            (RaiseBase b, (completed_task task res, (finish (id task) a2, w2)))
        end
    | (Raise e, a1) =>
        (Return tt,
         (failed_task (set_status "in_progress" task) e, (finish (id task) a1, w)))
    | (RaiseBase b, a1) =>
        (RaiseBase b, (set_status "in_progress" task, (finish (id task) a1, w)))
    end.
Proof.
  unfold process, notify, _process_task, self_analyze.
  generalize (_notify_task_completion json_dumps isoformat clock redis_publish
                ws_send).
  intros N. agent_unfold. cbn. unfold case_context, completed_task.
  destruct (analyze _ _ a) as [[res|e|b] a1]; cbn.
  - destruct (N _ (a1, w)) as [[[]|e|b] [a2 w2]]; cbn; unfold finish; cbn;
      destruct (current_tasks a2 !! id task); cbn;
      by destruct (bool_decide _).
  - unfold finish.
    destruct (current_tasks a1 !! id task); cbn; by destruct (bool_decide _).
  - unfold finish.
    destruct (current_tasks a1 !! id task); cbn; by destruct (bool_decide _).
Qed.

Lemma finish_removes (task_id : string) (a : ObsidianAgent) :
  current_tasks (finish task_id a) !! task_id = None.
Proof.
  unfold finish.
  destruct (current_tasks a !! task_id) eqn:E; cbn;
    destruct (bool_decide _); cbn; by rewrite ?lookup_delete_eq.
Qed.

Lemma finish_idle (task_id : string) (a : ObsidianAgent) :
  current_tasks (finish task_id a) = ∅ -> agent_status (finish task_id a) = IDLE.
Proof.
  unfold finish.
  destruct (current_tasks a !! task_id) eqn:E; cbn;
    case_bool_decide as Hsize; cbn; try done;
    intros Hempty; rewrite Hempty in Hsize; by rewrite map_size_empty in Hsize.
Qed.

(** The listeners that accept [payload], in subscription order. *)
Definition reached (payload : string) (conns : list WebSocket) : list WebSocket :=
  List.filter (fun ws => returned (ws_send ws payload)) conns.

(** Every send either succeeds or fails because the peer has gone. *)
Definition only_closed (payload : string) (conns : list WebSocket) : Prop :=
  (forall ws e, ws ∈ conns -> ws_send ws payload = Raise e ->
     exc_class e = ConnectionClosed) /\
  (forall ws b, ws ∈ conns -> ws_send ws payload <> RaiseBase b).

Lemma only_closed_tail (payload : string) (ws : WebSocket) (rest : list WebSocket) :
  only_closed payload (ws :: rest) -> only_closed payload rest.
Proof.
  intros [Hclosed Hbase]. split.
  - intros ws' e Hin. apply Hclosed. by right.
  - intros ws' b Hin. apply Hbase. by right.
Qed.

Lemma broadcast_loop_reaches (conns : list WebSocket) (payload : string) :
  only_closed payload conns ->
  forall (disconnected : list WebSocket) (a : ObsidianAgent) (w : World),
  exists disconnected',
    broadcast_loop ws_send conns payload disconnected (a, w) =
      (Return disconnected',
       (a, with_ws_sent
             (ws_sent w ++ map (fun ws => (ws, payload)) (reached payload conns))
             w)).
Proof.
  induction conns as [|ws rest IH]; intros Hok disconnected a w.
  - exists disconnected. cbn. unfold ret. rewrite app_nil_r. by destruct w.
  - pose proof (only_closed_tail payload ws rest Hok) as Hrest.
    destruct Hok as [Hclosed Hbase].
    cbn [broadcast_loop]. unfold websocket_send. agent_unfold.
    unfold reached. cbn [List.filter].
    destruct (ws_send ws payload) as [[]|e|b] eqn:Hsend; cbn.
    + destruct (IH Hrest disconnected a
                  (with_ws_sent (ws_sent w ++ [(ws, payload)]) w))
        as [d' ->].
      exists d'. cbn. fold (reached payload rest).
      by rewrite <- app_assoc.
    + rewrite (Hclosed ws e (list_elem_of_here _ _) Hsend).
      case_decide; [|done]. cbn.
      destruct (IH Hrest (disconnected ++ [ws]) a w) as [d' ->].
      by exists d'.
    + by destruct (Hbase ws b (list_elem_of_here _ _)).
Qed.

Lemma remove_loop_world (disconnected : list WebSocket) (a : ObsidianAgent)
    (w : World) :
  exists a', remove_loop disconnected (a, w) = (Return tt, (a', w)).
Proof.
  revert a. induction disconnected as [|ws rest IH]; intros a.
  - by exists a.
  - cbn [remove_loop]. unfold remove_websocket_client. agent_unfold. cbn.
    destruct (decide _); cbn; apply IH.
Qed.

Lemma broadcast_reaches (message : json) (payload : string)
    (a : ObsidianAgent) (w : World) :
  json_dumps message = Return payload ->
  only_closed payload (websocket_connections a) ->
  exists a',
    _broadcast_to_websockets json_dumps ws_send message (a, w) =
      (Return tt,
       (a', with_ws_sent
              (ws_sent w ++ map (fun ws => (ws, payload))
                              (reached payload (websocket_connections a)))
              w)).
Proof.
  intros Hdumps Hok. unfold _broadcast_to_websockets. agent_unfold. cbn.
  destruct (websocket_connections a) as [|ws rest] eqn:Hconns.
  - exists a. cbn. rewrite app_nil_r. by destruct w.
  - rewrite Hdumps.
    destruct (broadcast_loop_reaches (ws :: rest) payload Hok [] a w)
      as [d ->].
    apply remove_loop_world.
Qed.

(** The five keys of a completion event; there is no ["error"] key. *)
Lemma notification_fields (agent : string) (task : AgentTask) (ts : string) :
  getitem (notification agent task ts) "agent" = Return (JStr agent) /\
  getitem (notification agent task ts) "task_id" = Return (JStr (id task)) /\
  getitem (notification agent task ts) "status" = Return (JStr (status task)) /\
  getitem (notification agent task ts) "result"
    = Return (json_of_option_dict (result task)) /\
  getitem (notification agent task ts) "timestamp" = Return (JStr ts) /\
  getitem (notification agent task ts) "error" = Raise (mkExc KeyError "error").
Proof. repeat split. Qed.

(** What [_notify_task_completion] does to the world when the event is
    serialized and the sink accepts it. *)
Lemma notify_publishes (task : AgentTask) (a : ObsidianAgent) (w : World)
    (payload : string) (n : Z) :
  let event := notification (codename a) task (isoformat (clock (ticks w))) in
  json_dumps event = Return payload ->
  redis_publish "task_completions" payload = Return n ->
  only_closed payload (websocket_connections a) ->
  exists a' w',
    notify task (a, w) = (Return tt, (a', w')) /\
    redis_published w'
      = redis_published w ++ [("task_completions", payload)] /\
    ws_sent w'
      = ws_sent w ++ map (fun ws => (ws, payload))
                         (reached payload (websocket_connections a)).
Proof.
  intros event Hdumps Hsink Hok.
  unfold notify, _notify_task_completion, datetime_now, tick,
    redis_client_publish.
  agent_unfold. cbn. fold event. rewrite Hdumps. cbn. rewrite Hsink. cbn.
  edestruct (broadcast_reaches event payload a) as [a' ->];
    [exact Hdumps|exact Hok|].
  eexists _, _. split; [reflexivity|]. by cbn.
Qed.

(** When [json.dumps] refuses the event, nothing reaches the sink or a
    listener. *)
Lemma notify_unserializable (task : AgentTask) (a : ObsidianAgent) (w : World)
    (e : Exception) :
  json_dumps (notification (codename a) task (isoformat (clock (ticks w))))
    = Raise e ->
  notify task (a, w) = (Raise e, (a, with_ticks (S (ticks w)) w)).
Proof.
  intros Hdumps.
  unfold notify, _notify_task_completion, datetime_now, tick.
  agent_unfold. cbn. by rewrite Hdumps.
Qed.

Variable get_capabilities : ObsidianAgent -> outcome Capabilities.

(** C7, as the code has it.  Once [assign_task] has accepted a task, its
    processing unit is scheduled; whenever that unit has run, the task is no
    longer in the current-task table and the agent is idle if the table is
    empty.  The status the task ends in follows what happened: "completed",
    with the result stored, when [analyze] returned and the completion event
    went out; "failed", with the error stored, when [analyze] raised an
    [Exception]; and also "failed", with the result and the error both stored,
    when [analyze] returned and the notification raised an [Exception]: the
    status "completed" set before is overwritten.  When [analyze] or the
    notification is cancelled, the exception propagates and the task is left
    "in_progress" or "completed". *)
Theorem process_task_terminal
    (task : AgentTask) (s0 : AgentState) (a : ObsidianAgent) (w : World) :
  fst (assign_task get_capabilities task s0) = Return true ->
  task ∈ spawned (snd (snd (assign_task get_capabilities task s0))) /\
  let run := process (task, (a, w)) in
  let task' := fst (snd run) in
  let a' := fst (snd (snd run)) in
  id task' = id task /\
  current_tasks a' !! id task = None /\
  (current_tasks a' = ∅ -> agent_status a' = IDLE) /\
  match analyze (data task) (case_context task) a with
  | (Return res, a1) =>
      result task' = Some res /\
      match fst (notify (completed_task task res) (a1, w)) with
      | Return _ =>
          fst run = Return tt /\ status task' = "completed" /\
          error task' = error task
      | Raise e =>
          fst run = Return tt /\ status task' = "failed" /\
          error task' = Some (str_exc e)
      | RaiseBase b =>
          fst run = RaiseBase b /\ status task' = "completed" /\
          error task' = error task
      end
  | (Raise e, _) =>
      fst run = Return tt /\ status task' = "failed" /\
      error task' = Some (str_exc e) /\ result task' = result task
  | (RaiseBase b, _) =>
      fst run = RaiseBase b /\ status task' = "in_progress" /\
      error task' = error task /\ result task' = result task
  end.
Proof.
  intros Haccepted. split.
  - rewrite assign_task_cases in Haccepted |- *.
    destruct (get_capabilities (fst s0)) as [caps|e|b]; [|done|done].
    destruct (bool_decide _); [|done].
    cbn. apply elem_of_app. right. apply list_elem_of_here.
  - intros run task' a'. subst run task' a'. rewrite process_task_cases.
    destruct (analyze _ _ a) as [[res|e|b] a1].
    + destruct (notify _ (a1, w)) as [[[]|e|b] [a2 w2]]; cbn;
        (split; [done|]);
        (split; [apply finish_removes|]);
        (split; [apply finish_idle|]); done.
    + cbn. split; [done|]. split; [apply finish_removes|].
      split; [apply finish_idle|]. done.
    + cbn. split; [done|]. split; [apply finish_removes|].
      split; [apply finish_idle|]. done.
Qed.

(** C2, as the code has it.  When [analyze] returns, the completion event has
    the keys agent, task_id, status, result and timestamp (and no error key).
    If [json.dumps] serializes it, the sink accepts it and no listener fails
    other than by a closed connection, the event is on the
    [task_completions] channel, has been sent to every listener that is still
    connected, and the task is completed; if [json.dumps] refuses it, nothing
    reaches the sink or a listener and the task is failed.  When [analyze]
    raises, the task is failed, its error is recorded on the task, and
    nothing is published or broadcast; nor is anything when [analyze] is
    cancelled. *)
Theorem completion_event_on_success
    (task : AgentTask) (a : ObsidianAgent) (w : World) :
  let final := snd (process (task, (a, w))) in
  match analyze (data task) (case_context task) a with
  | (Return res, a1) =>
      let event :=
        notification (codename a1) (completed_task task res)
                     (isoformat (clock (ticks w))) in
      (getitem event "agent" = Return (JStr (codename a1)) /\
       getitem event "task_id" = Return (JStr (id task)) /\
       getitem event "status" = Return (JStr "completed") /\
       getitem event "result" = Return (JDict res) /\
       getitem event "timestamp" = Return (JStr (isoformat (clock (ticks w)))) /\
       getitem event "error" = Raise (mkExc KeyError "error")) /\
      (forall payload n,
         json_dumps event = Return payload ->
         redis_publish "task_completions" payload = Return n ->
         only_closed payload (websocket_connections a1) ->
         status (fst final) = "completed" /\
         redis_published (snd (snd final))
           = redis_published w ++ [("task_completions", payload)] /\
         ws_sent (snd (snd final))
           = ws_sent w ++ map (fun ws => (ws, payload))
                              (reached payload (websocket_connections a1))) /\
      (forall e,
         json_dumps event = Raise e ->
         status (fst final) = "failed" /\
         error (fst final) = Some (str_exc e) /\
         redis_published (snd (snd final)) = redis_published w /\
         ws_sent (snd (snd final)) = ws_sent w)
  | (Raise e, a1) =>
      status (fst final) = "failed" /\
      error (fst final) = Some (str_exc e) /\
      redis_published (snd (snd final)) = redis_published w /\
      ws_sent (snd (snd final)) = ws_sent w
  | (RaiseBase b, a1) =>
      redis_published (snd (snd final)) = redis_published w /\
      ws_sent (snd (snd final)) = ws_sent w
  end.
Proof.
  intros final. subst final. rewrite process_task_cases.
  destruct (analyze _ _ a) as [[res|e|b] a1]; [|done|done].
  split; [repeat split|]. split.
  - intros payload n Hdumps Hsink Hok.
    destruct (notify_publishes (completed_task task res) a1 w payload n
                Hdumps Hsink Hok)
      as (a' & w' & -> & Hpub & Hsent).
    by cbn.
  - intros e Hdumps.
    rewrite (notify_unserializable (completed_task task res) a1 w e Hdumps).
    by cbn.
Qed.

End Processing.

(** The state in which the processing unit of [Scenario.timeline_task] starts:
    KRONOS has accepted the task. *)
Definition kronos_working : AgentState :=
  accepted Scenario.timeline_task (Scenario.kronos, Scenario.quiet).

(** The witness of C7: KRONOS accepts a temporal-analysis task, and its
    processing unit runs on the state the assignment left. *)
Lemma process_task_terminal_witness :
  fst (assign_task Scenario.kronos_get_capabilities Scenario.timeline_task
         (Scenario.kronos, Scenario.quiet)) = Return true /\
  let run :=
    _process_task Scenario.kronos_analyze Scenario.json_dumps Scenario.isoformat
        Scenario.clock Scenario.redis_publish Scenario.ws_send
        (Scenario.timeline_task, kronos_working) in
  fst run = Return tt /\
  status (fst (snd run)) = "completed" /\
  result (fst (snd run)) = Some Scenario.kronos_answer /\
  current_tasks (fst (snd (snd run))) !! "task-1" = None /\
  agent_status (fst (snd (snd run))) = IDLE.
Proof.
  assert (Hacc : fst (assign_task Scenario.kronos_get_capabilities
                        Scenario.timeline_task (Scenario.kronos, Scenario.quiet))
                 = Return true) by reflexivity.
  split; [exact Hacc|].
  destruct (process_task_terminal Scenario.kronos_analyze Scenario.json_dumps
              Scenario.isoformat Scenario.clock Scenario.redis_publish
              Scenario.ws_send Scenario.kronos_get_capabilities
              Scenario.timeline_task (Scenario.kronos, Scenario.quiet)
              (fst kronos_working) (snd kronos_working) Hacc)
    as (_ & _ & Hgone & Hidle & Hres & Hret & Hstatus & _).
  split; [exact Hret|]. split; [exact Hstatus|]. split; [exact Hres|].
  split; [exact Hgone|]. apply Hidle. reflexivity.
Defined.

(** C7 fails as stated, in two ways.  When a listener fails other than by a
    closed connection, the task has been announced to the sink as completed
    and ends as failed, with its result still set.  When [analyze] is
    cancelled, the task ends in no terminal state: it is left
    "in_progress". *)
Lemma task_without_one_terminal_state :
  (let run :=
     _process_task Scenario.kronos_analyze Scenario.json_dumps
        Scenario.isoformat Scenario.clock Scenario.redis_publish
        Scenario.ws_send_7_broken (Scenario.timeline_task, kronos_working) in
   fst run = Return tt /\
   redis_published (snd (snd (snd run)))
     = [("task_completions", "task-1:completed")] /\
   status (fst (snd run)) = "failed" /\
   error (fst (snd run)) = Some "invalid state" /\
   result (fst (snd run)) = Some Scenario.kronos_answer) /\
  (let run :=
     _process_task Scenario.cancelled_analyze Scenario.json_dumps
        Scenario.isoformat Scenario.clock Scenario.redis_publish
        Scenario.ws_send (Scenario.timeline_task, kronos_working) in
   fst run = RaiseBase CancelledError /\
   status (fst (snd run)) = "in_progress" /\
   current_tasks (fst (snd (snd run))) !! "task-1" = None).
Proof. vm_compute. repeat split. Qed.

(** C2 fails as stated: the specialization of KRONOS's task raises, the task
    ends as failed, and no completion event reaches the sink or the
    listener. *)
Lemma failed_task_publishes_no_event :
  let final :=
    snd (_process_task Scenario.broken_analyze Scenario.json_dumps
           Scenario.isoformat Scenario.clock Scenario.redis_publish
           Scenario.ws_send (Scenario.timeline_task, kronos_working)) in
  status (fst final) = "failed" /\
  websocket_connections (fst (snd final)) = [7%nat] /\
  ~ (exists payload,
       ("task_completions", payload) ∈ redis_published (snd (snd final))) /\
  ~ (exists ws payload, (ws, payload) ∈ ws_sent (snd (snd final))).
Proof.
  vm_compute. repeat split.
  - intros [payload Hin]. by apply not_elem_of_nil in Hin.
  - intros (ws & payload & Hin). by apply not_elem_of_nil in Hin.
Qed.

(** The same task with a specialization that answers: the event goes out. *)
Example completed_task_publishes_event :
  let final :=
    snd (_process_task Scenario.kronos_analyze Scenario.json_dumps
           Scenario.isoformat Scenario.clock Scenario.redis_publish
           Scenario.ws_send (Scenario.timeline_task, kronos_working)) in
  status (fst final) = "completed" /\
  agent_status (fst (snd final)) = IDLE /\
  redis_published (snd (snd final)) = [("task_completions", "task-1:completed")] /\
  ws_sent (snd (snd final)) = [(7%nat, "task-1:completed")].
Proof. vm_compute. repeat split. Qed.

Section Collaboration.

Variable analyze : pydict -> pydict -> ObsidianAgent -> outcome pydict * ObsidianAgent.
Variable clock : nat -> datetime.
Variable uuid : nat -> string.

(** The context dictionary [{"collaboration": True}]. *)
Definition collaboration_context : pydict := {["collaboration" := JBool true]}.

(** The exception [collaborate_with] raises for an unknown recipient. *)
Definition not_available (agent_name : string) : Exception :=
  mkExc ValueError ("Agent " ++ agent_name ++ " not available for collaboration")%string.

(** C6, as the code has it.  With the recipient absent from the directory
    no mailbox is touched on either path; the reply inside the
    collaboration-request handler is dropped and the handler returns (its
    [analyze] not being cancelled), while [collaborate_with] raises
    [ValueError] and leaves the whole state as it was. *)
Theorem undeliverable_send
    (a : ObsidianAgent) (w : World) (agent_name : string) (request : pydict)
    (message : AgentMessage) :
  council_agents a !! agent_name = None ->
  (forall b,
     fst (analyze (content message) collaboration_context
                  (with_status COLLABORATION a)) <> RaiseBase b) ->
  council_agents
    (snd (analyze (content message) collaboration_context
                  (with_status COLLABORATION a))) !! sender message = None ->
  collaborate_with clock uuid agent_name request (a, w)
    = (Raise (not_available agent_name), (a, w)) /\
  exists a' w',
    _handle_collaboration_request analyze clock uuid message (a, w)
      = (Return tt, (a', w')) /\
    mailboxes w' = mailboxes w.
Proof.
  intros Habsent Hrunning Hsender. split.
  - unfold collaborate_with. agent_unfold. cbn. by rewrite Habsent.
  - unfold _handle_collaboration_request, self_analyze, uuid4, datetime_now,
      tick, collaboration_context in *.
    agent_unfold. cbn in *.
    destruct (analyze _ _ _) as [[res|e|b] a1]; cbn in *.
    + rewrite Hsender. cbn.
      destruct (bool_decide _); eexists _, _; (split; [reflexivity|done]).
    + destruct (bool_decide _); eexists _, _; (split; [reflexivity|done]).
    + by destruct (Hrunning b).
Qed.

End Collaboration.

(** C6 fails as stated: KRONOS initiates a collaboration with HYDRA, which is
    not in its directory, and the call raises. *)
Lemma collaborate_with_absent_raises :
  Scenario.kronos.(council_agents) !! "HYDRA" = None /\
  collaborate_with Scenario.clock Scenario.uuid "HYDRA" (<["q" := JStr "test"]> ∅)
      (Scenario.kronos, Scenario.quiet)
    = (Raise (mkExc ValueError "Agent HYDRA not available for collaboration"),
       (Scenario.kronos, Scenario.quiet)).
Proof. split; reflexivity. Qed.

(** The witness of C6: HYDRA, unknown to KRONOS, is the recipient of both
    sends. *)
Lemma undeliverable_send_witness :
  collaborate_with Scenario.clock Scenario.uuid "HYDRA" ∅
      (Scenario.kronos, Scenario.quiet)
    = (Raise (not_available "HYDRA"), (Scenario.kronos, Scenario.quiet)) /\
  exists a' w',
    _handle_collaboration_request Scenario.kronos_analyze Scenario.clock
        Scenario.uuid Scenario.request_from_stranger
        (Scenario.kronos, Scenario.quiet)
      = (Return tt, (a', w')) /\
    mailboxes w' = mailboxes Scenario.quiet.
Proof.
  apply (undeliverable_send Scenario.kronos_analyze Scenario.clock Scenario.uuid
           Scenario.kronos Scenario.quiet "HYDRA" ∅
           Scenario.request_from_stranger eq_refl); [|reflexivity].
  intros b. discriminate.
Defined.

(** A reply to a registered sender is delivered. *)
Example reply_to_registered_sender :
  mailboxes
    (snd (snd (_handle_collaboration_request Scenario.kronos_analyze
                 Scenario.clock Scenario.uuid
                 (mkMessage "m-2" "ARGUS" "KRONOS" "collaboration_request"
                            ∅ Scenario.epoch MEDIUM)
                 (Scenario.kronos, Scenario.quiet)))) !! 1%nat
  = Some [mkMessage "00000000-0000-4000-8000-000000000000" "KRONOS" "ARGUS"
                    "collaboration_response"
                    (<["result" := JDict Scenario.kronos_answer]> ∅)
                    (Scenario.clock 1) MEDIUM].
Proof. reflexivity. Qed.

Section WireFacts.

Variable json_dumps : json -> outcome string.
Variable json_loads : string -> outcome json.
Variable isoformat : datetime -> string.
Variable fromisoformat : string -> outcome datetime.

Lemma Priority_of_value_value (p : Priority) :
  Priority_of_value (Priority_value p) = Return p.
Proof. by destruct p. Qed.

(** The seven keys of the wire shape. *)
Lemma wire_object_fields (m : AgentMessage) :
  let obj := wire_object isoformat m in
  getitem obj "id" = Return (JStr (msg_id m)) /\
  getitem obj "sender" = Return (JStr (sender m)) /\
  getitem obj "recipient" = Return (JStr (recipient m)) /\
  getitem obj "message_type" = Return (JStr (message_type m)) /\
  getitem obj "content" = Return (JDict (content m)) /\
  getitem obj "timestamp" = Return (JStr (isoformat (timestamp m))) /\
  getitem obj "priority" = Return (JInt (Priority_value (msg_priority m))).
Proof. repeat split. Qed.

(** C8, as the code has it: a message whose wire object [json.dumps]
    serializes and [json.loads] reads back unchanged, and whose timestamp
    survives [isoformat] and [fromisoformat], is rebuilt by
    [deserialize_agent_message] from its serialization with every field
    equal. *)
Theorem message_roundtrip (m : AgentMessage) (text : string) :
  json_dumps (wire_object isoformat m) = Return text ->
  json_loads text = Return (wire_object isoformat m) ->
  fromisoformat (isoformat (timestamp m)) = Return (timestamp m) ->
  and_then (serialize_agent_message json_dumps isoformat m)
           (deserialize_agent_message json_loads fromisoformat)
    = Return (as_decoded m).
Proof.
  intros Hdumps Hloads Hiso.
  unfold deserialize_agent_message, serialize_agent_message.
  rewrite Hdumps. cbn [and_then]. rewrite Hloads. cbn [and_then].
  destruct (wire_object_fields m) as (-> & -> & -> & -> & -> & -> & ->).
  cbn. by rewrite Hiso, Priority_of_value_value.
Qed.

End WireFacts.

(** The witness of C8: the request HYDRA sent, through its JSON text. *)
Lemma message_roundtrip_witness :
  and_then (serialize_agent_message Scenario.wire_dumps Scenario.isoformat
              Scenario.request_from_stranger)
           (deserialize_agent_message Scenario.wire_loads Scenario.fromisoformat)
    = Return (as_decoded Scenario.request_from_stranger).
Proof.
  exact (message_roundtrip Scenario.wire_dumps Scenario.wire_loads
           Scenario.isoformat Scenario.fromisoformat
           Scenario.request_from_stranger Scenario.request_text
           eq_refl eq_refl eq_refl).
Defined.

(** C8 fails as stated: a content that holds a tuple is JSON-serializable,
    and the message that comes back holds a list in its place, which is not
    equal to the tuple. *)
Lemma tuple_content_does_not_round_trip :
  and_then (serialize_agent_message Scenario.tuple_dumps Scenario.isoformat
              Scenario.tuple_message)
           (deserialize_agent_message Scenario.tuple_loads Scenario.fromisoformat)
    = Return (as_decoded Scenario.list_message) /\
  content Scenario.list_message !! "k" = Some (JList [JInt 1; JInt 2]) /\
  content Scenario.tuple_message !! "k" = Some (JTuple [JInt 1; JInt 2]) /\
  as_decoded Scenario.list_message <> as_decoded Scenario.tuple_message.
Proof.
  split; [reflexivity|]. split; [reflexivity|]. split; [reflexivity|].
  intros Heq.
  apply (f_equal (fun d => getitem (decoded_content d) "k")) in Heq.
  vm_compute in Heq. discriminate Heq.
Qed.

(** Nor does a content that holds a dictionary keyed by an integer. *)
Example integer_keys_do_not_round_trip :
  and_then (serialize_agent_message Scenario.intkey_dumps Scenario.isoformat
              Scenario.intkey_message)
           (deserialize_agent_message Scenario.intkey_loads Scenario.fromisoformat)
    = Return (as_decoded Scenario.strkey_message) /\
  as_decoded Scenario.strkey_message <> as_decoded Scenario.intkey_message.
Proof.
  split; [reflexivity|]. intros Heq.
  apply (f_equal (fun d => getitem (decoded_content d) "k")) in Heq.
  vm_compute in Heq. discriminate Heq.
Qed.

End AgentFacts.
(** * Properties of the provider router *)

Module RouterFacts.

Import AIService.

#[local] Arguments query_provider : simpl never.

Ltac router_unfold :=
  unfold on_manager, update_manager in *; coro_unfold.

Section Routing.

Context {R : Type} `{PyNumber R}.

Variable provider_query :
  list AIProvider -> AIServiceProvider -> string -> QueryContext R ->
  option string -> outcome (AIResponse R).

(** The caller named no provider, or named one that is not registered or not
    marked healthy. *)
Definition no_usable_preference (m : AIServiceManager R) (context : QueryContext R)
  : Prop :=
  match preferred_provider context with
  | Some preferred => usable m preferred = false
  | None => True
  end.

Lemma try_preferred_skipped (m : AIServiceManager R) (history : list AIProvider)
    (prompt : string) (context : QueryContext R) (system_prompt : option string)
    (fallback : bool) :
  no_usable_preference m context ->
  try_preferred provider_query prompt context system_prompt fallback (m, history)
    = (Return None, (m, history)).
Proof.
  unfold no_usable_preference, try_preferred. router_unfold. cbn.
  destruct (preferred_provider context) as [preferred|]; [|done].
  by intros ->.
Qed.

Lemma query_provider_registered (m : AIServiceManager R) (history : list AIProvider)
    (key : AIProvider) (p : AIServiceProvider) (prompt : string)
    (context : QueryContext R) (system_prompt : option string) :
  providers m !! key = Some p ->
  query_provider provider_query key prompt context system_prompt (m, history)
    = (provider_query history p prompt context system_prompt,
       (m, history ++ [key])).
Proof.
  intros Hreg. unfold query_provider. router_unfold. cbn. by rewrite Hreg.
Qed.

Lemma usable_healthy (m : AIServiceManager R) (key : AIProvider)
    (p : AIServiceProvider) :
  providers m !! key = Some p -> health_status m !! key = Some true ->
  usable m key = true.
Proof.
  intros Hreg Hhealth. unfold usable. rewrite Hreg, Hhealth.
  by rewrite bool_decide_true by eauto.
Qed.

Lemma usable_unhealthy (m : AIServiceManager R) (key : AIProvider) :
  health_status m !! key = Some false -> usable m key = false.
Proof. intros Hhealth. unfold usable. rewrite Hhealth. apply andb_false_r. Qed.

(** A candidate list without a usable provider filters to nothing. *)
Lemma available_providers_none (m : AIServiceManager R) (q : QueryType) :
  (forall p, p ∈ default [] (routing_rules m !! q) -> usable m p = false) ->
  available_providers m q = [].
Proof.
  unfold available_providers.
  induction (default [] (routing_rules m !! q)) as [|p rest IH]; intros Hnone.
  - done.
  - cbn. rewrite (Hnone p) by apply list_elem_of_here.
    apply IH. intros p' Hin. apply Hnone. by right.
Qed.

(** C1, as the code has it: for a query that names no usable preferred
    provider, with table order [C; A; B] for the query's category, C marked
    unhealthy, and A and B registered and marked healthy, the candidates are
    filtered to [A; B]; A is called first and C never; when A raises, B is
    called next, and B's response is returned (after B's metrics are
    updated). *)
Theorem failover_in_table_order
    (m : AIServiceManager R) (history : list AIProvider) (prompt : string)
    (context : QueryContext R) (system_prompt : option string) (fallback : bool)
    (A B C : AIProvider) (pa pb : AIServiceProvider) (e : Exception)
    (response : AIResponse R) :
  routing_rules m !! query_type context = Some [C; A; B] ->
  health_status m !! A = Some true ->
  health_status m !! B = Some true ->
  health_status m !! C = Some false ->
  providers m !! A = Some pa ->
  providers m !! B = Some pb ->
  no_usable_preference m context ->
  provider_query history pa prompt context system_prompt = Raise e ->
  provider_query (history ++ [A]) pb prompt context system_prompt
    = Return response ->
  available_providers m (query_type context) = [A; B] /\
  route_query provider_query prompt context system_prompt fallback (m, history)
    = (Return response,
       (_update_performance_metrics B response m, history ++ [A; B])).
Proof.
  intros Hrule HA HB HC Hpa Hpb Hpref Hfail Hanswer.
  assert (Havail : available_providers m (query_type context) = [A; B]).
  { unfold available_providers. rewrite Hrule. cbn.
    by rewrite (usable_unhealthy m C HC), (usable_healthy m A pa Hpa HA),
      (usable_healthy m B pb Hpb HB). }
  split; [exact Havail|].
  unfold route_query, bind at 1.
  rewrite (try_preferred_skipped m history prompt context system_prompt fallback Hpref).
  unfold bind at 1, on_manager, gets. cbn [fst]. rewrite Havail.
  cbn [try_providers]. unfold try_except at 1, bind at 1.
  rewrite (query_provider_registered m history A pa prompt context system_prompt Hpa).
  rewrite Hfail.
  unfold try_except at 1, bind at 1.
  rewrite (query_provider_registered m (history ++ [A]) B pb prompt context
             system_prompt Hpb).
  rewrite Hanswer. router_unfold. cbn. by rewrite <- app_assoc.
Qed.

(** C4: when no candidate of the query's category is registered and marked
    healthy, and there is no usable preferred provider, [route_query] raises
    "No healthy AI providers available" without calling any provider. *)
Theorem no_healthy_provider
    (m : AIServiceManager R) (history : list AIProvider) (prompt : string)
    (context : QueryContext R) (system_prompt : option string) (fallback : bool) :
  no_usable_preference m context ->
  (forall p, p ∈ default [] (routing_rules m !! query_type context) ->
     usable m p = false) ->
  route_query provider_query prompt context system_prompt fallback (m, history)
    = (Raise (mkExc Exception_ "No healthy AI providers available"),
       (m, history)).
Proof.
  intros Hpref Hnone.
  unfold route_query, bind at 1.
  rewrite (try_preferred_skipped m history prompt context system_prompt fallback Hpref).
  unfold bind at 1, on_manager, gets. cbn [fst].
  by rewrite (available_providers_none m (query_type context) Hnone).
Qed.

(** The path [route_query] takes when the preferred provider answers: the
    response is returned as it came, and the manager is left as it was. *)
Lemma preferred_answer_bypasses_metrics
    (m : AIServiceManager R) (history : list AIProvider) (prompt : string)
    (context : QueryContext R) (system_prompt : option string) (fallback : bool)
    (preferred : AIProvider) (p : AIServiceProvider) (response : AIResponse R) :
  preferred_provider context = Some preferred ->
  providers m !! preferred = Some p ->
  health_status m !! preferred = Some true ->
  provider_query history p prompt context system_prompt = Return response ->
  route_query provider_query prompt context system_prompt fallback (m, history)
    = (Return response, (m, history ++ [preferred])).
Proof.
  intros Hpref Hreg Hhealth Hanswer.
  pose proof (query_provider_registered m history preferred p prompt context
                system_prompt Hreg) as Hquery.
  unfold route_query, try_preferred. router_unfold. cbn.
  rewrite Hpref, (usable_healthy m preferred p Hreg Hhealth).
  by rewrite Hquery, Hanswer.
Qed.

End Routing.

(** C1 fails as stated when the caller prefers a usable provider.  On the
    CREATIVE row [CHATGPT; GEMINI; CLAUDE] with ChatGPT down and the other two
    healthy, a query that prefers Claude is answered by Claude at once: the
    first and only call goes to the last provider of the row, and Gemini, the
    first healthy one, is never tried. *)
Lemma preferred_provider_is_attempted_first :
  routing_rules RouterScenario.manager !! CREATIVE
    = Some [CHATGPT; GEMINI; CLAUDE] /\
  health_status RouterScenario.manager !! CHATGPT = Some false /\
  health_status RouterScenario.manager !! GEMINI = Some true /\
  health_status RouterScenario.manager !! CLAUDE = Some true /\
  route_query RouterScenario.gemini_fails "Who posted this?"
      (RouterScenario.context CREATIVE (Some CLAUDE)) None true
      (RouterScenario.manager, [])
    = (Return RouterScenario.claude_response,
       (RouterScenario.manager, [CLAUDE])).
Proof. repeat split. Qed.

(** The witness of C1, on the CREATIVE row [CHATGPT; GEMINI; CLAUDE]: ChatGPT
    is down, Gemini raises, Claude answers. *)
Lemma failover_in_table_order_witness :
  available_providers RouterScenario.manager CREATIVE = [GEMINI; CLAUDE] /\
  route_query RouterScenario.gemini_fails "Who posted this?"
      (RouterScenario.context CREATIVE None) None true
      (RouterScenario.manager, [])
    = (Return RouterScenario.claude_response,
       (_update_performance_metrics CLAUDE RouterScenario.claude_response
          RouterScenario.manager,
        [GEMINI; CLAUDE])).
Proof.
  exact (failover_in_table_order RouterScenario.gemini_fails
           RouterScenario.manager [] "Who posted this?"
           (RouterScenario.context CREATIVE None) None true
           GEMINI CLAUDE CHATGPT RouterScenario.gemini RouterScenario.claude
           (mkExc Exception_ "Gemini API error") RouterScenario.claude_response
           eq_refl eq_refl eq_refl eq_refl eq_refl eq_refl I eq_refl eq_refl).
Defined.

(** The witness of C4: every provider of the ANALYSIS row is down. *)
Lemma no_healthy_provider_witness :
  route_query RouterScenario.gemini_fails "Who posted this?"
      (RouterScenario.context ANALYSIS (Some CLAUDE)) None true
      (RouterScenario.dark_manager, [])
    = (Raise (mkExc Exception_ "No healthy AI providers available"),
       (RouterScenario.dark_manager, [])).
Proof.
  apply (no_healthy_provider RouterScenario.gemini_fails
           RouterScenario.dark_manager [] "Who posted this?"
           (RouterScenario.context ANALYSIS (Some CLAUDE)) None true).
  - reflexivity.
  - intros p _. by destruct p.
Defined.

(** C5 fails on the preferred-provider path.  Claude is registered, healthy
    and preferred; it answers, the response is returned, and the metrics table
    is still empty.  The same query without the preference is served by Claude
    through the routing table, and that path records it. *)
Theorem preferred_provider_query_is_not_recorded :
  route_query RouterScenario.gemini_fails "Who posted this?"
      (RouterScenario.context ANALYSIS (Some CLAUDE)) None true
      (RouterScenario.manager, [])
    = (Return RouterScenario.claude_response, (RouterScenario.manager, [CLAUDE])) /\
  performance_metrics RouterScenario.manager !! CLAUDE = None /\
  exists m',
    route_query RouterScenario.gemini_fails "Who posted this?"
        (RouterScenario.context ANALYSIS None) None true
        (RouterScenario.manager, [])
      = (Return RouterScenario.claude_response, (m', [CLAUDE])) /\
    total_queries <$> performance_metrics m' !! CLAUDE = Some 1%N.
Proof.
  split; [reflexivity|]. split; [reflexivity|].
  exists (_update_performance_metrics CLAUDE RouterScenario.claude_response
            RouterScenario.manager).
  split; reflexivity.
Qed.

Section Metrics.

Context {R : Type} `{PyNumber R}.

(** The entry [_update_performance_metrics] creates for a provider it has not
    seen. *)
Definition fresh_metrics : Metrics R :=
  mkMetrics 0 (of_count 0) (of_count 0) (of_count 0).

(** [performance_metrics[p]] once the entry has been ensured. *)
Definition entry (m : AIServiceManager R) (p : AIProvider) : Metrics R :=
  default fresh_metrics (performance_metrics m !! p).

(** The read-modify-write on one entry. *)
Definition next_metrics (response : AIResponse R) (metrics : Metrics R)
  : Metrics R :=
  let queries := (total_queries metrics + 1)%N in
  mkMetrics queries
    (add (total_time metrics) (processing_time response))
    (add (total_cost metrics) (cost response))
    (div (add (mul (average_confidence metrics) (of_count (queries - 1)%N))
              (confidence response))
         (of_count queries)).

Lemma update_lookup (p : AIProvider) (response : AIResponse R)
    (m : AIServiceManager R) :
  performance_metrics (_update_performance_metrics p response m) !! p
    = Some (next_metrics response (entry m p)).
Proof.
  unfold _update_performance_metrics, entry.
  destruct (performance_metrics m !! p) as [metrics|] eqn:E.
  - rewrite E. cbn. by rewrite lookup_insert_eq.
  - rewrite lookup_insert_eq. cbn. by rewrite lookup_insert_eq.
Qed.

Lemma update_lookup_other (p q : AIProvider) (response : AIResponse R)
    (m : AIServiceManager R) :
  p <> q ->
  performance_metrics (_update_performance_metrics p response m) !! q
    = performance_metrics m !! q.
Proof.
  intros Hne. unfold _update_performance_metrics.
  destruct (performance_metrics m !! p) as [metrics|] eqn:E.
  - rewrite E. cbn. by rewrite lookup_insert_ne.
  - rewrite lookup_insert_eq. cbn. by rewrite !lookup_insert_ne.
Qed.



End Metrics.

Section Monotone.

Context {R : Type} `{PyNumber R}.

Variable provider_query :
  list AIProvider -> AIServiceProvider -> string -> QueryContext R ->
  option string -> outcome (AIResponse R).

(** Every entry of the first table is still in the second, with a query
    count that is not smaller. *)
Definition metrics_kept (m m' : AIServiceManager R) : Prop :=
  forall p metrics,
    performance_metrics m !! p = Some metrics ->
    exists metrics',
      performance_metrics m' !! p = Some metrics' /\
      (total_queries metrics <= total_queries metrics')%N.

Lemma metrics_kept_refl (m : AIServiceManager R) : metrics_kept m m.
Proof. intros p metrics Hm. exists metrics. split; [done|lia]. Qed.

Lemma update_keeps (key : AIProvider) (response : AIResponse R)
    (m : AIServiceManager R) :
  metrics_kept m (_update_performance_metrics key response m).
Proof.
  intros p metrics Hm. destruct (decide (key = p)) as [->|Hne].
  - rewrite update_lookup. eexists. split; [reflexivity|].
    unfold entry. rewrite Hm. cbn. lia.
  - rewrite (update_lookup_other key p response m Hne).
    exists metrics. split; [done|lia].
Qed.

Lemma try_providers_keeps (available : list AIProvider) (prompt : string)
    (context : QueryContext R) (system_prompt : option string) :
  forall (last_error : option Exception) (m : AIServiceManager R)
         (history : list AIProvider),
  metrics_kept m
    (fst (snd (try_providers provider_query available prompt context
                 system_prompt last_error (m, history)))).
Proof.
  induction available as [|key rest IH]; intros last_error m history.
  - apply metrics_kept_refl.
  - cbn [try_providers]. unfold try_except, bind at 1, query_provider.
    router_unfold. cbn.
    destruct (providers m !! key) as [p|]; cbn; [|apply IH].
    destruct (provider_query history p prompt context system_prompt)
      as [response|e|b]; cbn;
      [apply update_keeps|apply IH|apply metrics_kept_refl].
Qed.

(** X25: whatever its outcome, no call of [route_query] removes a
    provider's entry from the performance metrics or lowers its query
    count. *)
Lemma route_query_keeps_metrics (prompt : string) (context : QueryContext R)
    (system_prompt : option string) (fallback : bool)
    (m : AIServiceManager R) (history : list AIProvider) :
  metrics_kept m
    (fst (snd (route_query provider_query prompt context system_prompt fallback
                 (m, history)))).
Proof.
  unfold route_query, try_preferred, query_provider. router_unfold. cbn.
  destruct (preferred_provider context) as [preferred|]; cbn.
  - destruct (usable m preferred); cbn.
    + destruct (providers m !! preferred) as [p|]; cbn.
      * destruct (provider_query history p prompt context system_prompt)
          as [response|e|b]; cbn;
          [apply metrics_kept_refl| |apply metrics_kept_refl].
        destruct fallback; cbn; [|apply metrics_kept_refl].
        destruct (available_providers m (query_type context)) as [|key rest];
          [apply metrics_kept_refl|apply try_providers_keeps].
      * destruct fallback; cbn; [|apply metrics_kept_refl].
        destruct (available_providers m (query_type context)) as [|key rest];
          [apply metrics_kept_refl|apply try_providers_keeps].
    + destruct (available_providers m (query_type context)) as [|key rest];
        [apply metrics_kept_refl|apply try_providers_keeps].
  - destruct (available_providers m (query_type context)) as [|key rest];
      [apply metrics_kept_refl|apply try_providers_keeps].
Qed.

End Monotone.









End RouterFacts.
(** * Further properties of the agent core *)

Module TaskFacts.

Import AgentBase AgentFacts.

#[local] Arguments _broadcast_to_websockets : simpl never.
#[local] Arguments _notify_task_completion : simpl never.

Section Processing.

Variable analyze : pydict -> pydict -> ObsidianAgent -> outcome pydict * ObsidianAgent.
Variable json_dumps : json -> outcome string.
Variable isoformat : datetime -> string.
Variable clock : nat -> datetime.
Variable redis_publish : string -> string -> outcome Z.
Variable ws_send : WebSocket -> string -> outcome unit.

Let notify := _notify_task_completion json_dumps isoformat clock redis_publish ws_send.
Let process := _process_task analyze json_dumps isoformat clock redis_publish ws_send.

(** Two agent objects that differ at most in their listener list. *)
Definition same_but_listeners (a a' : ObsidianAgent) : Prop :=
  a' = with_websocket_connections (websocket_connections a') a.

Lemma same_but_listeners_refl (a : ObsidianAgent) : same_but_listeners a a.
Proof. unfold same_but_listeners. by destruct a. Qed.

Lemma same_but_listeners_trans (a b c : ObsidianAgent) :
  same_but_listeners a b -> same_but_listeners b c -> same_but_listeners a c.
Proof.
  unfold same_but_listeners. intros Hab Hbc. rewrite Hbc at 1. rewrite Hab at 1.
  by destruct a.
Qed.

Lemma broadcast_loop_agent (conns : list WebSocket) (payload : string) :
  forall (disconnected : list WebSocket) (a : ObsidianAgent) (w : World),
  fst (snd (broadcast_loop ws_send conns payload disconnected (a, w))) = a.
Proof.
  induction conns as [|ws rest IH]; intros disconnected a w; [done|].
  cbn [broadcast_loop]. unfold websocket_send. agent_unfold. cbn.
  destruct (ws_send ws payload) as [[]|e|b]; cbn; [apply IH| |done].
  case_decide; cbn; [apply IH|done].
Qed.

Lemma remove_loop_agent (disconnected : list WebSocket) :
  forall (a : ObsidianAgent) (w : World),
  same_but_listeners a (fst (snd (remove_loop disconnected (a, w)))).
Proof.
  induction disconnected as [|ws rest IH]; intros a w.
  - apply same_but_listeners_refl.
  - cbn [remove_loop]. unfold remove_websocket_client. agent_unfold. cbn.
    destruct (decide _); cbn; [|apply IH].
    eapply same_but_listeners_trans; [|apply IH].
    unfold same_but_listeners. by destruct a.
Qed.

Lemma broadcast_agent (message : json) (a : ObsidianAgent) (w : World) :
  same_but_listeners a
    (fst (snd (_broadcast_to_websockets json_dumps ws_send message (a, w)))).
Proof.
  unfold _broadcast_to_websockets. agent_unfold. cbn [fst snd].
  destruct (websocket_connections a) as [|ws rest];
    [apply same_but_listeners_refl|].
  generalize (ws :: rest). intros conns.
  destruct (json_dumps message) as [payload|e|b]; cbn [fst snd];
    [|apply same_but_listeners_refl..].
  pose proof (broadcast_loop_agent conns payload [] a w) as Hagent.
  destruct (broadcast_loop ws_send conns payload [] (a, w))
    as [[d|e|b] [a' w']]; cbn in *; subst a';
    [|apply same_but_listeners_refl..].
  apply remove_loop_agent.
Qed.

(** Whatever the sink and the listeners do, [_notify_task_completion]
    changes nothing of the agent but its listener list. *)
Lemma notify_agent (task : AgentTask) (a : ObsidianAgent) (w : World) :
  same_but_listeners a (fst (snd (notify task (a, w)))).
Proof.
  unfold notify, _notify_task_completion, datetime_now, tick,
    redis_client_publish.
  agent_unfold. cbn.
  destruct (json_dumps _) as [payload|e|b]; cbn;
    [|apply same_but_listeners_refl..].
  destruct (redis_publish _ _) as [n|e|b]; cbn;
    [|apply same_but_listeners_refl..].
  apply broadcast_agent.
Qed.

Lemma finish_table (task_id : string) (a : ObsidianAgent) :
  current_tasks (finish task_id a) = delete task_id (current_tasks a) /\
  agent_status (finish task_id a)
    = (if bool_decide (size (delete task_id (current_tasks a)) = 0%nat)
       then IDLE else agent_status a) /\
  same_but_listeners a
    (with_current_tasks (current_tasks a)
       (with_status (agent_status a) (finish task_id a))).
Proof.
  unfold finish, same_but_listeners.
  destruct (current_tasks a !! task_id) eqn:E; cbn.
  - destruct (bool_decide _); cbn; repeat split; by destruct a.
  - rewrite (delete_id _ _ E).
    destruct (bool_decide _); cbn; repeat split; by destruct a.
Qed.

(** X1: finishing a task removes that task and no other from the
    current-task table, and changes the agent's status only when the table is
    then empty, to idle; with other tasks still in the table the status is
    left as [analyze] left it. *)
Theorem process_task_removes_only_its_task
    (task : AgentTask) (a : ObsidianAgent) (w : World) :
  let a1 := snd (analyze (data task) (case_context task) a) in
  let a' := fst (snd (snd (process (task, (a, w))))) in
  current_tasks a' = delete (id task) (current_tasks a1) /\
  (forall other, other <> id task ->
     current_tasks a' !! other = current_tasks a1 !! other) /\
  agent_status a'
    = (if bool_decide (size (delete (id task) (current_tasks a1)) = 0%nat)
       then IDLE else agent_status a1).
Proof.
  intros a1 a'. subst a1 a'. unfold process.
  rewrite process_task_cases.
  assert (Hfin : forall a1 a2 : ObsidianAgent,
            same_but_listeners a1 a2 ->
            current_tasks (finish (id task) a2)
              = delete (id task) (current_tasks a1) /\
            (forall other, other <> id task ->
               current_tasks (finish (id task) a2) !! other
                 = current_tasks a1 !! other) /\
            agent_status (finish (id task) a2)
              = (if bool_decide (size (delete (id task) (current_tasks a1)) = 0%nat)
                 then IDLE else agent_status a1)).
  { intros a1 a2 Hsame.
    destruct (finish_table (id task) a2) as (Htable & Hstatus & _).
    assert (Htasks : current_tasks a2 = current_tasks a1)
      by (rewrite Hsame; by destruct a1).
    assert (Hst : agent_status a2 = agent_status a1)
      by (rewrite Hsame; by destruct a1).
    rewrite Htable, Hstatus, Htasks, Hst.
    split; [done|]. split; [|done].
    intros other Hne. by rewrite lookup_delete_ne. }
  destruct (analyze _ _ a) as [[res|e|b] a1]; cbn [snd].
  - pose proof (notify_agent (completed_task task res) a1 w) as Hsame.
    fold notify in Hsame |- *.
    destruct (notify _ (a1, w)) as [[[]|e|b] [a2 w2]]; cbn in *; by apply Hfin.
  - cbn. apply Hfin, same_but_listeners_refl.
  - cbn. apply Hfin, same_but_listeners_refl.
Qed.

(** What [_notify_task_completion] leaves alone in the world: the queues and
    the scheduled units. *)
Lemma broadcast_loop_world (conns : list WebSocket) (payload : string) :
  forall (disconnected : list WebSocket) (s : AgentState),
  mailboxes (snd (snd (broadcast_loop ws_send conns payload disconnected s)))
    = mailboxes (snd s) /\
  spawned (snd (snd (broadcast_loop ws_send conns payload disconnected s)))
    = spawned (snd s).
Proof.
  induction conns as [|ws rest IH]; intros disconnected [a w]; [done|].
  cbn [broadcast_loop]. unfold websocket_send. agent_unfold. cbn.
  destruct (ws_send ws payload) as [[]|e|b]; cbn.
  - destruct (IH disconnected (a, with_ws_sent (ws_sent w ++ [(ws, payload)]) w))
      as [-> ->]. done.
  - case_decide; cbn; [|done]. apply IH.
  - done.
Qed.

Lemma notify_world (task : AgentTask) (a : ObsidianAgent) (w : World) :
  mailboxes (snd (snd (notify task (a, w)))) = mailboxes w /\
  spawned (snd (snd (notify task (a, w)))) = spawned w.
Proof.
  unfold notify, _notify_task_completion, datetime_now, tick,
    redis_client_publish, _broadcast_to_websockets.
  agent_unfold. cbn [fst snd].
  destruct (json_dumps _) as [payload|e|b]; cbn [fst snd]; [|done..].
  destruct (redis_publish _ _) as [n|e|b]; cbn [fst snd]; [|done..].
  destruct (websocket_connections a) as [|ws rest]; [done|].
  generalize (ws :: rest). intros conns.
  match goal with
  | |- context [broadcast_loop ws_send conns ?p ?d ?s0] =>
      pose proof (broadcast_loop_world conns p d s0) as Hworld;
      destruct (broadcast_loop ws_send conns p d s0) as [[d'|e'|b'] [a' w']]
  end; cbn in *; [|done..].
  destruct (remove_loop_world d' a' w') as [a'' ->]. done.
Qed.

(** X2: when [json.dumps] or the sink refuses the completion event of a
    task whose [analyze] returned, the task ends as failed although its result
    is set: the error recorded is that of the refusal, progress stays at 100,
    nothing is on the channel and no listener is reached. *)
Theorem sink_failure_fails_completed_task
    (task : AgentTask) (a a1 : ObsidianAgent) (w : World) (res : pydict)
    (e : Exception) :
  analyze (data task) (case_context task) a = (Return res, a1) ->
  and_then
    (json_dumps (notification (codename a1) (completed_task task res)
                              (isoformat (clock (ticks w)))))
    (redis_publish "task_completions") = Raise e ->
  let final := snd (process (task, (a, w))) in
  status (fst final) = "failed" /\
  error (fst final) = Some (str_exc e) /\
  result (fst final) = Some res /\
  progress (fst final) = 100%float /\
  redis_published (snd (snd final)) = redis_published w /\
  ws_sent (snd (snd final)) = ws_sent w.
Proof.
  intros Hanalyze Hsink final. subst final. unfold process.
  rewrite process_task_cases, Hanalyze.
  unfold notify, _notify_task_completion, datetime_now, tick,
    redis_client_publish.
  agent_unfold. cbn.
  destruct (json_dumps _) as [payload|e'|b]; cbn in Hsink |- *.
  - rewrite Hsink. cbn. repeat split.
  - injection Hsink as ->. repeat split.
  - discriminate Hsink.
Qed.

(** [l.remove(x)] for each [x] of [disconnected] in turn. *)
Definition remove_all (disconnected conns : list WebSocket) : list WebSocket :=
  fold_left (fun l ws => list_remove ws l) disconnected conns.

Lemma list_remove_absent (ws : WebSocket) (l : list WebSocket) :
  ws ∉ l -> list_remove ws l = l.
Proof.
  induction l as [|y l IH]; [done|]. intros Hnot.
  apply not_elem_of_cons in Hnot as [Hne Hnot].
  cbn. rewrite decide_False by done. by rewrite IH.
Qed.

Lemma list_remove_middle (ws : WebSocket) (pre l : list WebSocket) :
  ws ∉ pre -> list_remove ws (pre ++ ws :: l) = pre ++ l.
Proof.
  induction pre as [|y pre IH]; intros Hnot; cbn.
  - by rewrite decide_True.
  - apply not_elem_of_cons in Hnot as [Hne Hnot].
    rewrite decide_False by done. by rewrite IH.
Qed.

Lemma remove_all_filter (good : WebSocket -> bool) (conns : list WebSocket) :
  forall pre : list WebSocket,
  (forall ws, ws ∈ pre -> good ws = true) ->
  remove_all (List.filter (fun ws => negb (good ws)) conns) (pre ++ conns)
    = pre ++ List.filter good conns.
Proof.
  induction conns as [|x rest IH]; intros pre Hpre; [done|].
  cbn [List.filter]. destruct (good x) eqn:Hx; cbn [negb].
  - replace (pre ++ x :: rest) with ((pre ++ [x]) ++ rest)
      by (by rewrite <- app_assoc).
    rewrite IH.
    + by rewrite <- app_assoc.
    + intros ws [Hin|Hin%list_elem_of_singleton]%elem_of_app; [by apply Hpre|].
      by subst ws.
  - unfold remove_all. cbn [fold_left].
    rewrite list_remove_middle.
    + apply IH, Hpre.
    + intros Hin. apply Hpre in Hin. congruence.
Qed.

Lemma remove_loop_removes (disconnected : list WebSocket) :
  forall (a : ObsidianAgent) (w : World),
  remove_loop disconnected (a, w)
    = (Return tt,
       (with_websocket_connections
          (remove_all disconnected (websocket_connections a)) a, w)).
Proof.
  induction disconnected as [|ws rest IH]; intros a w.
  - cbn. by destruct a.
  - cbn [remove_loop]. unfold remove_websocket_client. agent_unfold.
    cbn [fst snd]. destruct (decide (ws ∈ websocket_connections a)) as [Hin|Hout].
    + cbn [fst snd]. rewrite IH. by destruct a.
    + rewrite IH. unfold remove_all. cbn [fold_left].
      by rewrite (list_remove_absent ws _ Hout).
Qed.

Lemma broadcast_loop_disconnected (conns : list WebSocket) (payload : string) :
  only_closed ws_send payload conns ->
  forall (disconnected : list WebSocket) (a : ObsidianAgent) (w : World),
  broadcast_loop ws_send conns payload disconnected (a, w) =
    (Return (disconnected
             ++ List.filter (fun ws => negb (returned (ws_send ws payload))) conns),
     (a, with_ws_sent
           (ws_sent w ++ map (fun ws => (ws, payload))
                             (reached ws_send payload conns))
           w)).
Proof.
  induction conns as [|ws rest IH]; intros Hok disconnected a w.
  - cbn. unfold ret. rewrite !app_nil_r. by destruct w.
  - pose proof (only_closed_tail ws_send payload ws rest Hok) as Hrest.
    destruct Hok as [Hclosed Hbase].
    cbn [broadcast_loop]. unfold websocket_send. agent_unfold.
    unfold reached. cbn [List.filter].
    destruct (ws_send ws payload) as [[]|e|b] eqn:Hsend; cbn.
    + rewrite (IH Hrest). cbn. unfold reached. by rewrite <- app_assoc.
    + rewrite (Hclosed ws e (list_elem_of_here _ _) Hsend).
      case_decide; [|done]. cbn.
      rewrite (IH Hrest). by rewrite <- app_assoc.
    + by destruct (Hbase ws b (list_elem_of_here _ _)).
Qed.

(** X3: a broadcast of a message that [json.dumps] serializes, in which
    every send either succeeds or fails because the peer has gone, returns,
    leaves as listeners exactly those that accepted the message, in
    subscription order, and has sent the message to each of them once.  With
    no listener the message is not serialized at all. *)
Theorem broadcast_prunes_closed_listeners
    (message : json) (payload : string) (a : ObsidianAgent) (w : World) :
  (websocket_connections a <> [] -> json_dumps message = Return payload) ->
  only_closed ws_send payload (websocket_connections a) ->
  let accepted_by := reached ws_send payload (websocket_connections a) in
  _broadcast_to_websockets json_dumps ws_send message (a, w) =
    (Return tt,
     (with_websocket_connections accepted_by a,
      with_ws_sent
        (ws_sent w ++ map (fun ws => (ws, payload)) accepted_by) w)).
Proof.
  intros Hdumps Hok accepted_by. subst accepted_by.
  unfold _broadcast_to_websockets. agent_unfold. cbn [fst snd].
  destruct (websocket_connections a) as [|ws rest] eqn:Hconns.
  - cbn. rewrite app_nil_r. destruct a, w. cbn in *. by subst.
  - rewrite Hdumps by done. cbn [fst snd].
    rewrite (broadcast_loop_disconnected (ws :: rest) payload Hok).
    rewrite remove_loop_removes. cbn [fst snd app].
    rewrite Hconns.
    pose proof (remove_all_filter
                  (fun ws0 => returned (ws_send ws0 payload))
                  (ws :: rest) [] (fun ws0 Hin => False_ind _ (not_elem_of_nil _ Hin)))
      as Hfilter.
    cbn [app] in Hfilter. by rewrite Hfilter.
Qed.

End Processing.

Section Assignment.

Variable get_capabilities : ObsidianAgent -> outcome Capabilities.

(** X4: task ids are not checked for uniqueness.  When two supported tasks
    with the same id are assigned one after the other, both are accepted and
    both processing units are scheduled, in order, but the current-task table
    holds a single entry under that id: the second task. *)
Theorem assign_task_same_id
    (t1 t2 : AgentTask) (a : ObsidianAgent) (w : World) (caps : Capabilities) :
  (forall a', get_capabilities a' = Return caps) ->
  task_type t1 ∈ default [] (supported_tasks caps) ->
  task_type t2 ∈ default [] (supported_tasks caps) ->
  id t1 = id t2 ->
  let first := assign_task get_capabilities t1 (a, w) in
  let second := assign_task get_capabilities t2 (snd first) in
  fst first = Return true /\
  fst second = Return true /\
  current_tasks (fst (snd second)) = <[id t2 := t2]> (current_tasks a) /\
  agent_status (fst (snd second)) = WORKING /\
  spawned (snd (snd second)) = spawned w ++ [t1; t2].
Proof.
  intros Hcaps H1 H2 Hid first second. subst first second.
  assert (Hfirst : assign_task get_capabilities t1 (a, w)
                   = (Return true, accepted t1 (a, w))).
  { rewrite assign_task_cases, Hcaps. by rewrite bool_decide_true. }
  assert (Hsecond : assign_task get_capabilities t2 (accepted t1 (a, w))
                    = (Return true, accepted t2 (accepted t1 (a, w)))).
  { rewrite assign_task_cases, Hcaps. by rewrite bool_decide_true. }
  rewrite Hfirst. cbn [fst snd]. rewrite Hsecond. cbn.
  by rewrite Hid, insert_insert_eq, <- app_assoc.
Qed.

End Assignment.

(** The witness of X4: KRONOS is given the same task twice. *)
Lemma assign_task_same_id_witness :
  let first :=
    assign_task Scenario.kronos_get_capabilities Scenario.timeline_task
      (Scenario.kronos, Scenario.quiet) in
  let second :=
    assign_task Scenario.kronos_get_capabilities Scenario.timeline_task
      (snd first) in
  fst first = Return true /\
  fst second = Return true /\
  current_tasks (fst (snd second))
    = <["task-1" := Scenario.timeline_task]> ∅ /\
  agent_status (fst (snd second)) = WORKING /\
  spawned (snd (snd second)) = [Scenario.timeline_task; Scenario.timeline_task].
Proof.
  apply (assign_task_same_id Scenario.kronos_get_capabilities
           Scenario.timeline_task Scenario.timeline_task Scenario.kronos
           Scenario.quiet Scenario.kronos_capabilities).
  - reflexivity.
  - cbn. apply list_elem_of_further, list_elem_of_here.
  - cbn. apply list_elem_of_further, list_elem_of_here.
  - reflexivity.
Defined.

(** The witness of X2: Redis refuses the connection when KRONOS reports its
    finished task. *)
Lemma sink_failure_fails_completed_task_witness :
  let final :=
    snd (_process_task Scenario.kronos_analyze Scenario.json_dumps
           Scenario.isoformat Scenario.clock Scenario.redis_down
           Scenario.ws_send (Scenario.timeline_task, kronos_working)) in
  status (fst final) = "failed" /\
  error (fst final) = Some "Connection refused" /\
  result (fst final) = Some Scenario.kronos_answer /\
  progress (fst final) = 100%float /\
  redis_published (snd (snd final)) = [] /\
  ws_sent (snd (snd final)) = [].
Proof.
  exact (sink_failure_fails_completed_task Scenario.kronos_analyze
           Scenario.json_dumps Scenario.isoformat Scenario.clock
           Scenario.redis_down Scenario.ws_send Scenario.timeline_task
           (fst kronos_working) (fst kronos_working) (snd kronos_working)
           Scenario.kronos_answer (mkExc Exception_ "Connection refused")
           eq_refl eq_refl).
Defined.

(** The witness of X3: of the listeners 7, 8 and 7 again, only 8 is left. *)
Lemma broadcast_prunes_closed_listeners_witness :
  _broadcast_to_websockets Scenario.json_dumps Scenario.ws_send_7_closed JNone
      (with_websocket_connections [7; 8; 7]%nat Scenario.kronos, Scenario.quiet)
    = (Return tt,
       (with_websocket_connections [8%nat] Scenario.kronos,
        with_ws_sent [(8%nat, "null")] Scenario.quiet)).
Proof.
  apply (broadcast_prunes_closed_listeners Scenario.json_dumps
           Scenario.ws_send_7_closed JNone "null"
           (with_websocket_connections [7; 8; 7]%nat Scenario.kronos)
           Scenario.quiet).
  - reflexivity.
  - split.
    + intros ws e _. unfold Scenario.ws_send_7_closed.
      destruct (decide (ws = 7%nat)); [|done]. by intros [= <-].
    + intros ws b _. unfold Scenario.ws_send_7_closed.
      by destruct (decide (ws = 7%nat)).
Defined.

End TaskFacts.

(** * Properties of the mailbox *)

Module MailboxFacts.

Import AgentBase AgentFacts.

Section Mailbox.

Variable analyze : pydict -> pydict -> ObsidianAgent -> outcome pydict * ObsidianAgent.
Variable get_capabilities : ObsidianAgent -> outcome Capabilities.
Variable clock : nat -> datetime.
Variable uuid : nat -> string.
Variable assign_unannotated : AgentMessage -> Coro AgentState unit.

Let handle_request := _handle_collaboration_request analyze clock uuid.
Let handle := _handle_message analyze get_capabilities clock uuid assign_unannotated.
Let processor :=
  _message_processor analyze get_capabilities clock uuid assign_unannotated.

(** The agent as [_handle_collaboration_request] leaves it, given the agent
    as [analyze] left it. *)
Definition after_collaboration (a1 : ObsidianAgent) : ObsidianAgent :=
  if bool_decide (size (current_tasks a1) = 0%nat) then with_status IDLE a1 else a1.

(** [_handle_collaboration_request] path by path. *)
Lemma handle_request_cases (message : AgentMessage) (a : ObsidianAgent) (w : World) :
  handle_request message (a, w) =
    match analyze (content message) collaboration_context
                  (with_status COLLABORATION a) with
    | (Return res, a1) =>
        let response :=
          mkMessage (uuid (ticks w)) (codename a1) (sender message)
                    "collaboration_response" {["result" := JDict res]}
                    (clock (S (ticks w))) MEDIUM in
        let w1 := with_ticks (S (S (ticks w))) w in
        match council_agents a1 !! sender message with
        | Some r =>
            (Return tt,
             (after_collaboration a1,
              with_mailboxes (<[r := mailbox_of r w ++ [response]]> (mailboxes w)) w1))
        | None => (Return tt, (after_collaboration a1, w1))
        end
    | (Raise _, a1) => (Return tt, (after_collaboration a1, w))
    | (RaiseBase b, a1) => (RaiseBase b, (after_collaboration a1, w))
    end.
Proof.
  unfold handle_request, _handle_collaboration_request, self_analyze, uuid4,
    datetime_now, tick, queue_put, collaboration_context, after_collaboration,
    mailbox_of.
  agent_unfold. cbn.
  destruct (analyze _ _ _) as [[res|e|b] a1]; cbn.
  - destruct (council_agents a1 !! sender message) as [r|]; cbn;
      by destruct (bool_decide _).
  - by destruct (bool_decide _).
  - by destruct (bool_decide _).
Qed.

(** X5: no [Exception] of [analyze] escapes [_handle_collaboration_request]:
    the handler returns whether [analyze] returned or raised one; only a
    cancellation of [analyze] propagates, and then too the [finally] suite has
    run.  The handler never touches the current-task table.  Afterwards the
    agent is as [analyze] left it, except that it is idle when it has no
    current task; with tasks still in the table the status is not put back to
    working: an [analyze] that leaves the status alone leaves the agent in
    collaboration mode. *)
Theorem collaboration_request_status
    (message : AgentMessage) (a : ObsidianAgent) (w : World) :
  let analysis :=
    analyze (content message) collaboration_context
            (with_status COLLABORATION a) in
  let a1 := snd analysis in
  let run := handle_request message (a, w) in
  fst run = match fst analysis with
            | RaiseBase b => RaiseBase b
            | _ => Return tt
            end /\
  fst (snd run) = after_collaboration a1 /\
  current_tasks (fst (snd run)) = current_tasks a1 /\
  (current_tasks a1 = ∅ -> agent_status (fst (snd run)) = IDLE) /\
  (current_tasks a1 <> ∅ -> agent_status a1 = COLLABORATION ->
     agent_status (fst (snd run)) = COLLABORATION).
Proof.
  intros analysis a1 run. subst analysis a1 run. rewrite handle_request_cases.
  assert (Hafter : forall a1 : ObsidianAgent,
            current_tasks (after_collaboration a1) = current_tasks a1 /\
            (current_tasks a1 = ∅ -> agent_status (after_collaboration a1) = IDLE) /\
            (current_tasks a1 <> ∅ -> agent_status a1 = COLLABORATION ->
               agent_status (after_collaboration a1) = COLLABORATION)).
  { intros a1. unfold after_collaboration.
    case_bool_decide as Hsize; cbn.
    - apply map_size_empty_iff in Hsize. repeat split; done.
    - repeat split; try done. intros Hempty.
      by rewrite Hempty, map_size_empty in Hsize. }
  destruct (analyze _ _ _) as [[res|e|b] a1]; cbn [fst snd].
  - destruct (council_agents a1 !! sender message) as [r|]; cbn [fst snd];
      (split; [done|]); (split; [done|]); apply Hafter.
  - split; [done|]. split; [done|]. apply Hafter.
  - split; [done|]. split; [done|]. apply Hafter.
Qed.

(** The message [collaborate_with] builds. *)
Definition request_message (a : ObsidianAgent) (w : World) (agent_name : string)
    (request : pydict) : AgentMessage :=
  mkMessage (uuid (ticks w)) (codename a) agent_name "collaboration_request"
            request (clock (S (ticks w))) MEDIUM.

Lemma collaborate_with_registered (a : ObsidianAgent) (w : World)
    (agent_name : string) (request : pydict) (r : AgentRef) :
  council_agents a !! agent_name = Some r ->
  collaborate_with clock uuid agent_name request (a, w) =
    (Return tt,
     (a, with_mailboxes
           (<[r := mailbox_of r w ++ [request_message a w agent_name request]]>
              (mailboxes w))
           (with_ticks (S (S (ticks w))) w))).
Proof.
  intros Hreg. unfold collaborate_with, uuid4, datetime_now, tick, queue_put,
    request_message, mailbox_of.
  agent_unfold. cbn. by rewrite Hreg.
Qed.

Lemma mailbox_of_insert (r r' : AgentRef) (queue : list AgentMessage) (w w0 : World) :
  mailbox_of r' (with_mailboxes (<[r := queue]> (mailboxes w)) w0)
    = if decide (r = r') then queue else mailbox_of r' w.
Proof.
  unfold mailbox_of. cbn. rewrite lookup_insert. by case_decide.
Qed.

Lemma dict_get_Some (d : pydict) (key : string) (dflt j : json) :
  d !! key = Some j -> dict_get d key dflt = j.
Proof. intros Hkey. unfold dict_get. by rewrite Hkey. Qed.

Lemma dict_get_None (d : pydict) (key : string) (dflt : json) :
  d !! key = None -> dict_get d key dflt = dflt.
Proof. intros Hkey. unfold dict_get. by rewrite Hkey. Qed.

(** One turn of the loop on a queue that holds a message: an [Exception] of
    the handler is swallowed, a cancellation ends the loop. *)
Lemma processor_turn (self_ref : AgentRef) (n : nat) (message : AgentMessage)
    (rest : list AgentMessage) (a : ObsidianAgent) (w : World) :
  mailbox_of self_ref w = message :: rest ->
  processor self_ref (S n) (a, w) =
    match handle message
            (a, with_mailboxes (<[self_ref := rest]> (mailboxes w)) w) with
    | (RaiseBase b, s') => (RaiseBase b, s')
    | (_, s') => processor self_ref n s'
    end.
Proof.
  intros Hqueue. unfold processor. cbn [_message_processor].
  unfold bind at 1, gets. cbn [fst snd]. rewrite Hqueue.
  unfold bind at 1, try_except, bind at 1, update_world, modify. cbn [fst snd].
  fold handle.
  by destruct (handle message _) as [[[]|e|b] s'].
Qed.

(** X6: the collaboration round trip.  X asks Y, registered in X's
    directory, to collaborate; Y's queue was empty, so the next turn of Y's
    message loop handles the request, and when Y's [analyze] returns and X is
    in Y's directory under X's codename, the reply is appended to X's queue:
    a [collaboration_response] from Y to X whose content wraps the result of
    [analyze].  X itself is unchanged by the send. *)
Theorem collaboration_round_trip
    (x y y1 : ObsidianAgent) (rx ry : AgentRef) (name_y : string)
    (request res : pydict) (w : World) :
  council_agents x !! name_y = Some ry ->
  mailbox_of ry w = [] ->
  analyze request collaboration_context (with_status COLLABORATION y)
    = (Return res, y1) ->
  council_agents y1 !! codename x = Some rx ->
  let sent := collaborate_with clock uuid name_y request (x, w) in
  let handled := processor ry 1 (y, snd (snd sent)) in
  fst sent = Return tt /\
  fst (snd sent) = x /\
  fst handled = Return tt /\
  mailbox_of rx (snd (snd handled))
    = mailbox_of rx w
      ++ [mkMessage (uuid (2 + ticks w)) (codename y1) (codename x)
                    "collaboration_response" {["result" := JDict res]}
                    (clock (3 + ticks w)) MEDIUM].
Proof.
  intros Hy Hempty Hanalyze Hx sent handled. subst sent handled.
  rewrite (collaborate_with_registered x w name_y request ry Hy).
  cbn [fst snd]. split; [done|]. split; [done|].
  rewrite (processor_turn ry 0 (request_message x w name_y request) []).
  2:{ rewrite mailbox_of_insert, decide_True by done. by rewrite Hempty. }
  unfold handle, _handle_message. cbn [message_type request_message].
  rewrite decide_True by done. fold handle_request.
  rewrite handle_request_cases. cbn [content sender request_message].
  rewrite Hanalyze. cbn [ticks with_mailboxes with_ticks].
  rewrite Hx. cbn [fst snd processor]. unfold processor. cbn [_message_processor].
  split; [done|]. cbn [fst snd ret].
  rewrite mailbox_of_insert, decide_True by done.
  f_equal. rewrite mailbox_of_insert. case_decide as Hrefs.
  - subst rx. by rewrite Hempty.
  - unfold mailbox_of. cbn. by rewrite lookup_insert_ne.
Qed.

(** X7: no [Exception] escapes the message loop.  Whatever the handlers
    and the collaborators they call do, for any number of turns from any
    state, a run of the loop returns or is ended by a [BaseException] that is
    no [Exception], such as the [CancelledError] of a cancelled handler; it
    never ends in an [Exception]. *)
Theorem message_processor_lets_no_exception_escape
    (self_ref : AgentRef) (n : nat) :
  forall s : AgentState,
    fst (processor self_ref n s) = Return tt \/
    exists b, fst (processor self_ref n s) = RaiseBase b.
Proof.
  induction n as [|n IH]; intros [a w]; [by left|].
  destruct (mailbox_of self_ref w) as [|message rest] eqn:Hqueue.
  - left. unfold processor. cbn [_message_processor].
    unfold bind, gets. cbn [fst snd]. by rewrite Hqueue.
  - rewrite (processor_turn self_ref n message rest a w Hqueue).
    destruct (handle message _) as [[[]|e'|b] s'];
      [apply IH|apply IH|right; by exists b].
Qed.

(** A message of a type the base agent has no handler for: anything but a
    collaboration request, a data share and a task delegation.  The reply to
    a collaboration, of type "collaboration_response", is one. *)
Definition unhandled (message : AgentMessage) : Prop :=
  message_type message <> "collaboration_request" /\
  message_type message <> "data_share" /\
  message_type message <> "task_delegation".

Lemma handle_unhandled (message : AgentMessage) (s : AgentState) :
  unhandled message -> handle message s = (Return tt, s).
Proof.
  intros (H1 & H2 & H3). unfold handle, _handle_message.
  by rewrite !decide_False by done.
Qed.

(** Two worlds that differ at most in the queue at [r]. *)
Definition same_but_queue (r : AgentRef) (w w' : World) : Prop :=
  (forall r', r' <> r -> mailboxes w' !! r' = mailboxes w !! r') /\
  spawned w' = spawned w /\
  redis_published w' = redis_published w /\
  ws_sent w' = ws_sent w /\
  ticks w' = ticks w.

(** X8: a backlog of messages the base agent has no handler for, replies
    to its own collaboration requests among them, is drained by the message
    loop one message per turn and without any other effect: the queue ends
    empty, the agent is unchanged, and so is the rest of the world. *)
Theorem unhandled_messages_are_dropped (self_ref : AgentRef)
    (messages : list AgentMessage) :
  Forall unhandled messages ->
  forall (a : ObsidianAgent) (w : World),
  mailbox_of self_ref w = messages ->
  let run := processor self_ref (length messages) (a, w) in
  fst run = Return tt /\
  fst (snd run) = a /\
  mailbox_of self_ref (snd (snd run)) = [] /\
  same_but_queue self_ref w (snd (snd run)).
Proof.
  induction 1 as [|message rest Hmessage Hrest IH]; intros a w Hqueue run;
    subst run.
  - cbn. repeat split; done.
  - cbn [length]. rewrite (processor_turn self_ref _ message rest a w Hqueue).
    rewrite (handle_unhandled message _ Hmessage).
    destruct (IH a (with_mailboxes (<[self_ref := rest]> (mailboxes w)) w))
      as (Hret & Hagent & Hempty & Hothers & Hsp & Hred & Hws & Hticks).
    { by rewrite mailbox_of_insert, decide_True. }
    repeat split; try done.
    intros r' Hne. rewrite (Hothers r' Hne). cbn. by rewrite lookup_insert_ne.
Qed.

(** A delegation that names a task type, whose [case_id] is absent or a
    string, whose [priority] is absent or a value [Priority] accepts, and
    whose [data] is absent or a dictionary. *)
Definition delegation (message : AgentMessage) (task_type_ : string) : Prop :=
  message_type message = "task_delegation" /\
  dict_get (content message) "task_type" JNone = JStr task_type_ /\
  (exists case_id_,
     dict_get (content message) "case_id" (JStr "unknown") = JStr case_id_) /\
  returned (Priority_of_json (dict_get (content message) "priority" (JInt 2)))
    = true /\
  (exists data_, dict_get (content message) "data" (JDict ∅) = JDict data_).

(** The task [_handle_task_delegation] builds. *)
Definition delegated_task (w : World) (case_id_ task_type_ : string)
    (priority_ : Priority) (data_ : pydict) : AgentTask :=
  mkTask (uuid (ticks w)) case_id_ task_type_ priority_ data_
         (clock (S (ticks w))) None 0%float "pending" None None.

Lemma handle_delegation (message : AgentMessage) (case_id_ task_type_ : string)
    (priority_ : Priority) (data_ : pydict) (caps : Capabilities)
    (a : ObsidianAgent) (w : World) :
  message_type message = "task_delegation" ->
  dict_get (content message) "task_type" JNone = JStr task_type_ ->
  dict_get (content message) "case_id" (JStr "unknown") = JStr case_id_ ->
  Priority_of_json (dict_get (content message) "priority" (JInt 2))
    = Return priority_ ->
  dict_get (content message) "data" (JDict ∅) = JDict data_ ->
  get_capabilities a = Return caps ->
  task_type_ ∈ default [] (supported_tasks caps) ->
  handle message (a, w)
    = (Return tt,
       accepted (delegated_task w case_id_ task_type_ priority_ data_)
                (a, with_ticks (S (S (ticks w))) w)).
Proof.
  intros Hty Htask Ecase Eprio Edata Hcaps Hsupported.
  unfold handle, _handle_message. rewrite Hty.
  rewrite !decide_False by done. rewrite decide_True by done.
  unfold _handle_task_delegation, uuid4, datetime_now, tick.
  rewrite Ecase, Edata, Htask, Eprio.
  unfold bind at 1. agent_unfold. cbn [fst snd].
  match goal with
  | |- context [assign_task get_capabilities ?t ?s0] =>
      rewrite (assign_task_cases get_capabilities t s0)
  end.
  cbn [fst snd]. rewrite Hcaps. cbn [task_type].
  by rewrite bool_decide_true.
Qed.

(** X9: a delegation that names a supported task type and nothing else is
    accepted with the defaults: a pending task of case "unknown", priority
    MEDIUM and empty data, under a fresh id, in the current-task table of an
    agent that is now working, with its processing unit scheduled. *)
Theorem delegated_task_defaults
    (message : AgentMessage) (task_type_ : string) (caps : Capabilities)
    (a : ObsidianAgent) (w : World) :
  message_type message = "task_delegation" ->
  content message !! "task_type" = Some (JStr task_type_) ->
  content message !! "case_id" = None ->
  content message !! "priority" = None ->
  content message !! "data" = None ->
  get_capabilities a = Return caps ->
  task_type_ ∈ default [] (supported_tasks caps) ->
  let task := delegated_task w "unknown" task_type_ MEDIUM ∅ in
  let run := handle message (a, w) in
  fst run = Return tt /\
  current_tasks (fst (snd run)) = <[uuid (ticks w) := task]> (current_tasks a) /\
  agent_status (fst (snd run)) = WORKING /\
  spawned (snd (snd run)) = spawned w ++ [task].
Proof.
  intros Hty Htask Hcase Hprio Hdata Hcaps Hsupported task run.
  subst task run.
  rewrite (handle_delegation message "unknown" task_type_ MEDIUM ∅ caps a w);
    try done.
  - by apply dict_get_Some.
  - by rewrite dict_get_None.
  - by rewrite dict_get_None.
  - by rewrite dict_get_None.
Qed.

(** [Priority(v)] answers exactly for the five values, with the member
    whose value is [v]. *)
Lemma Priority_of_value_spec (v : Z) (p : Priority) :
  Priority_of_value v = Return p <-> Priority_value p = v.
Proof.
  split.
  - destruct v as [|q|q]; try discriminate.
    destruct q as [[[q|q|]|[q|q|]|]|[[q|q|]|[q|q|]|]|]; cbn;
      try discriminate; by intros [= <-].
  - intros <-. by destruct p.
Qed.

Lemma Priority_of_value_invalid (v : Z) :
  ~ (1 <= v <= 5) ->
  Priority_of_value v = Raise (mkExc ValueError "not a valid Priority").
Proof.
  intros Hout. destruct (Priority_of_value v) as [p|e|b] eqn:E.
  - apply Priority_of_value_spec in E. destruct p; cbn in E; lia.
  - destruct v as [|q|q]; try (by injection E as <-).
    destruct q as [[[q|q|]|[q|q|]|]|[[q|q|]|[q|q|]|]|]; cbn in E;
      try discriminate; by injection E as <-.
  - destruct v as [|q|q]; try discriminate.
    destruct q as [[[q|q|]|[q|q|]|]|[[q|q|]|[q|q|]|]|]; discriminate.
Qed.

(** X10: a delegation whose priority is an integer outside 1..5 schedules
    nothing.  [Priority(...)] raises [ValueError] while the task is being
    built, the message loop swallows it, and the turn leaves the agent as it
    was: the message is consumed, one id has been drawn, and neither the
    current-task table nor the scheduled units have changed. *)
Theorem invalid_priority_delegation_is_dropped
    (self_ref : AgentRef) (message : AgentMessage) (rest : list AgentMessage)
    (v : Z) (a : ObsidianAgent) (w : World) :
  mailbox_of self_ref w = message :: rest ->
  message_type message = "task_delegation" ->
  content message !! "priority" = Some (JInt v) ->
  ~ (1 <= v <= 5) ->
  processor self_ref 1 (a, w)
    = (Return tt,
       (a, with_ticks (S (ticks w))
             (with_mailboxes (<[self_ref := rest]> (mailboxes w)) w))).
Proof.
  intros Hqueue Hty Hprio Hout.
  rewrite (processor_turn self_ref 0 message rest a w Hqueue).
  unfold handle, _handle_message. rewrite Hty.
  rewrite !decide_False by done. rewrite decide_True by done.
  unfold _handle_task_delegation, uuid4, datetime_now, tick.
  rewrite (dict_get_Some _ "priority" _ _ Hprio).
  unfold bind at 1. agent_unfold. cbn [fst snd Priority_of_json].
  rewrite (Priority_of_value_invalid v Hout). cbn [fst snd].
  unfold processor. cbn [_message_processor]. done.
Qed.

(** X11: the queue is served first in, first out.  When it holds
    delegations of supported task types, that many turns of the loop empty it
    and schedule one processing unit per message, in the order in which the
    messages arrived. *)
Theorem delegations_are_scheduled_in_arrival_order
    (self_ref : AgentRef) (caps : Capabilities)
    (messages : list AgentMessage) (types : list string) :
  (forall a, get_capabilities a = Return caps) ->
  Forall2 (fun message task_type_ =>
             delegation message task_type_ /\
             task_type_ ∈ default [] (supported_tasks caps))
          messages types ->
  forall (a : ObsidianAgent) (w : World),
  mailbox_of self_ref w = messages ->
  let run := processor self_ref (length messages) (a, w) in
  fst run = Return tt /\
  mailbox_of self_ref (snd (snd run)) = [] /\
  map task_type (spawned (snd (snd run))) = map task_type (spawned w) ++ types.
Proof.
  intros Hcaps. induction 1 as [|message task_type_ rest types' [Hd Hs] Hrest IH];
    intros a w Hqueue run; subst run.
  - cbn. by rewrite app_nil_r.
  - cbn [length]. rewrite (processor_turn self_ref _ message rest a w Hqueue).
    destruct Hd as (Hty & Htask & [cid Ecase] & Hprio & [d Edata]).
    destruct (Priority_of_json _) as [prio| |] eqn:Eprio; [|done..].
    rewrite (handle_delegation message cid task_type_ prio d caps a _
               Hty Htask Ecase Eprio Edata (Hcaps a) Hs).
    unfold accepted. cbn [snd fst].
    match goal with
    | |- context [processor self_ref (length rest) (?a', ?w')] =>
        destruct (IH a' w') as (Hret & Hempty & Hmap)
    end.
    { unfold mailbox_of. cbn. by rewrite lookup_insert_eq. }
    split; [done|]. split; [done|].
    rewrite Hmap. cbn. rewrite map_app. cbn. by rewrite <- app_assoc.
Qed.

End Mailbox.

(** The witness of X6: ARGUS asks KRONOS; the reply lands in ARGUS's queue. *)
Lemma collaboration_round_trip_witness :
  let sent :=
    collaborate_with Scenario.clock Scenario.uuid "KRONOS" (<["q" := JStr "test"]> ∅)
      (Scenario.argus, Scenario.quiet) in
  let handled :=
    _message_processor Scenario.kronos_analyze Scenario.kronos_get_capabilities
      Scenario.clock Scenario.uuid Scenario.unannotated_ignored 2%nat 1
      (Scenario.kronos, snd (snd sent)) in
  fst sent = Return tt /\
  fst (snd sent) = Scenario.argus /\
  fst handled = Return tt /\
  mailbox_of 1%nat (snd (snd handled))
    = [mkMessage "00000000-0000-4000-8000-000000000001" "KRONOS" "ARGUS"
                 "collaboration_response"
                 {["result" := JDict Scenario.kronos_answer]}
                 (Scenario.clock 3) MEDIUM].
Proof.
  exact (collaboration_round_trip Scenario.kronos_analyze
           Scenario.kronos_get_capabilities Scenario.clock Scenario.uuid
           Scenario.unannotated_ignored Scenario.argus Scenario.kronos
           (with_status COLLABORATION Scenario.kronos) 1%nat 2%nat "KRONOS"
           (<["q" := JStr "test"]> ∅) Scenario.kronos_answer Scenario.quiet
           eq_refl eq_refl eq_refl eq_refl).
Defined.

(** The witness of X8: a reply and a ping wait in ARGUS's queue. *)
Lemma unhandled_messages_are_dropped_witness :
  let w :=
    Scenario.world_with_queue 1%nat
      [Scenario.reply_from_kronos; Scenario.status_ping] in
  let run :=
    _message_processor Scenario.kronos_analyze Scenario.kronos_get_capabilities
      Scenario.clock Scenario.uuid Scenario.unannotated_ignored 1%nat 2
      (Scenario.argus, w) in
  fst run = Return tt /\
  fst (snd run) = Scenario.argus /\
  mailbox_of 1%nat (snd (snd run)) = [] /\
  same_but_queue 1%nat w (snd (snd run)).
Proof.
  apply (unhandled_messages_are_dropped Scenario.kronos_analyze
           Scenario.kronos_get_capabilities Scenario.clock Scenario.uuid
           Scenario.unannotated_ignored 1%nat
           [Scenario.reply_from_kronos; Scenario.status_ping]).
  - repeat constructor; discriminate.
  - reflexivity.
Defined.

(** The witness of X9: ARGUS delegates a temporal analysis to KRONOS. *)
Lemma delegated_task_defaults_witness :
  let task :=
    mkTask "00000000-0000-4000-8000-000000000000" "unknown" "temporal_analysis"
           MEDIUM ∅ (Scenario.clock 1) None 0%float "pending" None None in
  let run :=
    _handle_message Scenario.kronos_analyze Scenario.kronos_get_capabilities
      Scenario.clock Scenario.uuid Scenario.unannotated_ignored
      (Scenario.delegate "temporal_analysis") (Scenario.kronos, Scenario.quiet) in
  fst run = Return tt /\
  current_tasks (fst (snd run))
    = <["00000000-0000-4000-8000-000000000000" := task]> ∅ /\
  agent_status (fst (snd run)) = WORKING /\
  spawned (snd (snd run)) = [task].
Proof.
  apply (delegated_task_defaults Scenario.kronos_analyze
           Scenario.kronos_get_capabilities Scenario.clock Scenario.uuid
           Scenario.unannotated_ignored (Scenario.delegate "temporal_analysis")
           "temporal_analysis" Scenario.kronos_capabilities Scenario.kronos
           Scenario.quiet); try reflexivity.
  cbn. apply list_elem_of_further, list_elem_of_here.
Defined.

(** The witness of X10: a delegation with priority 9 heads KRONOS's queue. *)
Lemma invalid_priority_delegation_is_dropped_witness :
  _message_processor Scenario.kronos_analyze Scenario.kronos_get_capabilities
      Scenario.clock Scenario.uuid Scenario.unannotated_ignored 2%nat 1
      (Scenario.kronos,
       Scenario.world_with_queue 2%nat
         [Scenario.delegate_with_priority "temporal_analysis" 9])
    = (Return tt,
       (Scenario.kronos,
        with_ticks 1
          (with_mailboxes
             (<[2%nat := []]>
                (mailboxes
                   (Scenario.world_with_queue 2%nat
                      [Scenario.delegate_with_priority "temporal_analysis" 9])))
             (Scenario.world_with_queue 2%nat
                [Scenario.delegate_with_priority "temporal_analysis" 9])))).
Proof.
  apply (invalid_priority_delegation_is_dropped Scenario.kronos_analyze
           Scenario.kronos_get_capabilities Scenario.clock Scenario.uuid
           Scenario.unannotated_ignored 2%nat
           (Scenario.delegate_with_priority "temporal_analysis" 9) []
           9); try reflexivity.
  lia.
Defined.

(** The witness of X11: two delegations wait in KRONOS's queue, an event
    correlation ahead of a temporal analysis. *)
Lemma delegations_are_scheduled_in_arrival_order_witness :
  let run :=
    _message_processor Scenario.kronos_analyze Scenario.kronos_get_capabilities
      Scenario.clock Scenario.uuid Scenario.unannotated_ignored 2%nat 2
      (Scenario.kronos,
       Scenario.world_with_queue 2%nat
         [Scenario.delegate "event_correlation";
          Scenario.delegate_with_priority "temporal_analysis" 4]) in
  fst run = Return tt /\
  mailbox_of 2%nat (snd (snd run)) = [] /\
  map task_type (spawned (snd (snd run)))
    = ["event_correlation"; "temporal_analysis"].
Proof.
  apply (delegations_are_scheduled_in_arrival_order Scenario.kronos_analyze
           Scenario.kronos_get_capabilities Scenario.clock Scenario.uuid
           Scenario.unannotated_ignored 2%nat Scenario.kronos_capabilities
           [Scenario.delegate "event_correlation";
            Scenario.delegate_with_priority "temporal_analysis" 4]
           ["event_correlation"; "temporal_analysis"]).
  - reflexivity.
  - repeat constructor; try (by eexists).
  - reflexivity.
Defined.

End MailboxFacts.

(** * Properties of the wire shape *)

Module WireFormat.

Import AgentBase AgentFacts.

(** [j == p.value], as Python compares a decoded value with the value of a
    member: numbers are equal across [int], [float] and [bool]. *)
Definition equals_value (j : json) (p : Priority) : bool :=
  match j with
  | JInt z => z =? Priority_value p
  | JBool b => (if b then 1 else 0) =? Priority_value p
  | JFloat f =>
      PrimFloat.eqb f
        (match p with
         | LOW => 1 | MEDIUM => 2 | HIGH => 3 | CRITICAL => 4 | EMERGENCY => 5
         end)%float
  | _ => false
  end.

Section Decode.

Variable json_loads : string -> outcome json.
Variable fromisoformat : string -> outcome datetime.

Let decode := deserialize_agent_message json_loads fromisoformat.

Lemma and_then_Return {A B} (o : outcome A) (k : A -> outcome B) (b : B) :
  and_then o k = Return b -> exists a, o = Return a /\ k a = Return b.
Proof. destruct o as [a|e|c]; [|done..]. intros Hk. by exists a. Qed.

Lemma as_str_Return (j : json) (s : string) : as_str j = Return s -> j = JStr s.
Proof. destruct j; try done. by intros [= ->]. Qed.

(** A value [Priority] accepts is equal to the value of the member it
    gives. *)
Lemma Priority_of_json_Return (j : json) (p : Priority) :
  Priority_of_json j = Return p -> equals_value j p = true.
Proof.
  destruct j as [|b|z|f|s|l|d|l|d|t]; try done; cbn.
  - destruct b; cbn; [|done]. by intros [= <-].
  - intros Hp. apply MailboxFacts.Priority_of_value_spec in Hp. subst z.
    apply Z.eqb_refl.
  - destruct (PrimFloat.eqb f 1) eqn:E1; [by intros [= <-]|].
    destruct (PrimFloat.eqb f 2) eqn:E2; [by intros [= <-]|].
    destruct (PrimFloat.eqb f 3) eqn:E3; [by intros [= <-]|].
    destruct (PrimFloat.eqb f 4) eqn:E4; [by intros [= <-]|].
    destruct (PrimFloat.eqb f 5) eqn:E5; [by intros [= <-]|done].
Qed.

(** X12: a message that [deserialize_agent_message] returns is read off
    the decoded object field by field: the object holds under [id],
    [sender], [recipient], [message_type] and [content] the very values the
    message has there, whatever their type; a timestamp string that
    [fromisoformat] turns into the message's; and as priority a value equal
    to the value of the message's priority, be it the integer, a float (2.0
    for MEDIUM) or [True] for LOW.  No field is defaulted. *)
Theorem deserialize_reads_the_wire_object (data : string) (m : DecodedMessage) :
  decode data = Return m ->
  exists (obj : json) (ts : string) (wire_priority : json),
    json_loads data = Return obj /\
    getitem obj "id" = Return (decoded_id m) /\
    getitem obj "sender" = Return (decoded_sender m) /\
    getitem obj "recipient" = Return (decoded_recipient m) /\
    getitem obj "message_type" = Return (decoded_message_type m) /\
    getitem obj "content" = Return (decoded_content m) /\
    getitem obj "timestamp" = Return (JStr ts) /\
    fromisoformat ts = Return (decoded_timestamp m) /\
    getitem obj "priority" = Return wire_priority /\
    equals_value wire_priority (decoded_priority m) = true.
Proof.
  unfold decode, deserialize_agent_message. intros Hdecode.
  apply and_then_Return in Hdecode as (obj & Hloads & Hdecode).
  apply and_then_Return in Hdecode as (id_ & Hid & Hdecode).
  apply and_then_Return in Hdecode as (sender_ & Hsender & Hdecode).
  apply and_then_Return in Hdecode as (recipient_ & Hrecipient & Hdecode).
  apply and_then_Return in Hdecode as (type_ & Htype & Hdecode).
  apply and_then_Return in Hdecode as (content_ & Hcontent & Hdecode).
  apply and_then_Return in Hdecode as (timestamp_ & Htimestamp & Hdecode).
  apply and_then_Return in Hdecode as (priority_ & Hpriority & Hdecode).
  injection Hdecode as <-. cbn.
  apply and_then_Return in Htimestamp as (ts & Hts & Hiso).
  apply and_then_Return in Hts as (j6 & Hj6 & ->%as_str_Return).
  apply and_then_Return in Hpriority as (j7 & Hj7 & Hprio).
  apply Priority_of_json_Return in Hprio.
  exists obj, ts, j7. repeat split; done.
Qed.

(** X13: the priority is never defaulted on the wire.  For a decoded
    object whose other six fields are in order, a missing "priority" key
    raises [KeyError] (the dataclass default MEDIUM is not used), and an
    integer priority outside 1..5 raises [ValueError]. *)
Theorem deserialize_rejects_bad_priority
    (data : string) (d : pydict) (id_ sender_ recipient_ type_ ts : string)
    (content_ : pydict) (t : datetime) :
  json_loads data = Return (JDict d) ->
  d !! "id" = Some (JStr id_) ->
  d !! "sender" = Some (JStr sender_) ->
  d !! "recipient" = Some (JStr recipient_) ->
  d !! "message_type" = Some (JStr type_) ->
  d !! "content" = Some (JDict content_) ->
  d !! "timestamp" = Some (JStr ts) ->
  fromisoformat ts = Return t ->
  (d !! "priority" = None ->
     exists e, decode data = Raise e /\ exc_class e = KeyError) /\
  (forall v, d !! "priority" = Some (JInt v) -> ~ (1 <= v <= 5) ->
     exists e, decode data = Raise e /\ exc_class e = ValueError).
Proof.
  intros Hloads Hid Hsender Hrecipient Htype Hcontent Hts Hiso.
  unfold decode, deserialize_agent_message. rewrite Hloads.
  cbn [and_then getitem].
  rewrite Hid, Hsender, Hrecipient, Htype, Hcontent, Hts.
  cbn [and_then as_str]. rewrite Hiso. cbn [and_then].
  split.
  - intros ->. by eexists.
  - intros v -> Hout. cbn [and_then Priority_of_json].
    rewrite (MailboxFacts.Priority_of_value_invalid v Hout). by eexists.
Qed.

End Decode.

(** What a peer that writes the priority as 2.0, or as [true], gets: the
    message is accepted, with priority MEDIUM, and LOW. *)
Example float_and_boolean_priorities_are_accepted :
  decoded_priority <$>
    (match deserialize_agent_message
             (Scenario.loads_partial (Some Scenario.float_priority))
             Scenario.fromisoformat "{...}" with
     | Return m => Some m
     | _ => None
     end) = Some MEDIUM /\
  decoded_priority <$>
    (match deserialize_agent_message
             (Scenario.loads_partial (Some Scenario.bool_priority))
             Scenario.fromisoformat "{...}" with
     | Return m => Some m
     | _ => None
     end) = Some LOW.
Proof. split; reflexivity. Qed.

(** The witness of X12: the text of HYDRA's request with the priority
    written as 2.0. *)
Lemma deserialize_reads_the_wire_object_witness :
  exists (obj : json) (ts : string) (wire_priority : json),
    Scenario.loads_partial (Some Scenario.float_priority) "{...}" = Return obj /\
    getitem obj "id" = Return (JStr "m-1") /\
    getitem obj "sender" = Return (JStr "HYDRA") /\
    getitem obj "recipient" = Return (JStr "KRONOS") /\
    getitem obj "message_type" = Return (JStr "collaboration_request") /\
    getitem obj "content" = Return (JDict (<["q" := JStr "test"]> ∅)) /\
    getitem obj "timestamp" = Return (JStr ts) /\
    Scenario.fromisoformat ts = Return Scenario.epoch /\
    getitem obj "priority" = Return wire_priority /\
    equals_value wire_priority MEDIUM = true.
Proof.
  exact (deserialize_reads_the_wire_object
           (Scenario.loads_partial (Some Scenario.float_priority))
           Scenario.fromisoformat "{...}"
           (mkDecoded (JStr "m-1") (JStr "HYDRA") (JStr "KRONOS")
                      (JStr "collaboration_request")
                      (JDict (<["q" := JStr "test"]> ∅)) Scenario.epoch MEDIUM)
           eq_refl).
Defined.

(** The witness of X13: the priority left out, and a priority of 0. *)
Lemma deserialize_rejects_bad_priority_witness :
  (exists e,
     deserialize_agent_message (Scenario.loads_partial None)
       Scenario.fromisoformat "{...}" = Raise e /\
     exc_class e = KeyError) /\
  (exists e,
     deserialize_agent_message (Scenario.loads_partial (Some (JInt 0)))
       Scenario.fromisoformat "{...}" = Raise e /\
     exc_class e = ValueError).
Proof.
  split.
  - apply (deserialize_rejects_bad_priority (Scenario.loads_partial None)
             Scenario.fromisoformat "{...}" (Scenario.partial_wire None)
             "m-1" "HYDRA" "KRONOS" "collaboration_request"
             "2024-01-01T00:00:00" (<["q" := JStr "test"]> ∅) Scenario.epoch);
      reflexivity.
  - apply (deserialize_rejects_bad_priority
             (Scenario.loads_partial (Some (JInt 0)))
             Scenario.fromisoformat "{...}"
             (Scenario.partial_wire (Some (JInt 0)))
             "m-1" "HYDRA" "KRONOS" "collaboration_request"
             "2024-01-01T00:00:00" (<["q" := JStr "test"]> ∅) Scenario.epoch
             eq_refl eq_refl eq_refl eq_refl eq_refl eq_refl eq_refl eq_refl)
      with (v := 0); [reflexivity|lia].
Defined.

End WireFormat.

(** * Further properties of the provider router *)

Module FailoverFacts.

Import AIService RouterFacts.

#[local] Arguments query_provider : simpl never.

Section Failover.

Context {R : Type} `{PyNumber R}.

Variable provider_query :
  list AIProvider -> AIServiceProvider -> string -> QueryContext R ->
  option string -> outcome (AIResponse R).

Lemma usable_registered (m : AIServiceManager R) (key : AIProvider) :
  usable m key = true -> exists p, providers m !! key = Some p.
Proof.
  unfold usable. intros [Hreg _]%andb_true_iff.
  apply bool_decide_eq_true in Hreg as [p Hp]. by exists p.
Qed.

Lemma available_usable (m : AIServiceManager R) (q : QueryType) (key : AIProvider) :
  key ∈ available_providers m q -> usable m key = true.
Proof.
  unfold available_providers. rewrite list_elem_of_In, filter_In. by intros [_ ?].
Qed.

(** What [last_error] holds after the loop has failed on each of
    [available]. *)
Definition last_error_after (err : AIProvider -> Exception)
    (available : list AIProvider) (last_error : option Exception)
  : option Exception :=
  fold_left (fun _ key => Some (err key)) available last_error.

Lemma try_providers_all_fail (m : AIServiceManager R) (prompt : string)
    (context : QueryContext R) (system_prompt : option string)
    (err : AIProvider -> Exception) (available : list AIProvider) :
  (forall key, key ∈ available -> exists p, providers m !! key = Some p) ->
  (forall history key p, key ∈ available -> providers m !! key = Some p ->
     provider_query history p prompt context system_prompt = Raise (err key)) ->
  forall (last_error : option Exception) (history : list AIProvider),
  try_providers provider_query available prompt context system_prompt last_error
      (m, history)
    = (Raise (mkExc Exception_
                ("All AI providers failed. Last error: "
                 ++ str_last_error (last_error_after err available last_error))%string),
       (m, history ++ available)).
Proof.
  induction available as [|key rest IH]; intros Hreg Hfail last_error history.
  - cbn. unfold raise. by rewrite app_nil_r.
  - destruct (Hreg key (list_elem_of_here _ _)) as [p Hp].
    cbn [try_providers]. unfold try_except at 1, bind at 1.
    rewrite (query_provider_registered provider_query m history key p prompt
               context system_prompt Hp).
    rewrite (Hfail history key p (list_elem_of_here _ _) Hp).
    rewrite IH.
    + by rewrite <- app_assoc.
    + intros key' Hin. apply Hreg. by right.
    + intros history' key' p' Hin. apply Hfail. by right.
Qed.

(** Without a usable preferred provider and with a candidate left after
    filtering, [route_query] is the loop over the candidates. *)
Lemma route_query_table_stage (m : AIServiceManager R) (history : list AIProvider)
    (prompt : string) (context : QueryContext R) (system_prompt : option string)
    (fallback : bool) :
  no_usable_preference m context ->
  available_providers m (query_type context) <> [] ->
  route_query provider_query prompt context system_prompt fallback (m, history)
    = try_providers provider_query (available_providers m (query_type context))
        prompt context system_prompt None (m, history).
Proof.
  intros Hpref Hne.
  unfold route_query, bind at 1.
  rewrite (try_preferred_skipped provider_query m history prompt context
             system_prompt fallback Hpref).
  unfold bind at 1, on_manager, gets. cbn [fst].
  by destruct (available_providers m (query_type context)).
Qed.

Lemma route_query_without_preference (m : AIServiceManager R)
    (history : list AIProvider) (prompt : string) (context : QueryContext R)
    (system_prompt : option string) (fallback : bool) :
  no_usable_preference m context ->
  route_query provider_query prompt context system_prompt fallback (m, history)
    = match available_providers m (query_type context) with
      | [] => (Raise (mkExc Exception_ "No healthy AI providers available"),
               (m, history))
      | key :: rest =>
          try_providers provider_query (key :: rest) prompt context
            system_prompt None (m, history)
      end.
Proof.
  intros Hpref.
  unfold route_query, bind at 1.
  rewrite (try_preferred_skipped provider_query m history prompt context
             system_prompt fallback Hpref).
  unfold bind at 1, on_manager, gets. cbn [fst].
  by destruct (available_providers m (query_type context)).
Qed.

(** X14: when every healthy registered candidate of the category raises
    (and no usable preferred provider is named), [route_query] has called each
    of them once, in table order, leaves the manager as it was, and raises
    "All AI providers failed. Last error: ..." with the message of the error
    of the last candidate. *)
Theorem all_candidates_fail
    (m : AIServiceManager R) (history : list AIProvider) (prompt : string)
    (context : QueryContext R) (system_prompt : option string) (fallback : bool)
    (err : AIProvider -> Exception) (front : list AIProvider) (final : AIProvider) :
  no_usable_preference m context ->
  available_providers m (query_type context) = front ++ [final] ->
  (forall history' key p, key ∈ front ++ [final] -> providers m !! key = Some p ->
     provider_query history' p prompt context system_prompt = Raise (err key)) ->
  route_query provider_query prompt context system_prompt fallback (m, history)
    = (Raise (mkExc Exception_
                ("All AI providers failed. Last error: "
                 ++ str_exc (err final))%string),
       (m, history ++ front ++ [final])).
Proof.
  intros Hpref Havail Hfail.
  rewrite route_query_table_stage; [|done|rewrite Havail; by destruct front].
  rewrite Havail.
  rewrite (try_providers_all_fail m prompt context system_prompt err).
  - unfold last_error_after. by rewrite fold_left_app.
  - intros key' Hin. apply usable_registered.
    apply (available_usable m (query_type context)). by rewrite Havail.
  - exact Hfail.
Qed.

Lemma try_providers_first_success (m : AIServiceManager R) (prompt : string)
    (context : QueryContext R) (system_prompt : option string)
    (key : AIProvider) (p : AIServiceProvider) (rest : list AIProvider)
    (failing : list AIProvider) :
  (forall k, k ∈ failing -> exists pk, providers m !! k = Some pk) ->
  (forall history k pk, k ∈ failing -> providers m !! k = Some pk ->
     exists e, provider_query history pk prompt context system_prompt = Raise e) ->
  providers m !! key = Some p ->
  forall (last_error : option Exception) (history : list AIProvider)
         (response : AIResponse R),
  provider_query (history ++ failing) p prompt context system_prompt
    = Return response ->
  try_providers provider_query (failing ++ key :: rest) prompt context
      system_prompt last_error (m, history)
    = (Return response,
       (_update_performance_metrics key response m, history ++ failing ++ [key])).
Proof.
  induction failing as [|k failing IH];
    intros Hreg Hfail Hp last_error history response Hanswer.
  - rewrite app_nil_r in Hanswer. cbn [app try_providers].
    unfold try_except at 1, bind at 1.
    rewrite (query_provider_registered provider_query m history key p prompt
               context system_prompt Hp).
    rewrite Hanswer. unfold bind, update_manager, modify, ret. done.
  - destruct (Hreg k (list_elem_of_here _ _)) as [pk Hpk].
    destruct (Hfail history k pk (list_elem_of_here _ _) Hpk) as [e He].
    cbn [app try_providers]. unfold try_except at 1, bind at 1.
    rewrite (query_provider_registered provider_query m history k pk prompt
               context system_prompt Hpk).
    rewrite He.
    rewrite (IH (fun k' Hin => Hreg k' (list_elem_of_further _ _ _ Hin))
                (fun h' k' pk' Hin => Hfail h' k' pk' (list_elem_of_further _ _ _ Hin))
                Hp (Some e) (history ++ [k]) response).
    + by rewrite <- app_assoc.
    + by rewrite <- app_assoc.
Qed.

(** X15: the first candidate that answers serves the query.  With no
    usable preferred provider, when the healthy registered candidates that
    come before [key] in table order all raise and [key] answers, [route_query]
    returns that answer; the calls made are those candidates and then [key],
    the candidates after [key] are never called, and the only change to the
    manager is the metrics update for [key]. *)
Theorem first_success_wins
    (m : AIServiceManager R) (history : list AIProvider) (prompt : string)
    (context : QueryContext R) (system_prompt : option string) (fallback : bool)
    (failing rest : list AIProvider) (key : AIProvider) (p : AIServiceProvider)
    (response : AIResponse R) :
  no_usable_preference m context ->
  available_providers m (query_type context) = failing ++ key :: rest ->
  (forall history' k pk, k ∈ failing -> providers m !! k = Some pk ->
     exists e, provider_query history' pk prompt context system_prompt = Raise e) ->
  providers m !! key = Some p ->
  provider_query (history ++ failing) p prompt context system_prompt
    = Return response ->
  route_query provider_query prompt context system_prompt fallback (m, history)
    = (Return response,
       (_update_performance_metrics key response m, history ++ failing ++ [key])).
Proof.
  intros Hpref Havail Hfail Hp Hanswer.
  rewrite route_query_table_stage; [|done|rewrite Havail; by destruct failing].
  rewrite Havail.
  apply (try_providers_first_success m prompt context system_prompt key p rest
           failing); try done.
  intros k Hin. apply usable_registered.
  apply (available_usable m (query_type context)). rewrite Havail.
  apply elem_of_app. by left.
Qed.

(** X16: with fallback switched off, the failure of a usable preferred
    provider is the failure of the query: the very exception the provider
    raised reaches the caller, after that single call, and the routing table
    is not consulted. *)
Theorem preferred_failure_without_fallback
    (m : AIServiceManager R) (history : list AIProvider) (prompt : string)
    (context : QueryContext R) (system_prompt : option string)
    (preferred : AIProvider) (p : AIServiceProvider) (e : Exception) :
  preferred_provider context = Some preferred ->
  providers m !! preferred = Some p ->
  health_status m !! preferred = Some true ->
  provider_query history p prompt context system_prompt = Raise e ->
  route_query provider_query prompt context system_prompt false (m, history)
    = (Raise e, (m, history ++ [preferred])).
Proof.
  intros Hpref Hreg Hhealth Hfail.
  pose proof (query_provider_registered provider_query m history preferred p
                prompt context system_prompt Hreg) as Hquery.
  unfold route_query, try_preferred. router_unfold. cbn.
  rewrite Hpref, (usable_healthy m preferred p Hreg Hhealth).
  by rewrite Hquery, Hfail.
Qed.

(** With fallback on, the failure of a usable preferred provider leads to
    the routing table, one call later. *)
Lemma route_query_after_failed_preference
    (m : AIServiceManager R) (history : list AIProvider) (prompt : string)
    (context : QueryContext R) (system_prompt : option string)
    (preferred : AIProvider) (p : AIServiceProvider) (e : Exception) :
  preferred_provider context = Some preferred ->
  providers m !! preferred = Some p ->
  health_status m !! preferred = Some true ->
  provider_query history p prompt context system_prompt = Raise e ->
  route_query provider_query prompt context system_prompt true (m, history)
    = match available_providers m (query_type context) with
      | [] => (Raise (mkExc Exception_ "No healthy AI providers available"),
               (m, history ++ [preferred]))
      | key :: rest =>
          try_providers provider_query (key :: rest) prompt context
            system_prompt None (m, history ++ [preferred])
      end.
Proof.
  intros Hpref Hreg Hhealth Hfail.
  pose proof (query_provider_registered provider_query m history preferred p
                prompt context system_prompt Hreg) as Hquery.
  unfold route_query, try_preferred. router_unfold. cbn.
  rewrite Hpref, (usable_healthy m preferred p Hreg Hhealth).
  rewrite Hquery, Hfail. cbn.
  by destruct (available_providers m (query_type context)).
Qed.

(** X17: a preferred provider that fails is not struck off the candidate
    list.  With fallback on, when it is also the first healthy candidate of the
    category it is called a second time, and if it answers then, that answer is
    returned and recorded: the provider has been called twice for one query. *)
Theorem failed_preference_is_called_again
    (m : AIServiceManager R) (history : list AIProvider) (prompt : string)
    (context : QueryContext R) (system_prompt : option string)
    (preferred : AIProvider) (p : AIServiceProvider) (e : Exception)
    (rest : list AIProvider) (response : AIResponse R) :
  preferred_provider context = Some preferred ->
  providers m !! preferred = Some p ->
  health_status m !! preferred = Some true ->
  available_providers m (query_type context) = preferred :: rest ->
  provider_query history p prompt context system_prompt = Raise e ->
  provider_query (history ++ [preferred]) p prompt context system_prompt
    = Return response ->
  route_query provider_query prompt context system_prompt true (m, history)
    = (Return response,
       (_update_performance_metrics preferred response m,
        history ++ [preferred; preferred])).
Proof.
  intros Hpref Hreg Hhealth Havail Hfail Hanswer.
  rewrite (route_query_after_failed_preference m history prompt context
             system_prompt preferred p e Hpref Hreg Hhealth Hfail).
  rewrite Havail.
  pose proof (try_providers_first_success m prompt context system_prompt
                preferred p rest []
                (fun k Hin => False_ind _ (not_elem_of_nil _ Hin))
                (fun h k pk Hin => False_ind _ (not_elem_of_nil _ Hin))
                Hreg None (history ++ [preferred]) response) as Hloop.
  rewrite app_nil_r in Hloop. cbn [app] in Hloop.
  rewrite (Hloop Hanswer). by rewrite <- app_assoc.
Qed.

(** What [route_query] leaves alone in the manager. *)
Definition same_routing (m m' : AIServiceManager R) : Prop :=
  providers m' = providers m /\
  routing_rules m' = routing_rules m /\
  health_status m' = health_status m.

Lemma same_routing_refl (m : AIServiceManager R) : same_routing m m.
Proof. done. Qed.

Lemma update_same_routing (key : AIProvider) (response : AIResponse R)
    (m : AIServiceManager R) :
  same_routing m (_update_performance_metrics key response m).
Proof.
  unfold _update_performance_metrics, same_routing.
  destruct (performance_metrics m !! key) as [metrics|] eqn:E.
  - by rewrite E.
  - by rewrite lookup_insert_eq.
Qed.

(** The calls of a run: made in addition to [history], each to a provider
    of [allowed], with the routing state untouched. *)
Definition calls_within (allowed : AIProvider -> Prop) (m : AIServiceManager R)
    (history : list AIProvider) (s' : RouterState R) : Prop :=
  exists calls,
    snd s' = history ++ calls /\
    (forall key, key ∈ calls -> allowed key) /\
    same_routing m (fst s').

Lemma calls_within_none (allowed : AIProvider -> Prop) (m : AIServiceManager R)
    (history : list AIProvider) :
  calls_within allowed m history (m, history).
Proof.
  exists []. cbn. rewrite app_nil_r. split; [done|]. split; [|done].
  intros key Hin. by apply not_elem_of_nil in Hin.
Qed.

Lemma try_providers_calls (m : AIServiceManager R) (prompt : string)
    (context : QueryContext R) (system_prompt : option string)
    (available : list AIProvider) :
  forall (last_error : option Exception) (history : list AIProvider),
  calls_within (fun key => key ∈ available) m history
    (snd (try_providers provider_query available prompt context system_prompt
            last_error (m, history))).
Proof.
  induction available as [|key rest IH]; intros last_error history.
  - apply calls_within_none.
  - cbn [try_providers]. unfold try_except, bind at 1, query_provider.
    router_unfold. cbn.
    destruct (providers m !! key) as [p|]; cbn.
    + destruct (provider_query history p prompt context system_prompt)
        as [response|e|b]; cbn.
      * exists [key]. split; [done|]. split; [|apply update_same_routing].
        intros k ->%list_elem_of_singleton. apply list_elem_of_here.
      * destruct (IH (Some e) (history ++ [key])) as (calls & Hcalls & Hin & Hsame).
        exists (key :: calls). split; [by rewrite Hcalls, <- app_assoc|].
        split; [|done].
        intros k [->|Hk]%elem_of_cons; [apply list_elem_of_here|].
        right. by apply Hin.
      * exists [key]. split; [done|]. split; [|apply same_routing_refl].
        intros k ->%list_elem_of_singleton. apply list_elem_of_here.
    + destruct (IH (Some (mkExc KeyError (AIProvider_value key))) history)
        as (calls & Hcalls & Hin & Hsame).
      exists calls. split; [done|]. split; [|done].
      intros k Hk. right. by apply Hin.
Qed.

Lemma calls_within_weaken (allowed allowed' : AIProvider -> Prop)
    (m : AIServiceManager R) (history : list AIProvider) (s' : RouterState R) :
  (forall key, allowed key -> allowed' key) ->
  calls_within allowed m history s' -> calls_within allowed' m history s'.
Proof.
  intros Himp (calls & Hcalls & Hin & Hsame). exists calls. eauto.
Qed.

Lemma calls_within_after (allowed : AIProvider -> Prop) (m : AIServiceManager R)
    (history : list AIProvider) (key : AIProvider) (s' : RouterState R) :
  allowed key ->
  calls_within allowed m (history ++ [key]) s' -> calls_within allowed m history s'.
Proof.
  intros Hkey (calls & Hcalls & Hin & Hsame). exists (key :: calls).
  split; [by rewrite Hcalls, <- app_assoc|]. split; [|done].
  intros k [->|Hk]%elem_of_cons; auto.
Qed.

(** X18: [route_query] never calls a provider that is not registered or
    not marked healthy at the time of the call, whatever the outcome; it only
    adds calls to the record of calls, and it never changes the registered
    providers, the routing table or the cached health. *)
Theorem route_query_calls_only_usable_providers
    (m : AIServiceManager R) (history : list AIProvider) (prompt : string)
    (context : QueryContext R) (system_prompt : option string) (fallback : bool) :
  calls_within (fun key => usable m key = true) m history
    (snd (route_query provider_query prompt context system_prompt fallback
            (m, history))).
Proof.
  assert (Htable : forall history',
            calls_within (fun key => usable m key = true) m history'
              (snd (match available_providers m (query_type context) with
                    | [] =>
                        (Raise (mkExc Exception_ "No healthy AI providers available"),
                         (m, history'))
                    | key :: rest =>
                        try_providers provider_query (key :: rest) prompt context
                          system_prompt None (m, history')
                    end))).
  { intros history'.
    destruct (available_providers m (query_type context)) as [|key rest] eqn:Havail.
    - apply calls_within_none.
    - eapply calls_within_weaken; [|apply try_providers_calls].
      intros k Hk. apply (available_usable m (query_type context)).
      by rewrite Havail. }
  destruct (preferred_provider context) as [preferred|] eqn:Hpref.
  2:{ rewrite route_query_without_preference;
        [apply Htable|unfold no_usable_preference; by rewrite Hpref]. }
  destruct (usable m preferred) eqn:Husable.
  2:{ rewrite route_query_without_preference;
        [apply Htable|unfold no_usable_preference; by rewrite Hpref]. }
  destruct (usable_registered m preferred Husable) as [p Hp].
  assert (Hhealth : health_status m !! preferred = Some true).
  { unfold usable in Husable. apply andb_true_iff in Husable as [_ Hh].
    by destruct (health_status m !! preferred) as [[]|]. }
  destruct (provider_query history p prompt context system_prompt)
    as [response|e|b] eqn:Hquery.
  3:{ clear Htable.
      pose proof (query_provider_registered provider_query m history preferred p
                    prompt context system_prompt Hp) as Hcall.
      unfold route_query, try_preferred. router_unfold. cbn.
      rewrite Hpref, Husable, Hcall, Hquery. cbn.
      apply (calls_within_after _ m history preferred); [done|].
      apply calls_within_none. }
  - rewrite (preferred_answer_bypasses_metrics provider_query m history prompt
               context system_prompt fallback preferred p response
               Hpref Hp Hhealth Hquery).
    apply (calls_within_after _ m history preferred); [done|].
    apply calls_within_none.
  - destruct fallback.
    + rewrite (route_query_after_failed_preference m history prompt context
                 system_prompt preferred p e Hpref Hp Hhealth Hquery).
      apply (calls_within_after _ m history preferred); [done|].
      pose proof (Htable (history ++ [preferred])) as Hrest.
      by destruct (available_providers m (query_type context)).
    + clear Htable.
      pose proof (query_provider_registered provider_query m history preferred p
                    prompt context system_prompt Hp) as Hcall.
      unfold route_query, try_preferred. router_unfold. cbn.
      rewrite Hpref, Husable, Hcall, Hquery. cbn.
      apply (calls_within_after _ m history preferred); [done|].
      apply calls_within_none.
Qed.

End Failover.

(** The witness of X14: an ANALYSIS query when Claude and Gemini, the two
    healthy candidates, are both down. *)
Lemma all_candidates_fail_witness :
  route_query RouterScenario.all_fail "Who posted this?"
      (RouterScenario.context ANALYSIS None) None true
      (RouterScenario.manager, [])
    = (Raise (mkExc Exception_
                "All AI providers failed. Last error: gemini API error"),
       (RouterScenario.manager, [CLAUDE; GEMINI])).
Proof.
  apply (all_candidates_fail RouterScenario.all_fail RouterScenario.manager []
           "Who posted this?" (RouterScenario.context ANALYSIS None) None true
           RouterScenario.api_error [CLAUDE] GEMINI).
  - exact I.
  - reflexivity.
  - intros history' key p _ Hp.
    destruct key; vm_compute in Hp; try discriminate; by injection Hp as <-.
Defined.

(** The witness of X15: a CREATIVE query; Gemini raises, Claude answers. *)
Lemma first_success_wins_witness :
  route_query RouterScenario.gemini_fails "Who posted this?"
      (RouterScenario.context CREATIVE None) None true
      (RouterScenario.manager, [])
    = (Return RouterScenario.claude_response,
       (_update_performance_metrics CLAUDE RouterScenario.claude_response
          RouterScenario.manager,
        [GEMINI; CLAUDE])).
Proof.
  apply (first_success_wins RouterScenario.gemini_fails RouterScenario.manager []
           "Who posted this?" (RouterScenario.context CREATIVE None) None true
           [GEMINI] [] CLAUDE RouterScenario.claude
           RouterScenario.claude_response).
  - exact I.
  - reflexivity.
  - intros history' k pk Hk%list_elem_of_singleton Hpk. subst k.
    vm_compute in Hpk. injection Hpk as <-. by eexists.
  - reflexivity.
  - reflexivity.
Defined.

(** The witness of X16: Gemini is preferred, fails, and fallback is off. *)
Lemma preferred_failure_without_fallback_witness :
  route_query RouterScenario.gemini_fails "Who posted this?"
      (RouterScenario.context CREATIVE (Some GEMINI)) None false
      (RouterScenario.manager, [])
    = (Raise (mkExc Exception_ "Gemini API error"),
       (RouterScenario.manager, [GEMINI])).
Proof.
  exact (preferred_failure_without_fallback RouterScenario.gemini_fails
           RouterScenario.manager [] "Who posted this?"
           (RouterScenario.context CREATIVE (Some GEMINI)) None GEMINI
           RouterScenario.gemini (mkExc Exception_ "Gemini API error")
           eq_refl eq_refl eq_refl eq_refl).
Defined.

(** The witness of X17: Claude is preferred for an ANALYSIS query and is
    rate limited on the first call. *)
Lemma failed_preference_is_called_again_witness :
  route_query RouterScenario.fails_once "Who posted this?"
      (RouterScenario.context ANALYSIS (Some CLAUDE)) None true
      (RouterScenario.manager, [])
    = (Return RouterScenario.claude_response,
       (_update_performance_metrics CLAUDE RouterScenario.claude_response
          RouterScenario.manager,
        [CLAUDE; CLAUDE])).
Proof.
  exact (failed_preference_is_called_again RouterScenario.fails_once
           RouterScenario.manager [] "Who posted this?"
           (RouterScenario.context ANALYSIS (Some CLAUDE)) None CLAUDE
           RouterScenario.claude (mkExc Exception_ "rate limited") [GEMINI]
           RouterScenario.claude_response
           eq_refl eq_refl eq_refl eq_refl eq_refl eq_refl).
Defined.

End FailoverFacts.

(** * Properties of registration, the health sweep and shutdown *)

Module LifecycleFacts.

Import AIService RouterFacts FailoverFacts.

Section Lifecycle.

Context {R : Type} `{PyNumber R}.

Variable client_setup : AIProvider -> json -> outcome unit.

Variable health_check : AIServiceProvider -> outcome bool.

Variable provider_query :
  list AIProvider -> AIServiceProvider -> string -> QueryContext R ->
  option string -> outcome (AIResponse R).

(** What the sweep writes for a provider whose probe is not cancelled: the
    answer of the probe, and [False] when the probe raises. *)
Definition probed (p : AIServiceProvider) : bool :=
  match health_check p with
  | Return healthy => healthy
  | _ => false
  end.

(** The cached health after the loop has gone through [items]. *)
Definition swept (items : list (AIProvider * AIServiceProvider))
    (health : gmap AIProvider bool) : gmap AIProvider bool :=
  fold_left (fun health item => <[fst item := probed (snd item)]> health)
            items health.

(** The manager a sweep that runs to its end leaves. *)
Definition after_sweep (m : AIServiceManager R) : AIServiceManager R :=
  with_health_status
    (swept (map_to_list (providers m)) (health_status m)) m.

(** No probe of [items] is cancelled. *)
Definition uncancelled (items : list (AIProvider * AIServiceProvider)) : Prop :=
  forall key p b, (key, p) ∈ items -> health_check p <> RaiseBase b.

Lemma health_check_loop_swept (items : list (AIProvider * AIServiceProvider)) :
  uncancelled items ->
  forall (m : AIServiceManager R) (history : list AIProvider),
  health_check_loop health_check items (m, history)
    = (Return tt,
       (with_health_status (swept items (health_status m)) m, history)).
Proof.
  induction items as [|[key p] rest IH]; intros Hrun m history.
  - cbn. by destruct m.
  - assert (Hrest : uncancelled rest).
    { intros k q b Hin. apply (Hrun k q b). by right. }
    cbn [health_check_loop]. unfold try_except, bind at 1. router_unfold.
    unfold probed in *. cbn [fst snd].
    destruct (health_check p) as [healthy|e|b] eqn:Hprobe; cbn [fst snd].
    + rewrite (IH Hrest). cbn [swept fold_left fst snd]. unfold probed.
      rewrite Hprobe. by destruct m.
    + rewrite (IH Hrest). cbn [swept fold_left fst snd]. unfold probed.
      rewrite Hprobe. by destruct m.
    + by destruct (Hrun key p b (list_elem_of_here _ _)).
Qed.

(** A sweep that returns has cancelled no probe. *)
Lemma health_check_loop_returned (items : list (AIProvider * AIServiceProvider)) :
  forall (m : AIServiceManager R) (history : list AIProvider),
  fst (health_check_loop health_check items (m, history)) = Return tt ->
  uncancelled items.
Proof.
  induction items as [|[key p] rest IH]; intros m history Hret k q b Hin.
  - by apply not_elem_of_nil in Hin.
  - cbn [health_check_loop] in Hret. unfold try_except, bind at 1 in Hret.
    unfold update_manager, bind, lift, modify in Hret. cbn [fst snd] in Hret.
    apply elem_of_cons in Hin as [[= -> ->]|Hin].
    + destruct (health_check p) as [healthy|e|b'] eqn:Hprobe;
        cbn [fst snd] in Hret; [done|done|discriminate Hret].
    + destruct (health_check p) as [healthy|e|b'] eqn:Hprobe;
        cbn [fst snd] in Hret;
        [by apply (IH _ _ Hret k q b)|by apply (IH _ _ Hret k q b)
        |discriminate Hret].
Qed.

Lemma registered_uncancelled (m : AIServiceManager R) :
  (forall key p b, providers m !! key = Some p -> health_check p <> RaiseBase b) ->
  uncancelled (map_to_list (providers m)).
Proof.
  intros Hrun key p b Hin. apply (Hrun key p b).
  by apply elem_of_map_to_list.
Qed.

Lemma health_check_all_run (m : AIServiceManager R) (history : list AIProvider) :
  uncancelled (map_to_list (providers m)) ->
  _health_check_all health_check (m, history)
    = (Return tt, (after_sweep m, history)).
Proof.
  intros Hrun.
  unfold _health_check_all, bind, on_manager, gets. cbn [fst snd].
  by apply health_check_loop_swept.
Qed.

Lemma health_check_all_returned (m : AIServiceManager R)
    (history : list AIProvider) :
  fst (_health_check_all health_check (m, history)) = Return tt ->
  _health_check_all health_check (m, history)
    = (Return tt, (after_sweep m, history)).
Proof.
  intros Hret. apply health_check_all_run.
  unfold _health_check_all, bind, on_manager, gets in Hret.
  cbn [fst snd] in Hret.
  by apply (health_check_loop_returned _ m history).
Qed.

Lemma swept_lookup (items : list (AIProvider * AIServiceProvider)) :
  NoDup (items.*1) ->
  forall (health : gmap AIProvider bool) (key : AIProvider),
  (forall p, (key, p) ∈ items -> swept items health !! key = Some (probed p)) /\
  (key ∉ items.*1 -> swept items health !! key = health !! key).
Proof.
  induction items as [|[k0 p0] rest IH]; intros Hnodup health key.
  - split; [|done]. intros p Hin. by apply not_elem_of_nil in Hin.
  - cbn [fmap list_fmap fst] in Hnodup.
    apply list.NoDup_cons in Hnodup as [Hfresh Hnodup].
    cbn [swept fold_left fst snd]. fold (swept rest (<[k0 := probed p0]> health)).
    destruct (IH Hnodup (<[k0 := probed p0]> health) key) as [Hin Hout].
    split.
    + intros p [Hhead|Htail]%elem_of_cons.
      * injection Hhead as -> ->. rewrite Hout by done.
        apply lookup_insert_eq.
      * by apply Hin.
    + intros Hnot. cbn in Hnot. apply not_elem_of_cons in Hnot as [Hne Hnot].
      rewrite Hout by done. by rewrite lookup_insert_ne.
Qed.

Lemma after_sweep_registered (m : AIServiceManager R) (key : AIProvider)
    (p : AIServiceProvider) :
  providers m !! key = Some p ->
  health_status (after_sweep m) !! key = Some (probed p).
Proof.
  intros Hp. unfold after_sweep. cbn [health_status with_health_status].
  apply (swept_lookup _ (NoDup_fst_map_to_list (providers m))).
  by apply elem_of_map_to_list.
Qed.

Lemma after_sweep_unregistered (m : AIServiceManager R) (key : AIProvider) :
  providers m !! key = None ->
  health_status (after_sweep m) !! key = health_status m !! key.
Proof.
  intros Hnone. unfold after_sweep. cbn [health_status with_health_status].
  apply (swept_lookup _ (NoDup_fst_map_to_list (providers m))).
  intros [[k p] [Hk Hin]]%list_elem_of_fmap. cbn in Hk. subst k.
  apply elem_of_map_to_list in Hin. congruence.
Qed.

Lemma after_sweep_usable (m : AIServiceManager R) (key : AIProvider) :
  usable (after_sweep m) key = true <->
  exists p, providers m !! key = Some p /\ health_check p = Return true.
Proof.
  unfold usable. change (providers (after_sweep m)) with (providers m).
  destruct (providers m !! key) as [p|] eqn:Hp.
  - rewrite (after_sweep_registered m key p Hp).
    rewrite bool_decide_true by eauto. cbn.
    unfold probed. split.
    + intros Hprobe. exists p. split; [done|].
      by destruct (health_check p) as [[]| |].
    + intros (p' & [= <-] & ->). done.
  - rewrite bool_decide_false by (by intros [? ?]). cbn. split; [done|].
    by intros (p' & Hp' & _).
Qed.

(** X19: a health sweep in which no probe is cancelled returns and calls
    no provider's [query].  Afterwards every registered provider has a health
    entry, the answer of its probe or unhealthy if the probe raised; so a
    provider is usable exactly when it is registered and its probe answered
    [True].  Entries of providers that are not registered are left as they
    were, and nothing else in the manager changes. *)
Theorem health_sweep (m : AIServiceManager R) (history : list AIProvider) :
  (forall key p b, providers m !! key = Some p -> health_check p <> RaiseBase b) ->
  let run := _health_check_all health_check (m, history) in
  let m' := fst (snd run) in
  fst run = Return tt /\
  snd (snd run) = history /\
  m' = with_health_status (health_status m') m /\
  (forall key p, providers m !! key = Some p ->
     health_status m' !! key
       = Some (match health_check p with
               | Return healthy => healthy
               | _ => false
               end)) /\
  (forall key, providers m !! key = None ->
     health_status m' !! key = health_status m !! key) /\
  (forall key, usable m' key = true <->
     exists p, providers m !! key = Some p /\ health_check p = Return true).
Proof.
  intros Hrun run m'. subst run m'.
  rewrite health_check_all_run by by apply registered_uncancelled.
  cbn [fst snd].
  split; [done|]. split; [done|].
  split; [unfold after_sweep; by destruct m|].
  split; [apply after_sweep_registered|].
  split; [apply after_sweep_unregistered|apply after_sweep_usable].
Qed.

(** A manager in which no provider is usable answers every query the same
    way. *)
Lemma route_query_nothing_usable (m : AIServiceManager R)
    (history : list AIProvider) (prompt : string) (context : QueryContext R)
    (system_prompt : option string) (fallback : bool) :
  (forall key, usable m key = false) ->
  route_query provider_query prompt context system_prompt fallback (m, history)
    = (Raise (mkExc Exception_ "No healthy AI providers available"),
       (m, history)).
Proof.
  intros Hnone. rewrite route_query_without_preference.
  - rewrite available_providers_none; [done|]. intros p _. apply Hnone.
  - unfold no_usable_preference.
    destruct (preferred_provider context) as [preferred|]; [|done].
    apply Hnone.
Qed.

(** X20: after a health sweep that has returned and in which no probe of
    a registered provider answered [True], every query fails with "No healthy
    AI providers available" without a single call, whatever its category, its
    preferred provider and its fallback flag. *)
Theorem no_query_after_failed_sweep
    (m : AIServiceManager R) (history : list AIProvider) (prompt : string)
    (context : QueryContext R) (system_prompt : option string) (fallback : bool) :
  fst (_health_check_all health_check (m, history)) = Return tt ->
  (forall key p, providers m !! key = Some p -> health_check p <> Return true) ->
  let m' := fst (snd (_health_check_all health_check (m, history))) in
  route_query provider_query prompt context system_prompt fallback (m', history)
    = (Raise (mkExc Exception_ "No healthy AI providers available"),
       (m', history)).
Proof.
  intros Hret Hdown m'. subst m'.
  rewrite (health_check_all_returned m history Hret). cbn [fst snd].
  apply route_query_nothing_usable. intros key.
  destruct (usable (after_sweep m) key) eqn:E; [|done].
  apply after_sweep_usable in E as (p & Hp & Hprobe).
  by destruct (Hdown key p Hp).
Qed.

(** X21: [shutdown] unregisters every provider and forgets the cached
    health but keeps the routing table and the performance metrics; from then
    on every query fails with "No healthy AI providers available" without a
    call. *)
Theorem no_query_after_shutdown
    (m : AIServiceManager R) (history : list AIProvider) (prompt : string)
    (context : QueryContext R) (system_prompt : option string) (fallback : bool) :
  let run := shutdown (m, history) in
  let m' := fst (snd run) in
  fst run = Return tt /\
  providers m' = ∅ /\
  health_status m' = ∅ /\
  routing_rules m' = routing_rules m /\
  performance_metrics m' = performance_metrics m /\
  route_query provider_query prompt context system_prompt fallback (snd run)
    = (Raise (mkExc Exception_ "No healthy AI providers available"), snd run).
Proof.
  intros run m'. subst run m'. unfold shutdown. router_unfold. cbn.
  repeat (split; [done|]).
  apply route_query_nothing_usable. intros key. unfold usable. cbn.
  rewrite lookup_empty. by rewrite bool_decide_false by (by intros [? ?]).
Qed.

(** The configuration key [initialize] reads for a provider, and the
    provider object its constructor builds. *)
Definition config_key (key : AIProvider) : string :=
  match key with
  | CLAUDE => "claude_api_key"
  | CHATGPT => "openai_api_key"
  | GEMINI => "gemini_api_key"
  | LOCAL => "local_ai_endpoint"
  end.

Definition constructed (key : AIProvider) : AIServiceProvider :=
  match key with
  | CLAUDE => mkProvider "Claude" CLAUDE
  | CHATGPT => mkProvider "ChatGPT" CHATGPT
  | GEMINI => mkProvider "Gemini" GEMINI
  | LOCAL => mkProvider "Local" LOCAL
  end.

Definition register (config : pydict) (key : AIProvider)
    (table : gmap AIProvider AIServiceProvider)
  : gmap AIProvider AIServiceProvider :=
  if configured config (config_key key)
  then <[key := constructed key]> table
  else table.

(** The provider table after the four tests of [initialize], when the
    constructors return. *)
Definition registered (config : pydict)
    (table : gmap AIProvider AIServiceProvider)
  : gmap AIProvider AIServiceProvider :=
  register config LOCAL
    (register config GEMINI
       (register config CHATGPT
          (register config CLAUDE table))).

(** The constructor of every configured kind returns. *)
Definition constructors_return (config : pydict) : Prop :=
  forall key value,
    config !! config_key key = Some value -> truthy value = true ->
    construct client_setup key value = Return (constructed key).

Lemma register_lookup (config : pydict) (key key' : AIProvider)
    (table : gmap AIProvider AIServiceProvider) :
  register config key table !! key'
    = if decide (key = key')
      then (if configured config (config_key key)
            then Some (constructed key) else table !! key')
      else table !! key'.
Proof.
  unfold register. case_decide as Hk.
  - subst key'. destruct (configured config (config_key key)); [|done].
    apply lookup_insert_eq.
  - destruct (configured config (config_key key)); [|done].
    by rewrite lookup_insert_ne.
Qed.

Lemma registered_lookup (config : pydict) (key : AIProvider)
    (table : gmap AIProvider AIServiceProvider) :
  registered config table !! key
    = if configured config (config_key key)
      then Some (constructed key) else table !! key.
Proof.
  unfold registered. rewrite !register_lookup.
  destruct key; repeat case_decide; done.
Qed.

Lemma register_run (config : pydict) (key : AIProvider)
    (m : AIServiceManager R) (history : list AIProvider) :
  constructors_return config ->
  register_if_configured client_setup config (config_key key) key (m, history)
    = (Return tt,
       (with_providers (register config key (providers m)) m, history)).
Proof.
  intros Hctor. unfold register_if_configured, register, configured.
  destruct (config !! config_key key) as [value|] eqn:Hvalue.
  - destruct (truthy value) eqn:Htruthy.
    + router_unfold. rewrite (Hctor key value Hvalue Htruthy). by cbn.
    + cbn. by destruct m.
  - cbn. by destruct m.
Qed.

Lemma register_skip (config : pydict) (key : AIProvider)
    (s : RouterState R) :
  configured config (config_key key) = false ->
  register_if_configured client_setup config (config_key key) key s
    = (Return tt, s).
Proof.
  unfold register_if_configured, configured.
  destruct (config !! config_key key) as [value|]; [|done].
  by intros ->.
Qed.

Lemma initialize_run (config : pydict) (m : AIServiceManager R)
    (history : list AIProvider) :
  constructors_return config ->
  initialize client_setup health_check config (m, history)
    = _health_check_all health_check
        (with_providers (registered config (providers m)) m, history).
Proof.
  intros Hctor. unfold initialize.
  change "claude_api_key" with (config_key CLAUDE).
  change "openai_api_key" with (config_key CHATGPT).
  change "gemini_api_key" with (config_key GEMINI).
  change "local_ai_endpoint" with (config_key LOCAL).
  unfold bind at 1. rewrite (register_run config CLAUDE m history Hctor).
  unfold bind at 1. rewrite (register_run config CHATGPT _ history Hctor).
  unfold bind at 1. rewrite (register_run config GEMINI _ history Hctor).
  unfold bind at 1. rewrite (register_run config LOCAL _ history Hctor).
  unfold registered. by destruct m.
Qed.

(** X22: when the constructor of every configured kind returns and no
    probe is cancelled, [initialize] returns and sends no query.  It has
    registered the provider of each of the four kinds exactly when the value
    under its configuration key is truthy (a missing key, [None] and the empty
    string register nothing) and kept whatever was registered before under
    the other kinds; afterwards a provider is usable exactly when it is
    registered and its probe answered [True]. *)
Theorem initialize_registers_configured (config : pydict)
    (m : AIServiceManager R) (history : list AIProvider) :
  (forall key value,
     config !! config_key key = Some value -> truthy value = true ->
     construct client_setup key value = Return (constructed key)) ->
  (forall p b, health_check p <> RaiseBase b) ->
  let run := initialize client_setup health_check config (m, history) in
  let m' := fst (snd run) in
  fst run = Return tt /\
  snd (snd run) = history /\
  (forall key,
     providers m' !! key
       = if configured config (config_key key)
         then Some (constructed key)
         else providers m !! key) /\
  (forall key, usable m' key = true <->
     exists p, providers m' !! key = Some p /\ health_check p = Return true).
Proof.
  intros Hctor Hrun run m'. subst run m'.
  rewrite (initialize_run config m history Hctor).
  rewrite health_check_all_run by (intros key p b _; apply Hrun).
  cbn [fst snd].
  split; [done|]. split; [done|]. split.
  - intros key. unfold after_sweep. cbn [providers with_health_status with_providers].
    apply registered_lookup.
  - intros key. rewrite after_sweep_usable.
    unfold after_sweep. by cbn [providers with_health_status with_providers].
Qed.

(** X23: a freshly constructed manager initialised from a configuration in
    which none of the four keys has a truthy value has no provider, and every
    query sent to it fails with "No healthy AI providers available" without a
    call. *)
Theorem nothing_configured (config : pydict) (history : list AIProvider)
    (prompt : string) (context : QueryContext R)
    (system_prompt : option string) (fallback : bool) :
  (forall key, configured config (config_key key) = false) ->
  let started :=
    snd (initialize client_setup health_check config (init, history)) in
  providers (fst started) = ∅ /\
  route_query provider_query prompt context system_prompt fallback started
    = (Raise (mkExc Exception_ "No healthy AI providers available"), started).
Proof.
  intros Hnone started. subst started.
  assert (Hrun : initialize (R := R) client_setup health_check config
                   (init, history)
                 = (Return tt, (init, history))).
  { unfold initialize.
    change "claude_api_key" with (config_key CLAUDE).
    change "openai_api_key" with (config_key CHATGPT).
    change "gemini_api_key" with (config_key GEMINI).
    change "local_ai_endpoint" with (config_key LOCAL).
    unfold bind at 1. rewrite (register_skip config CLAUDE _ (Hnone CLAUDE)).
    unfold bind at 1. rewrite (register_skip config CHATGPT _ (Hnone CHATGPT)).
    unfold bind at 1. rewrite (register_skip config GEMINI _ (Hnone GEMINI)).
    unfold bind at 1. rewrite (register_skip config LOCAL _ (Hnone LOCAL)).
    unfold _health_check_all, bind, on_manager, gets. cbn [fst snd init providers].
    by rewrite map_to_list_empty. }
  rewrite Hrun. cbn [fst snd]. split; [done|].
  apply route_query_nothing_usable. intros key. unfold usable. cbn.
  rewrite lookup_empty. by rewrite bool_decide_false by (by intros [? ?]).
Qed.

End Lifecycle.

(** The witness of X19: the three providers of the scenario, swept with
    probes that answer [False] or raise. *)
Lemma health_sweep_witness :
  let run :=
    _health_check_all RouterScenario.probe_down (RouterScenario.manager, []) in
  fst run = Return tt /\
  health_status (fst (snd run)) !! CLAUDE = Some false /\
  health_status (fst (snd run)) !! CHATGPT = Some false /\
  health_status (fst (snd run)) !! LOCAL = None.
Proof.
  destruct (health_sweep RouterScenario.probe_down RouterScenario.manager [])
    as (Hret & _ & _ & Hreg & Hunreg & _).
  { intros key p b Hp.
    destruct key; vm_compute in Hp; try discriminate; by injection Hp as <-. }
  split; [exact Hret|].
  split; [exact (Hreg CLAUDE RouterScenario.claude eq_refl)|].
  split; [exact (Hreg CHATGPT RouterScenario.chatgpt eq_refl)|].
  exact (Hunreg LOCAL eq_refl).
Defined.

(** The witness of X20: the three providers of the scenario, swept with
    probes that answer [False] or raise; a query that prefers Claude. *)
Lemma no_query_after_failed_sweep_witness :
  route_query RouterScenario.gemini_fails "Who posted this?"
      (RouterScenario.context ANALYSIS (Some CLAUDE)) None true
      (fst (snd (_health_check_all RouterScenario.probe_down
                   (RouterScenario.manager, []))), [])
    = (Raise (mkExc Exception_ "No healthy AI providers available"),
       (fst (snd (_health_check_all RouterScenario.probe_down
                    (RouterScenario.manager, []))), [])).
Proof.
  apply (no_query_after_failed_sweep RouterScenario.probe_down
           RouterScenario.gemini_fails RouterScenario.manager []
           "Who posted this?" (RouterScenario.context ANALYSIS (Some CLAUDE))
           None true).
  - reflexivity.
  - intros key p Hp.
    destruct key; vm_compute in Hp; try discriminate; by injection Hp as <-.
Defined.

(** The witness of X22: a Claude key and a local endpoint are configured;
    Claude's probe answers, the local model's as well. *)
Lemma initialize_registers_configured_witness :
  let run :=
    initialize (R := float) RouterScenario.client_ok RouterScenario.probe_mixed
      RouterScenario.two_keys (init, []) in
  fst run = Return tt /\
  providers (fst (snd run)) !! CLAUDE = Some RouterScenario.claude /\
  providers (fst (snd run)) !! CHATGPT = None /\
  providers (fst (snd run)) !! GEMINI = None /\
  providers (fst (snd run)) !! LOCAL = Some (mkProvider "Local" LOCAL) /\
  usable (fst (snd run)) CLAUDE = true.
Proof.
  destruct (initialize_registers_configured (R := float)
              RouterScenario.client_ok RouterScenario.probe_mixed
              RouterScenario.two_keys init [])
    as (Hret & _ & Hreg & Husable).
  { intros key value _ _. by destruct key. }
  { intros p b. unfold RouterScenario.probe_mixed.
    by destruct (provider_type p). }
  split; [exact Hret|].
  split; [exact (Hreg CLAUDE)|]. split; [exact (Hreg CHATGPT)|].
  split; [exact (Hreg GEMINI)|]. split; [exact (Hreg LOCAL)|].
  apply Husable. exists RouterScenario.claude.
  split; [exact (Hreg CLAUDE)|reflexivity].
Defined.

(** Nothing in [initialize] catches what a constructor raises: when the
    Claude client rejects its key, [initialize] raises, no provider has been
    registered, and no sweep has run. *)
Example initialize_propagates_constructor_error :
  initialize (R := float) RouterScenario.client_rejects
      RouterScenario.probe_mixed RouterScenario.two_keys (init, [])
    = (Raise (mkExc Exception_ "invalid api key"), (init, [])).
Proof. reflexivity. Qed.

(** The witness of X23: a configuration with an empty Claude key, a [None]
    OpenAI key and no other provider key. *)
Lemma nothing_configured_witness :
  providers
    (fst (snd (initialize (R := float) RouterScenario.client_ok
                 RouterScenario.probe_down
                 RouterScenario.blank_config (init, [])))) = ∅ /\
  route_query RouterScenario.gemini_fails "Who posted this?"
      (RouterScenario.context ANALYSIS None) None true
      (snd (initialize RouterScenario.client_ok RouterScenario.probe_down
              RouterScenario.blank_config (init, [])))
    = (Raise (mkExc Exception_ "No healthy AI providers available"),
       snd (initialize RouterScenario.client_ok RouterScenario.probe_down
              RouterScenario.blank_config (init, []))).
Proof.
  apply (nothing_configured RouterScenario.client_ok RouterScenario.probe_down
           RouterScenario.gemini_fails RouterScenario.blank_config []
           "Who posted this?" (RouterScenario.context ANALYSIS None) None true).
  intros key. by destruct key.
Defined.

End LifecycleFacts.

(** * Properties of the listener list *)

Module ListenerFacts.

Import AgentBase AgentFacts.

Lemma list_remove_last (ws : WebSocket) (l : list WebSocket) :
  list_remove ws (l ++ [ws])
    = if decide (ws ∈ l) then list_remove ws l ++ [ws] else l.
Proof.
  induction l as [|y l IH]; cbn.
  - rewrite decide_True by done. by rewrite decide_False by apply not_elem_of_nil.
  - destruct (decide (ws = y)) as [->|Hne].
    + by rewrite decide_True by apply list_elem_of_here.
    + rewrite IH. destruct (decide (ws ∈ l)) as [Hin|Hnot].
      * by rewrite decide_True by by apply list_elem_of_further.
      * rewrite decide_False; [done|].
        by intros [?|?]%elem_of_cons.
Qed.

(** X24: subscribing a listener and then unsubscribing it.  Both calls
    return and leave the world alone.  For a listener that was not
    subscribed the agent is back as it was; for one that was subscribed
    already, [append] has added a second entry and [remove] takes out the
    older one, so the listener stays subscribed, now at the end of the
    list, and the list has its old length. *)
Theorem subscribe_then_unsubscribe (ws : WebSocket) (a : ObsidianAgent)
    (w : World) :
  let run :=
    (exec add_websocket_client ws in remove_websocket_client ws) (a, w) in
  let listeners := websocket_connections (fst (snd run)) in
  fst run = Return tt /\
  snd (snd run) = w /\
  fst (snd run) = with_websocket_connections listeners a /\
  (ws ∉ websocket_connections a -> fst (snd run) = a) /\
  (ws ∈ websocket_connections a ->
     listeners = list_remove ws (websocket_connections a) ++ [ws] /\
     ws ∈ listeners /\
     length listeners = length (websocket_connections a)).
Proof.
  intros run listeners. subst listeners run.
  unfold add_websocket_client, remove_websocket_client. agent_unfold.
  cbn [fst snd websocket_connections with_websocket_connections].
  rewrite decide_True by (apply elem_of_app; right; apply list_elem_of_here).
  cbn [fst snd websocket_connections with_websocket_connections].
  rewrite list_remove_last.
  split; [done|]. split; [by destruct w|]. split; [by destruct a|].
  split.
  - intros Hnot. rewrite decide_False by done. by destruct a.
  - intros Hin. rewrite decide_True by done. split; [done|].
    split; [apply elem_of_app; right; apply list_elem_of_here|].
    rewrite length_app. cbn.
    clear -Hin. induction (websocket_connections a) as [|y l IH].
    + by apply not_elem_of_nil in Hin.
    + cbn. destruct (decide (ws = y)) as [->|Hne]; [lia|].
      cbn. apply elem_of_cons in Hin as [?|Hin]; [done|].
      specialize (IH Hin). lia.
Qed.

End ListenerFacts.
